(** * Flow Lite Mini App: telemetry client, bank directory, redirect page

    A shallow embedding of the three browser scripts of [services/WebApp]:
    - [js/api.js]            (module [ApiClient]),
    - [js/banks.js]          (module [BankLoader]),
    - [redirect/redirect.js] (module [Redirect]),
    followed by the properties proved about them.

    JavaScript values are an inductive type, objects are finite maps from
    property names to values, and a script is a computation in a small
    monad [JS] that threads the page state, can throw, and records every
    call it makes into the host (console, JSON, fetch, timers, listeners,
    DOM and location writes) as a list of effects.  What the host decides
    (clock, serializer, network, whether a location write raises, which
    DOM elements exist) is a record [Env] of oracles. *)

From stdpp Require Import gmap strings list fin_maps pretty.
From Stdlib Require Import Floats.SpecFloat ZArith.

Local Set Warnings "-register-all".
Local Open Scope string_scope.

(* ================================================================== *)
(** * JavaScript values and the computation monad                      *)
(* ================================================================== *)

Module JS.

(** Values.  A number is an IEEE-754 double, kept as data only. *)
Inductive value : Type :=
  | VUndefined
  | VNull
  | VBool (b : bool)
  | VNumber (x : spec_float)
  | VString (s : string)
  | VObject (props : gmap string value)
  | VArray (elems : list value).

(** An object literal. *)
Definition obj (fields : list (string * value)) : value :=
  VObject (list_to_map fields).

Definition empty_object : value := VObject ∅.

(** ToBoolean. *)
Definition truthy (v : value) : bool :=
  match v with
  | VUndefined | VNull => false
  | VBool b => b
  | VNumber (S754_zero _) | VNumber S754_nan => false
  | VNumber _ => true
  | VString s => negb (String.eqb s "")
  | VObject _ | VArray _ => true
  end.

(** [a || b] when evaluating [b] has no effect. *)
Definition or_value (a b : value) : value := if truthy a then a else b.

Infix "|||" := or_value (at level 50, left associativity).

(** [a || b] on strings: the empty string is the only falsy one. *)
Definition or_string (a b : string) : string :=
  if String.eqb a "" then b else a.

(** A constant or a result that may be absent, as a value. *)
Definition of_option (o : option string) : value :=
  match o with
  | Some s => VString s
  | None => VUndefined
  end.

(** Own properties of a value that [Object.assign] copies from a source:
    the fields of an object, the indexed elements of an array and the
    indexed characters of a string (exact for ASCII strings, the only
    ones whose code units are the bytes kept here); nothing for the other
    primitives. *)
Fixpoint string_chars (s : string) : list value :=
  match s with
  | EmptyString => []
  | String c rest => VString (String c EmptyString) :: string_chars rest
  end.

Definition indexed (l : list value) : gmap string value :=
  list_to_map (imap (fun i v => (pretty i, v)) l).

Definition own_props (v : value) : gmap string value :=
  match v with
  | VObject m => m
  | VArray l => indexed l
  | VString s => indexed (string_chars s)
  | _ => ∅
  end.

(** [Object.assign(target, s1, ..., sn)]: every source in turn overwrites
    the properties gathered so far. *)
Definition object_assign (target : gmap string value) (sources : list value)
  : gmap string value :=
  foldl (fun acc src => own_props src ∪ acc) target sources.

(** Reading property [k] of a value that is neither [undefined] nor
    [null].  The scripts read only names that no built-in prototype
    defines, so a primitive or an array yields [undefined]. *)
Definition get_prop (v : value) (k : string) : value :=
  match v with
  | VObject m => default VUndefined (m !! k)
  | _ => VUndefined
  end.

(** Thrown values. *)
Inductive JsError : Type :=
  | TypeError (msg : string)
  | Error (msg : string)
  | SyntaxError (msg : string)
  | HostError (tag : string).

Inductive Completion (A : Type) : Type :=
  | Normal (a : A)
  | Throw (e : JsError).
Arguments Normal {A} a.
Arguments Throw {A} e.

(** ** Data of the bank directory *)

(** A bank descriptor with the shape of the directory resource: string
    fields.  [logo] is absent from the descriptor the redirect page
    synthesizes. *)
Record BankDescriptor : Type := mkBank {
  id : string;
  title : string;
  logo : option string;
  deeplink : string;
  fallback_url : string
}.

(** An HTTP response: [ok] is true for the statuses 200 to 299; reading
    the body as JSON yields a directory or fails. *)
Record Response : Type := mkResponse {
  status : Z;
  json_body : option (list BankDescriptor)
}.

Definition response_ok (r : Response) : bool :=
  ((200 <=? status r)%Z && (status r <=? 299)%Z)%bool.

(** How a fetch settles. *)
Inductive FetchOutcome : Type :=
  | NetworkError (e : JsError)
  | Responded (r : Response).

(** ** Closures kept by the host *)

(** The function values the redirect page hands to the host. *)
Inductive Callback : Type :=
  | CbSwitchToFallback (bank : BankDescriptor)   (* the timer's function *)
  | CbClearTimeout (timer : nat)                 (* the blur listener *)
  | CbManualClick (bank : BankDescriptor).       (* the link's click listener *)

(** Who consumes the promise of [loadBanks]. *)
Inductive BanksConsumer : Type :=
  | RedirectPage (bankId : string).

(** The reactions attached to the promise of a fetch. *)
Inductive FetchReactions : Type :=
  | TelemetryPost
  | BankDirectory (consumer : BanksConsumer).

Record RequestInit : Type := mkInit {
  method : option string;
  headers : list (string * string);
  body : option string;
  cache : option string
}.

(** ** Effects: the calls a script makes into the host, in order *)
Inductive Effect : Type :=
  | EConsoleDebug (msg : string)
  | EStringify (v : value)
  | EFetch (promise : nat) (url : string) (init : RequestInit)
  | ESetTimeout (timer : nat) (cb : Callback) (delay : Z)
  | EClearTimeout (timer : nat)
  | EAddWindowListener (type : string) (cb : Callback) (once : bool)
  | EAddLinkListener (type : string) (cb : Callback)
  | ESetStatusText (text : string)
  | ESetLinkHref (url : string)
  | ESetLocationHref (url : string)
  | EUncaught (e : JsError).

(** ** Page state *)
Record World : Type := mkWorld {
  telegramContext : gmap string value;  (* the object the bridge returned *)
  date_calls : nat;                     (* how often the clock was read *)
  next_handle : nat;                    (* next timer or promise handle *)
  timers : list (nat * Callback);       (* pending one-shot timers *)
  fetches : list (nat * FetchReactions);(* fetches not yet settled *)
  blur_listeners : list (Callback * bool);
  click_listeners : list Callback;
  alive : bool                          (* the page has not been unloaded *)
}.

(** ** Configuration and what the host decides *)
Record Env : Type := mkEnv {
  API_BASE_URL : option string;          (* the constant of api.js, if set *)
  navigator_userAgent : value;
  navigator_language : value;
  navigator_platform : value;
  clock : nat -> string;                 (* n-th [new Date().toISOString()] *)
  json_stringify : value -> option string;   (* [None]: it throws *)
  fetch_throws : string -> option JsError;   (* raised by the call itself *)
  resolve_url : string -> string -> option string; (* [new URL(path, base)] *)
  location_href : string;
  pathname_has_redirect : bool;          (* pathname.includes('/redirect/') *)
  query_transfer_id : option string;     (* query.get('transfer_id') *)
  query_bank_id : option string;         (* query.get('bank_id') *)
  has_status_text : bool;                (* getElementById found it *)
  has_fallback_link : bool;
  href_assign_throws : string -> option JsError
}.

(** ** The monad *)
Record Result (A : Type) : Type := mkResult {
  res : Completion A;
  world : World;
  effects : list Effect
}.
Arguments mkResult {A} res world effects.
Arguments res {A} r.
Arguments world {A} r.
Arguments effects {A} r.

Definition JS (A : Type) : Type := World -> Result A.

Definition ret {A} (a : A) : JS A := fun w => mkResult (Normal a) w [].

Definition throw {A} (e : JsError) : JS A := fun w => mkResult (Throw e) w [].

Definition bind {A B} (c : JS A) (k : A -> JS B) : JS B := fun w =>
  let r := c w in
  match res r with
  | Normal a =>
      let r' := k a (world r) in
      mkResult (res r') (world r') (effects r ++ effects r')
  | Throw e => mkResult (Throw e) (world r) (effects r)
  end.

(** [try { c } catch (error) { h error }]; also [p.catch(h)] on a promise
    whose rejection is the throw of [c]. *)
Definition try_catch {A} (c : JS A) (h : JsError -> JS A) : JS A := fun w =>
  let r := c w in
  match res r with
  | Normal a => r
  | Throw e =>
      let r' := h e (world r) in
      mkResult (res r') (world r') (effects r ++ effects r')
  end.

Definition emit (e : Effect) : JS unit := fun w => mkResult (Normal tt) w [e].

#[export] Instance JS_ret : MRet JS := @ret.
#[export] Instance JS_bind : MBind JS := fun A B k c => bind c k.

(** [v.k]: a [TypeError] on [undefined] and [null]. *)
Definition get_member (v : value) (k : string) : JS value :=
  match v with
  | VUndefined | VNull => throw (TypeError ("cannot read property " ++ k))
  | _ => ret (get_prop v k)
  end.

Definition console_debug (msg : string) : JS unit := emit (EConsoleDebug msg).

(** ** Field updates of the page state *)
Definition set_telegramContext (c : gmap string value) (w : World) : World :=
  mkWorld c (date_calls w) (next_handle w) (timers w) (fetches w)
          (blur_listeners w) (click_listeners w) (alive w).

Definition set_date_calls (n : nat) (w : World) : World :=
  mkWorld (telegramContext w) n (next_handle w) (timers w) (fetches w)
          (blur_listeners w) (click_listeners w) (alive w).

Definition set_next_handle (n : nat) (w : World) : World :=
  mkWorld (telegramContext w) (date_calls w) n (timers w) (fetches w)
          (blur_listeners w) (click_listeners w) (alive w).

Definition set_timers (t : list (nat * Callback)) (w : World) : World :=
  mkWorld (telegramContext w) (date_calls w) (next_handle w) t (fetches w)
          (blur_listeners w) (click_listeners w) (alive w).

Definition set_fetches (f : list (nat * FetchReactions)) (w : World) : World :=
  mkWorld (telegramContext w) (date_calls w) (next_handle w) (timers w) f
          (blur_listeners w) (click_listeners w) (alive w).

Definition set_blur_listeners (l : list (Callback * bool)) (w : World) : World :=
  mkWorld (telegramContext w) (date_calls w) (next_handle w) (timers w)
          (fetches w) l (click_listeners w) (alive w).

Definition set_click_listeners (l : list Callback) (w : World) : World :=
  mkWorld (telegramContext w) (date_calls w) (next_handle w) (timers w)
          (fetches w) (blur_listeners w) l (alive w).

Definition set_alive (b : bool) (w : World) : World :=
  mkWorld (telegramContext w) (date_calls w) (next_handle w) (timers w)
          (fetches w) (blur_listeners w) (click_listeners w) b.

Definition modify (f : World -> World) : JS unit := fun w =>
  mkResult (Normal tt) (f w) [].

(** Removing the entries of handle [h]. *)
Fixpoint remove_handle {A} (h : nat) (l : list (nat * A)) : list (nat * A) :=
  match l with
  | [] => []
  | (h', a) :: rest =>
      if Nat.eqb h' h then remove_handle h rest
      else (h', a) :: remove_handle h rest
  end.

Fixpoint find_handle {A} (h : nat) (l : list (nat * A)) : option A :=
  match l with
  | [] => None
  | (h', a) :: rest => if Nat.eqb h' h then Some a else find_handle h rest
  end.

(** ** Host primitives *)
Section Host.
Context (env : Env).

(** [new Date().toISOString()] *)
Definition date_now_iso : JS value := fun w =>
  mkResult (Normal (VString (clock env (date_calls w))))
           (set_date_calls (S (date_calls w)) w) [].

(** [JSON.stringify(v)] *)
Definition JSON_stringify (v : value) : JS string :=
  _ ← emit (EStringify v);
  match json_stringify env v with
  | Some s => ret s
  | None => throw (TypeError "JSON.stringify")
  end.

Definition fresh_handle : JS nat := fun w =>
  mkResult (Normal (next_handle w)) (set_next_handle (S (next_handle w)) w) [].

(** [fetch(url, init)] with the reactions later attached to its promise.
    The effect is recorded when the request is started. *)
Definition fetch (url : string) (init : RequestInit) (k : FetchReactions)
  : JS nat :=
  match fetch_throws env url with
  | Some e => throw e
  | None =>
      p ← fresh_handle;
      _ ← emit (EFetch p url init);
      _ ← modify (fun w => set_fetches (fetches w ++ [(p, k)]) w);
      ret p
  end.

(** [setTimeout(cb, delay)] *)
Definition setTimeout (cb : Callback) (delay : Z) : JS nat :=
  t ← fresh_handle;
  _ ← emit (ESetTimeout t cb delay);
  _ ← modify (fun w => set_timers (timers w ++ [(t, cb)]) w);
  ret t.

(** [clearTimeout(t)] *)
Definition clearTimeout (t : nat) : JS unit :=
  _ ← emit (EClearTimeout t);
  modify (fun w => set_timers (remove_handle t (timers w)) w).

(** [window.addEventListener('blur', cb, { once })] *)
Definition window_addBlurListener (cb : Callback) (once : bool) : JS unit :=
  _ ← emit (EAddWindowListener "blur" cb once);
  modify (fun w => set_blur_listeners (blur_listeners w ++ [(cb, once)]) w).

(** [window.location.href = url]: the write is recorded, then the host
    may raise. *)
Definition set_location_href (url : string) : JS unit :=
  _ ← emit (ESetLocationHref url);
  match href_assign_throws env url with
  | Some e => throw e
  | None => ret tt
  end.

(** [statusText.textContent = text] *)
Definition set_status_text (text : string) : JS unit :=
  if has_status_text env then emit (ESetStatusText text)
  else throw (TypeError "statusText is null").

(** [fallbackLink.href = url] *)
Definition set_link_href (url : string) : JS unit :=
  if has_fallback_link env then emit (ESetLinkHref url)
  else throw (TypeError "fallbackLink is null").

(** [fallbackLink.addEventListener('click', cb)] *)
Definition link_addClickListener (cb : Callback) : JS unit :=
  if has_fallback_link env then
    _ ← emit (EAddLinkListener "click" cb);
    modify (fun w => set_click_listeners (click_listeners w ++ [cb]) w)
  else throw (TypeError "fallbackLink is null").

(** [window.TelegramBridge.getTelegramContext()], and every later read of
    the variable [telegramContext] that holds its result: the one object,
    in its current state, not a copy. *)
Definition getTelegramContext : JS value := fun w =>
  mkResult (Normal (VObject (telegramContext w))) w [].

End Host.

End JS.

(* ================================================================== *)
(** * js/api.js: the telemetry client                                  *)
(* ================================================================== *)

Module ApiClient.
Import JS.

(** The endpoint the script is shipped with. *)
Definition API_BASE_URL_shipped : option string :=
  Some "http://localhost:8080/api/webapp".

Section WithEnv.
Context (env : Env).

Definition buildPayload (context eventType bankId page extra : value)
  : JS value :=
  let safeContext := context ||| empty_object in
  tp ← get_member safeContext "transferPayload";
  let transferPayload := tp ||| empty_object in
  ip ← get_member transferPayload "payload";
  let inlinePayload := ip ||| empty_object in
  startParam ← get_member safeContext "startParam";
  transfer_id ←
    (if truthy startParam then ret startParam
     else
       unsafe ← get_member safeContext "initDataUnsafe";
       inner ← (if truthy unsafe
                then unsafe' ← get_member safeContext "initDataUnsafe";
                     get_member unsafe' "start_param"
                else ret (VString ""));
       ret (inner ||| VString ""));
  creator ← get_member inlinePayload "creator_tg_user_id";
  generated ← get_member inlinePayload "generated_at";
  parsed ← get_member inlinePayload "parsed";
  option ← get_member inlinePayload "option";
  ts ← date_now_iso env;
  initData ← get_member safeContext "initData";
  initDataUnsafe ← get_member safeContext "initDataUnsafe";
  let basePayload := obj [
    ("transfer_id", transfer_id);
    ("transfer_payload", transferPayload);
    ("inline_creator_tg_user_id", creator ||| VNull);
    ("inline_generated_at", generated ||| VString "");
    ("inline_parsed", parsed ||| empty_object);
    ("inline_option", option ||| empty_object);
    ("event_type", eventType);
    ("ts", ts);
    ("initData", initData ||| VString "");
    ("initDataUnsafe", initDataUnsafe ||| empty_object);
    ("userAgent", navigator_userAgent env ||| VString "");
    ("language", navigator_language env ||| VString "");
    ("platform", navigator_platform env ||| VString "");
    ("page", page);
    ("bank_id", bankId ||| VString "")
  ] in
  ret (VObject (object_assign ∅ [basePayload; extra ||| empty_object])).

Definition safePost (jsonBody : value) : JS unit :=
  match API_BASE_URL env with
  | Some url =>
      if negb (truthy (VString url)) then
        console_debug "ApiClient: BASE_URL не указан, пропускаем отправку"
      else
        try_catch
          (body ← JSON_stringify env jsonBody;
           _ ← fetch env url
                 (mkInit (Some "POST") [("Content-Type", "application/json")]
                         (Some body) None)
                 TelemetryPost;
           ret tt)
          (fun error => console_debug "ApiClient: исключение при отправке")
  | None =>
      console_debug "ApiClient: BASE_URL не указан, пропускаем отправку"
  end.

(** The reactions [.then(function () { return null; }).catch(...)] of the
    promise of [safePost]; [None] is a fulfilled fetch. *)
Definition safePost_settled (rejection : option JsError) : JS unit :=
  try_catch
    (match rejection with
     | None => ret tt
     | Some e => throw e
     end)
    (fun error => console_debug "ApiClient: отправка не удалась").

Definition sendWebAppOpen (context : value) : JS unit :=
  payload ← buildPayload context (VString "webapp_open") (VString "")
              (VString "miniapp") VUndefined;
  safePost payload.

Definition sendBankClick (context bankId : value) : JS unit :=
  payload ← buildPayload context (VString "bank_click") bankId
              (VString "miniapp") VUndefined;
  safePost payload.

Definition sendRedirectEvent (context bankId eventType pageOverride : value)
  : JS unit :=
  payload ← buildPayload context (eventType ||| VString "redirect_open")
              bankId (pageOverride ||| VString "redirect") VUndefined;
  safePost payload.

End WithEnv.
End ApiClient.

(* ================================================================== *)
(** * js/banks.js: the bank directory loader                           *)
(* ================================================================== *)

Module BankLoader.
Import JS.

(** The static list returned when loading fails. *)
Definition fallback_banks : list BankDescriptor := [
  mkBank "sber" "Сбербанк" (Some "assets/img/banks/sber.png")
    "https://www.sberbank.com/sms/pbpn?requisiteNumber=79309791051"
    "https://www.sberbank.com/sms/pbpn?requisiteNumber=79309791051";
  mkBank "alfabank" "Альфа-Банк" (Some "assets/img/banks/alfabank.png")
    "alfabank://account" "https://web.alfabank.ru/dashboard";
  mkBank "tbank" "Т-Банк" (Some "assets/img/banks/tbank.png")
    "tbank://main" "https://www.tbank.ru/mybank/";
  mkBank "rshb" "Россельхозбанк" (Some "assets/img/banks/rshb.png")
    "rshbmbfl://" "https://online.rshb.ru/cas-auth/index?forceAuth=true";
  mkBank "gazprombank" "Газпромбанк" (Some "assets/img/banks/gazprombank.png")
    "gpbapp://" "https://ib.online.gpb.ru/";
  mkBank "psb" "ПСБ" (Some "assets/img/banks/psb.png")
    "psbmobile://auth/accounts" "https://ib.psbank.ru/settings";
  mkBank "mkb" "МКБ" (Some "assets/img/banks/mkb.png")
    "mkb2://deeplink" "https://online.mkb.ru/login";
  mkBank "vtb" "ВТБ" (Some "assets/img/banks/vtb.png")
    "vtb://vtb.ru/i/" "https://online.vtb.ru/login";
  mkBank "mtsbank" "МТС Банк" (Some "assets/img/banks/mtsbank.png")
    "mtsmoney://" "https://sso.mtsbank.ru/login/mtsmoney/auth/";
  mkBank "pochtabank" "Почта Банк" (Some "assets/img/banks/pochtabank.png")
    "bank100000000016://sbpay" "https://my.pochtabank.ru/login";
  mkBank "sovcombank" "Совкомбанк" (Some "assets/img/banks/sovcombank.png")
    "ompshared://" "https://bk.sovcombank.ru/ru/html/login.html"
].

Section WithEnv.
Context (env : Env).

Definition configPath : string :=
  if pathname_has_redirect env then "../config/banks.json"
  else "./config/banks.json".

(** The call itself: it builds the URL and starts the fetch; [consumer]
    stands for the reactions the caller attaches to the returned
    promise. *)
Definition loadBanks (consumer : BanksConsumer) : JS nat :=
  requestUrl ←
    match resolve_url env configPath (location_href env) with
    | Some u => ret u
    | None => throw (TypeError "Invalid URL")
    end;
  fetch env requestUrl (mkInit None [] None (Some "no-cache"))
        (BankDirectory consumer).

(** The promise [fetch] returned, once the host settled it. *)
Definition fetch_settled (o : FetchOutcome) : JS Response :=
  match o with
  | NetworkError e => throw e
  | Responded r => ret r
  end.

(** [response.json()] *)
Definition response_json (r : Response) : JS (list BankDescriptor) :=
  match json_body r with
  | Some banks => ret banks
  | None => throw (SyntaxError "JSON.parse")
  end.

(** The promise [loadBanks] returns, [fetch(..).then(..).catch(..)],
    once the fetch settled with [o]: a normal completion is a
    fulfilment, a throw is a rejection. *)
Definition loadBanks_settled (o : FetchOutcome) : JS (list BankDescriptor) :=
  try_catch
    (response ← fetch_settled o;
     if negb (response_ok response) then
       throw (Error "Не удалось загрузить banks.json")
     else response_json response)
    (fun error =>
       _ ← console_debug
             "BankLoader: ошибка загрузки, используем запасной список";
       ret fallback_banks).

End WithEnv.
End BankLoader.

(* ================================================================== *)
(** * redirect/redirect.js: the redirect page                          *)
(* ================================================================== *)

Module Redirect.
Import JS.

Section WithEnv.
Context (env : Env).

(** [query.get(name) || ''] *)
Definition transferId : string :=
  match query_transfer_id env with
  | Some s => or_string s ""
  | None => ""
  end.

Definition bankId : string :=
  match query_bank_id env with
  | Some s => or_string s ""
  | None => ""
  end.

(** The object literal of lines 17-22 and 29-34. *)
Definition fallbackBank (bankId : string) : BankDescriptor :=
  mkBank (or_string bankId "unknown") "Ваш банк" None ""
         "https://www.google.com".

(** [banks.find(bank => bank.id === bankId) || banks[0] || {...}]:
    a descriptor is an object, hence truthy; a missing result is
    [undefined]. *)
Definition targetBank (banks : list BankDescriptor) (bankId : string)
  : BankDescriptor :=
  default (fallbackBank bankId)
    (List.find (fun bank => String.eqb (id bank) bankId) banks
       ∪ banks !! 0%nat).

Definition switchToFallback (bank : BankDescriptor) : JS unit :=
  ctx ← getTelegramContext;
  _ ← ApiClient.sendRedirectEvent env ctx (VString (id bank))
        (VString "redirect_fallback") VUndefined;
  if truthy (VString (fallback_url bank))
  then set_location_href env (fallback_url bank)
  else ret tt.

Definition updateUi (bank : BankDescriptor) : JS unit :=
  _ ← set_status_text env ("Открываем банк: " ++ title bank ++ "…");
  _ ← set_link_href env
        (or_string (fallback_url bank) (or_string (deeplink bank) "#"));
  link_addClickListener env (CbManualClick bank).

Definition tryOpenBank (bank : BankDescriptor) : JS unit :=
  ctx ← getTelegramContext;
  _ ← ApiClient.sendRedirectEvent env ctx (VString (id bank))
        (VString "redirect_attempt") VUndefined;
  if negb (truthy (VString (deeplink bank))) then
    switchToFallback bank
  else
    fallbackTimer ← setTimeout (CbSwitchToFallback bank) 1100;
    _ ← window_addBlurListener (CbClearTimeout fallbackTimer) true;
    try_catch
      (set_location_href env (deeplink bank))
      (fun error =>
         _ ← console_debug "Redirect: не удалось открыть deeplink";
         switchToFallback bank).

(** The reactions [.then(..).catch(..)] the page attaches to the promise
    of [loadBanks], run on that promise [p]. *)
Definition onBanks (bankId : string) (p : JS (list BankDescriptor))
  : JS unit :=
  try_catch
    (banks ← p;
     let target := targetBank banks bankId in
     _ ← updateUi target;
     tryOpenBank target)
    (fun error =>
       _ ← console_debug "Redirect: ошибка загрузки банков";
       _ ← updateUi (fallbackBank bankId);
       tryOpenBank (fallbackBank bankId)).

(** The step of line 9:
    [telegramContext.startParam = telegramContext.startParam || transferId] *)
Definition backfillStartParam : JS unit :=
  ctx ← getTelegramContext;
  startParam ← get_member ctx "startParam";
  modify (fun w =>
    set_telegramContext
      (<["startParam" := startParam ||| VString transferId]>
         (telegramContext w)) w).

(** The [DOMContentLoaded] handler, up to the call of [loadBanks]. *)
Definition onDOMContentLoaded : JS unit :=
  _ ← backfillStartParam;
  ctx ← getTelegramContext;
  _ ← ApiClient.sendRedirectEvent env ctx (VString bankId)
        (VString "redirect_open") VUndefined;
  _ ← BankLoader.loadBanks env (RedirectPage bankId);
  ret tt.

(** ** The host's event loop *)

Definition run_callback (cb : Callback) : JS unit :=
  match cb with
  | CbSwitchToFallback bank => switchToFallback bank
  | CbClearTimeout t => clearTimeout t
  | CbManualClick bank =>
      ctx ← getTelegramContext;
      ApiClient.sendRedirectEvent env ctx (VString (id bank))
        (VString "redirect_manual_click") VUndefined
  end.

(** A task runs to completion; what it throws is reported, not
    propagated. *)
Definition run_task (c : JS unit) (w : World) : World * list Effect :=
  let r := c w in
  (world r,
   (effects r ++ match res r with
                 | Normal _ => []
                 | Throw e => [EUncaught e]
                 end)%list).

Definition run_listeners (cbs : list Callback) (w : World)
  : World * list Effect :=
  foldl (fun acc cb =>
           let '(w', es) := run_task (run_callback cb) (fst acc) in
           (w', (snd acc ++ es)%list))
        (w, []) cbs.

Definition rejection (o : FetchOutcome) : option JsError :=
  match o with
  | NetworkError e => Some e
  | Responded _ => None
  end.

Inductive Event : Type :=
  | DOMContentLoaded
  | FetchSettled (promise : nat) (o : FetchOutcome)
  | TimerElapsed (timer : nat)
  | Blur
  | LinkClick
  | Unload.

Definition step (ev : Event) (w : World) : World * list Effect :=
  if negb (alive w) then (w, [])
  else
    match ev with
    | DOMContentLoaded => run_task onDOMContentLoaded w
    | FetchSettled p o =>
        match find_handle p (fetches w) with
        | None => (w, [])
        | Some k =>
            let w' := set_fetches (remove_handle p (fetches w)) w in
            match k with
            | TelemetryPost =>
                run_task (ApiClient.safePost_settled (rejection o)) w'
            | BankDirectory (RedirectPage b) =>
                run_task (onBanks b (BankLoader.loadBanks_settled o)) w'
            end
        end
    | TimerElapsed t =>
        match find_handle t (timers w) with
        | None => (w, [])
        | Some cb =>
            run_task (run_callback cb)
                     (set_timers (remove_handle t (timers w)) w)
        end
    | Blur =>
        let ls := blur_listeners w in
        run_listeners (map fst ls)
          (set_blur_listeners (List.filter (fun l => negb (snd l)) ls) w)
    | LinkClick => run_listeners (click_listeners w) w
    | Unload => (set_alive false w, [])
    end.

Fixpoint run (evs : list Event) (w : World) : World * list Effect :=
  match evs with
  | [] => (w, [])
  | ev :: rest =>
      let '(w1, es1) := step ev w in
      let '(w2, es2) := run rest w1 in
      (w2, (es1 ++ es2)%list)
  end.

End WithEnv.
End Redirect.

(* ================================================================== *)
(** * What is observed of a run                                        *)
(* ================================================================== *)

Module Observe.
Import JS.

(** The URLs written to [window.location.href], in order. *)
Definition navigations (es : list Effect) : list string :=
  omap (fun e => match e with ESetLocationHref u => Some u | _ => None end) es.

(** The timers started, with callback and delay. *)
Definition started_timers (es : list Effect) : list (nat * Callback * Z) :=
  omap (fun e => match e with
                 | ESetTimeout t cb d => Some (t, cb, d)
                 | _ => None
                 end) es.

(** The [event_type] of every payload handed to the serializer. *)
Definition telemetry_events (es : list Effect) : list value :=
  omap (fun e => match e with
                 | EStringify p => Some (get_prop p "event_type")
                 | _ => None
                 end) es.

(** Every handle in use is below the next one to be given out. *)
Definition handles_fresh (w : World) : Prop :=
  Forall (fun e => fst e < next_handle w) (timers w)
  /\ Forall (fun e => fst e < next_handle w) (fetches w).

(** The record [buildPayload] assembles before merging [extra], as a
    function of what it reads. *)
Definition transfer_id_of (safeContext : value) : value :=
  let startParam := get_prop safeContext "startParam" in
  if truthy startParam then startParam
  else
    (if truthy (get_prop safeContext "initDataUnsafe")
     then get_prop (get_prop safeContext "initDataUnsafe") "start_param"
     else VString "") ||| VString "".

Definition base_fields (env : Env) (context eventType bankId page : value)
    (ts : string) : list (string * value) :=
  let safeContext := context ||| empty_object in
  let transferPayload := get_prop safeContext "transferPayload" ||| empty_object in
  let inlinePayload := get_prop transferPayload "payload" ||| empty_object in
  [ ("transfer_id", transfer_id_of safeContext);
    ("transfer_payload", transferPayload);
    ("inline_creator_tg_user_id",
       get_prop inlinePayload "creator_tg_user_id" ||| VNull);
    ("inline_generated_at", get_prop inlinePayload "generated_at" ||| VString "");
    ("inline_parsed", get_prop inlinePayload "parsed" ||| empty_object);
    ("inline_option", get_prop inlinePayload "option" ||| empty_object);
    ("event_type", eventType);
    ("ts", VString ts);
    ("initData", get_prop safeContext "initData" ||| VString "");
    ("initDataUnsafe", get_prop safeContext "initDataUnsafe" ||| empty_object);
    ("userAgent", navigator_userAgent env ||| VString "");
    ("language", navigator_language env ||| VString "");
    ("platform", navigator_platform env ||| VString "");
    ("page", page);
    ("bank_id", bankId ||| VString "") ].

(** The names of the payload's documented fields. *)
Definition documented_fields : list string :=
  [ "transfer_id"; "transfer_payload"; "inline_creator_tg_user_id";
    "inline_generated_at"; "inline_parsed"; "inline_option"; "event_type";
    "ts"; "initData"; "initDataUnsafe"; "userAgent"; "language"; "platform";
    "page"; "bank_id" ].

(** The ways loading the directory fails. *)
Inductive LoadFailure : FetchOutcome -> Prop :=
  | network_error (e : JsError) : LoadFailure (NetworkError e)
  | non_2xx_status (r : Response) :
      (status r < 200 \/ 299 < status r)%Z -> LoadFailure (Responded r)
  | json_parse_error (r : Response) :
      json_body r = None -> LoadFailure (Responded r).

(** The payload the three public operations build: no extra fields. *)
Definition event_payload (env : Env) (context eventType bankId page : value)
    (ts : string) : value :=
  VObject (object_assign ∅
    [obj (base_fields env context eventType bankId page ts);
     VUndefined ||| empty_object]).

(** Whether [safePost] gets as far as a started request. *)
Definition post_started (env : Env) (payload : value) : bool :=
  match API_BASE_URL env with
  | Some url =>
      negb (String.eqb url "")
      && bool_decide (is_Some (json_stringify env payload))
      && bool_decide (fetch_throws env url = None)
  | None => false
  end.

Definition post_init (body : string) : RequestInit :=
  mkInit (Some "POST") [("Content-Type", "application/json")] (Some body) None.

(** What [safePost] does, by the configuration and the host's answers;
    [h] is the handle the request gets. *)
Definition post_effects (env : Env) (payload : value) (h : nat) : list Effect :=
  match API_BASE_URL env with
  | Some url =>
      if String.eqb url "" then
        [EConsoleDebug "ApiClient: BASE_URL не указан, пропускаем отправку"]
      else
        match json_stringify env payload with
        | None =>
            [EStringify payload;
             EConsoleDebug "ApiClient: исключение при отправке"]
        | Some body =>
            match fetch_throws env url with
            | Some _ =>
                [EStringify payload;
                 EConsoleDebug "ApiClient: исключение при отправке"]
            | None => [EStringify payload; EFetch h url (post_init body)]
            end
        end
  | None => [EConsoleDebug "ApiClient: BASE_URL не указан, пропускаем отправку"]
  end.

Definition post_world (env : Env) (payload : value) (w : World) : World :=
  if post_started env payload then
    set_fetches (fetches (set_next_handle (S (next_handle w)) w)
                   ++ [(next_handle w, TelemetryPost)])
                (set_next_handle (S (next_handle w)) w)
  else w.

(** A redirect-page event: its payload, and the state and the effects
    after [sendRedirectEvent] sent it from state [w]. *)
Definition redirect_payload (env : Env) (w : World) (bank_id : string)
    (eventType : string) : value :=
  event_payload env (VObject (telegramContext w)) (VString eventType)
    (VString bank_id) (VString "redirect") (clock env (date_calls w)).

Definition after_redirect_event (env : Env) (w : World) (bank_id : string)
    (eventType : string) : World :=
  post_world env (redirect_payload env w bank_id eventType)
             (set_date_calls (S (date_calls w)) w).

Definition redirect_event_effects (env : Env) (w : World) (bank_id : string)
    (eventType : string) : list Effect :=
  post_effects env (redirect_payload env w bank_id eventType) (next_handle w).

(** The state after [setTimeout] and [addEventListener] of [tryOpenBank]. *)
Definition armed (bank : BankDescriptor) (w : World) : World :=
  set_blur_listeners
    (blur_listeners w ++ [(CbClearTimeout (next_handle w), true)])
    (set_timers (timers w ++ [(next_handle w, CbSwitchToFallback bank)])
       (set_next_handle (S (next_handle w)) w)).

(** A computation that leaves the bridge's context object as it is. *)
Definition keeps_context {A} (c : JS A) : Prop :=
  forall w, telegramContext (world (c w)) = telegramContext w.

End Observe.

(* ================================================================== *)
(** * Sample inputs                                                    *)
(* ================================================================== *)

Module Samples.
Import JS.

(** A browser on the redirect page with the shipped endpoint, a working
    serializer and network, and both DOM elements. *)
Definition env_ok : Env :=
  mkEnv ApiClient.API_BASE_URL_shipped
        (VString "Mozilla/5.0") (VString "ru-RU") (VString "Linux x86_64")
        (fun n => "2026-01-01T00:00:0" ++ pretty n ++ ".000Z")
        (fun _ => Some "{}") (fun _ => None)
        (fun path base => Some (base ++ "/" ++ path))
        "https://example.org/redirect/index.html" true
        (Some "tr-1") (Some "vtb") true true (fun _ => None).

(** The same browser with no endpoint configured. *)
Definition env_no_endpoint : Env :=
  mkEnv (Some "")
        (VString "Mozilla/5.0") (VString "ru-RU") (VString "Linux x86_64")
        (fun n => "2026-01-01T00:00:0" ++ pretty n ++ ".000Z")
        (fun _ => Some "{}") (fun _ => None)
        (fun path base => Some (base ++ "/" ++ path))
        "https://example.org/redirect/index.html" true
        (Some "tr-1") (Some "vtb") true true (fun _ => None).

(** The same browser where writing a custom-scheme URL to the location
    raises, and with no [bank_id] in the query. *)
Definition env_deeplink_raises : Env :=
  mkEnv ApiClient.API_BASE_URL_shipped
        (VString "Mozilla/5.0") (VString "ru-RU") (VString "Linux x86_64")
        (fun n => "2026-01-01T00:00:0" ++ pretty n ++ ".000Z")
        (fun _ => Some "{}") (fun _ => None)
        (fun path base => Some (base ++ "/" ++ path))
        "https://example.org/redirect/index.html" true
        (Some "tr-1") None true true
        (fun url => if String.prefix "https://" url then None
                    else Some (HostError "unknown scheme")).

(** The same browser whose serializer raises on every payload. *)
Definition env_serializer_raises : Env :=
  mkEnv ApiClient.API_BASE_URL_shipped
        (VString "Mozilla/5.0") (VString "ru-RU") (VString "Linux x86_64")
        (fun n => "2026-01-01T00:00:0" ++ pretty n ++ ".000Z")
        (fun _ => None) (fun _ => None)
        (fun path base => Some (base ++ "/" ++ path))
        "https://example.org/redirect/index.html" true
        (Some "tr-1") (Some "vtb") true true (fun _ => None).

(** A context whose start parameter is empty and whose [initDataUnsafe]
    carries one. *)
Definition context_unsafe_only : value :=
  obj [("startParam", VString "");
       ("initDataUnsafe", obj [("start_param", VString "from-telegram")])].

(** A freshly loaded page whose bridge supplied an empty context. *)
Definition world0 : World := mkWorld ∅ 0 0 [] [] [] [] true.

Definition vtb : BankDescriptor :=
  mkBank "vtb" "ВТБ" (Some "assets/img/banks/vtb.png")
         "vtb://vtb.ru/i/" "https://online.vtb.ru/login".

(** A directory entry with a deep link and no fallback URL. *)
Definition app_only : BankDescriptor :=
  mkBank "apponly" "App Only" None "apponly://open" "".

End Samples.

(* ================================================================== *)
(** * More observations and sample inputs                              *)
(* ================================================================== *)

Module Trace.
Import JS Observe.

(** The payloads handed to the serializer, in order. *)
Definition sent_payloads (es : list Effect) : list value :=
  omap (fun e => match e with EStringify p => Some p | _ => None end) es.

(** Field [k] of every payload handed to the serializer. *)
Definition sent_field (k : string) (es : list Effect) : list value :=
  (fun p => get_prop p k) <$> sent_payloads es.

(** The diagnostic lines written. *)
Definition logged (es : list Effect) : list string :=
  omap (fun e => match e with EConsoleDebug m => Some m | _ => None end) es.

(** The target the manual link gets for a bank:
    [bank.fallback_url || bank.deeplink || '#']. *)
Definition link_target (bank : BankDescriptor) : string :=
  or_string (fallback_url bank) (or_string (deeplink bank) "#").

(** A payload built on the redirect page from the context [context]. *)
Definition from_context (context : gmap string value) (p : value) : Prop :=
  get_prop p "transfer_id" = transfer_id_of (VObject context)
  /\ get_prop p "page" = VString "redirect".

(** A computation that leaves the context object alone and serializes
    only payloads built from it. *)
Definition steady {A} (c : JS A) : Prop :=
  forall w,
    telegramContext (world (c w)) = telegramContext w
    /\ Forall (from_context (telegramContext w)) (sent_payloads (effects (c w))).

(** A browser as [Samples.env_ok] in which the page has no status
    element. *)
Definition env_no_status : Env :=
  mkEnv ApiClient.API_BASE_URL_shipped
        (VString "Mozilla/5.0") (VString "ru-RU") (VString "Linux x86_64")
        (fun n => "2026-01-01T00:00:0" ++ pretty n ++ ".000Z")
        (fun _ => Some "{}") (fun _ => None)
        (fun path base => Some (base ++ "/" ++ path))
        "https://example.org/redirect/index.html" true
        (Some "tr-1") (Some "vtb") false true (fun _ => None).

(** A browser as [Samples.env_ok] on a page whose address is no base
    for a relative URL. *)
Definition env_no_base : Env :=
  mkEnv ApiClient.API_BASE_URL_shipped
        (VString "Mozilla/5.0") (VString "ru-RU") (VString "Linux x86_64")
        (fun n => "2026-01-01T00:00:0" ++ pretty n ++ ".000Z")
        (fun _ => Some "{}") (fun _ => None)
        (fun path base => None)
        "about:blank" false
        (Some "tr-1") (Some "vtb") true true (fun _ => None).

(** A browser as [Samples.env_ok] that refuses every location but the
    default one. *)
Definition env_only_default : Env :=
  mkEnv ApiClient.API_BASE_URL_shipped
        (VString "Mozilla/5.0") (VString "ru-RU") (VString "Linux x86_64")
        (fun n => "2026-01-01T00:00:0" ++ pretty n ++ ".000Z")
        (fun _ => Some "{}") (fun _ => None)
        (fun path base => Some (base ++ "/" ++ path))
        "https://example.org/redirect/index.html" true
        (Some "tr-1") (Some "web") true true
        (fun url => if String.eqb url "https://www.google.com" then None
                    else Some (HostError "blocked")).

(** A directory entry with a web address only. *)
Definition web_only : BankDescriptor :=
  mkBank "web" "Web Only" None "" "https://bank.example/login".

End Trace.

(* ================================================================== *)
(** * Properties                                                       *)
(* ================================================================== *)

Import JS Observe.

Arguments base_fields : simpl never.
Arguments event_payload : simpl never.
Arguments post_effects : simpl never.
Arguments post_world : simpl never.
Arguments redirect_payload : simpl never.
Arguments redirect_event_effects : simpl never.
Arguments after_redirect_event : simpl never.

(** ** The monad *)

Lemma result_eta {A} (r : Result A) : mkResult (res r) (world r) (effects r) = r.
Proof. destruct r; reflexivity. Qed.

Lemma bind_ret_l {A B} (a : A) (k : A -> JS B) (w : World) :
  bind (ret a) k w = k a w.
Proof. unfold bind, ret; simpl. apply result_eta. Qed.

Lemma bind_normal {A B} (c : JS A) (k : A -> JS B) w a w' es :
  c w = mkResult (Normal a) w' es ->
  bind c k w = mkResult (res (k a w')) (world (k a w')) (es ++ effects (k a w')).
Proof. intros H. unfold bind. rewrite H. reflexivity. Qed.

Lemma truthy_or_object (v : value) : truthy (v ||| empty_object) = true.
Proof. unfold or_value. destruct (truthy v) eqn:E; [exact E | reflexivity]. Qed.

Lemma get_member_truthy (v : value) (k : string) :
  truthy v = true -> get_member v k = ret (get_prop v k).
Proof. destruct v; simpl; intros H; try discriminate; reflexivity. Qed.

Lemma bind_get_member {B} (v : value) (k : string) (f : value -> JS B) w :
  truthy v = true -> bind (get_member v k) f w = f (get_prop v k) w.
Proof. intros H. rewrite (get_member_truthy _ _ H). apply bind_ret_l. Qed.

(** ** [buildPayload] as a function *)

Lemma buildPayload_run env context eventType bankId page extra w :
  ApiClient.buildPayload env context eventType bankId page extra w
  = mkResult
      (Normal (VObject (object_assign ∅
         [obj (base_fields env context eventType bankId page
                           (clock env (date_calls w)));
          extra ||| empty_object])))
      (set_date_calls (S (date_calls w)) w) [].
Proof.
  unfold ApiClient.buildPayload, mbind, JS_bind.
  rewrite bind_get_member by apply truthy_or_object.
  rewrite bind_get_member by apply truthy_or_object.
  rewrite bind_get_member by apply truthy_or_object.
  set (safe := context ||| empty_object).
  assert (Hsafe : truthy safe = true) by apply truthy_or_object.
  assert (Htid : forall w0,
    (if truthy (get_prop safe "startParam")
     then ret (get_prop safe "startParam")
     else bind (get_member safe "initDataUnsafe") (fun unsafe =>
            bind (if truthy unsafe
                  then bind (get_member safe "initDataUnsafe")
                         (fun unsafe' => get_member unsafe' "start_param")
                  else ret (VString ""))
                 (fun inner => ret (inner ||| VString "")))) w0
    = mkResult (Normal (transfer_id_of safe)) w0 []).
  { intros w0. unfold transfer_id_of.
    destruct (truthy (get_prop safe "startParam")) eqn:Esp; [reflexivity |].
    rewrite bind_get_member by exact Hsafe.
    destruct (truthy (get_prop safe "initDataUnsafe")) eqn:Eidu.
    - unfold bind. rewrite (get_member_truthy _ _ Hsafe). simpl.
      rewrite (get_member_truthy _ _ Eidu). reflexivity.
    - reflexivity. }
  erewrite bind_normal by apply Htid. simpl. rewrite result_eta.
  repeat (rewrite bind_get_member by apply truthy_or_object).
  erewrite bind_normal by reflexivity. simpl. rewrite result_eta.
  repeat (rewrite bind_get_member by apply truthy_or_object).
  reflexivity.
Qed.

(** ** [safePost] and the three operations as functions *)

Lemma safePost_run env payload w :
  ApiClient.safePost env payload w
  = mkResult (Normal tt) (post_world env payload w)
             (post_effects env payload (next_handle w)).
Proof.
  unfold ApiClient.safePost, post_world, post_effects, post_started.
  destruct (API_BASE_URL env) as [url|]; [| reflexivity].
  unfold truthy.
  destruct (String.eqb url "") eqn:Eurl; [reflexivity |].
  unfold try_catch, mbind, JS_bind, bind, JSON_stringify, fetch. simpl.
  destruct (json_stringify env payload) as [body|]; simpl; [| reflexivity].
  destruct (fetch_throws env url) as [e|]; simpl; reflexivity.
Qed.

Lemma sendRedirectEvent_run env context bankId eventType pageOverride w :
  let payload :=
    event_payload env context (eventType ||| VString "redirect_open") bankId
      (pageOverride ||| VString "redirect") (clock env (date_calls w)) in
  ApiClient.sendRedirectEvent env context bankId eventType pageOverride w
  = mkResult (Normal tt)
      (post_world env payload (set_date_calls (S (date_calls w)) w))
      (post_effects env payload (next_handle w)).
Proof.
  intros payload. unfold ApiClient.sendRedirectEvent, mbind, JS_bind.
  erewrite bind_normal by apply buildPayload_run.
  rewrite safePost_run. reflexivity.
Qed.

Lemma sendBankClick_run env context bankId w :
  let payload :=
    event_payload env context (VString "bank_click") bankId
      (VString "miniapp") (clock env (date_calls w)) in
  ApiClient.sendBankClick env context bankId w
  = mkResult (Normal tt)
      (post_world env payload (set_date_calls (S (date_calls w)) w))
      (post_effects env payload (next_handle w)).
Proof.
  intros payload. unfold ApiClient.sendBankClick, mbind, JS_bind.
  erewrite bind_normal by apply buildPayload_run.
  rewrite safePost_run. reflexivity.
Qed.

Lemma sendWebAppOpen_run env context w :
  let payload :=
    event_payload env context (VString "webapp_open") (VString "")
      (VString "miniapp") (clock env (date_calls w)) in
  ApiClient.sendWebAppOpen env context w
  = mkResult (Normal tt)
      (post_world env payload (set_date_calls (S (date_calls w)) w))
      (post_effects env payload (next_handle w)).
Proof.
  intros payload. unfold ApiClient.sendWebAppOpen, mbind, JS_bind.
  erewrite bind_normal by apply buildPayload_run.
  rewrite safePost_run. reflexivity.
Qed.

(** ** The bank directory loader *)

Lemma loadBanks_settled_never_rejects (o : FetchOutcome) (w : World) :
  exists banks, res (BankLoader.loadBanks_settled o w) = Normal banks.
Proof.
  unfold BankLoader.loadBanks_settled, try_catch, mbind, JS_bind, bind.
  destruct o as [e | r]; simpl; [eauto |].
  destruct (response_ok r); simpl; [| eauto].
  unfold BankLoader.response_json.
  destruct (json_body r) as [banks |]; simpl; eauto.
Qed.

Lemma loadBanks_settled_success (r : Response) (banks : list BankDescriptor)
    (w : World) :
  response_ok r = true -> json_body r = Some banks ->
  BankLoader.loadBanks_settled (Responded r) w = mkResult (Normal banks) w [].
Proof.
  intros Hok Hbody.
  unfold BankLoader.loadBanks_settled, try_catch, mbind, JS_bind, bind,
    BankLoader.response_json.
  simpl. rewrite Hok. simpl. rewrite Hbody. reflexivity.
Qed.

Lemma response_not_ok (r : Response) :
  (status r < 200 \/ 299 < status r)%Z -> response_ok r = false.
Proof.
  unfold response_ok. intros [H | H].
  - apply andb_false_iff. left. apply Z.leb_gt. exact H.
  - apply andb_false_iff. right. apply Z.leb_gt. exact H.
Qed.

(** C1. Whenever loading the directory fails (network error, status
    outside 200-299, or a body that is not JSON), the promise of
    [loadBanks] is fulfilled, not rejected, with the built-in list, after
    one diagnostic log line; that list is not empty, has at least ten
    entries, and each entry has a non-empty [id], [title] and
    [fallback_url]. *)
Theorem loadBanks_failure_gives_fallback (o : FetchOutcome) (w : World) :
  LoadFailure o ->
  BankLoader.loadBanks_settled o w
    = mkResult (Normal BankLoader.fallback_banks) w
        [EConsoleDebug "BankLoader: ошибка загрузки, используем запасной список"]
  /\ BankLoader.fallback_banks <> []
  /\ 10 <= length BankLoader.fallback_banks
  /\ Forall (fun b => id b <> "" /\ title b <> "" /\ fallback_url b <> "")
            BankLoader.fallback_banks.
Proof.
  intros Hfail. split; [| split; [| split]].
  - unfold BankLoader.loadBanks_settled, try_catch, mbind, JS_bind, bind.
    destruct Hfail as [e | r Hstatus | r Hbody]; simpl.
    + reflexivity.
    + rewrite (response_not_ok r Hstatus). reflexivity.
    + destruct (response_ok r); simpl; [| reflexivity].
      unfold BankLoader.response_json. rewrite Hbody. reflexivity.
  - discriminate.
  - simpl. lia.
  - repeat constructor; discriminate.
Qed.

Lemma loadBanks_failure_gives_fallback_witness :
  BankLoader.loadBanks_settled (Responded (mkResponse 404 None)) Samples.world0
    = mkResult (Normal BankLoader.fallback_banks) Samples.world0
        [EConsoleDebug "BankLoader: ошибка загрузки, используем запасной список"]
  /\ BankLoader.fallback_banks <> []
  /\ 10 <= length BankLoader.fallback_banks
  /\ Forall (fun b => id b <> "" /\ title b <> "" /\ fallback_url b <> "")
            BankLoader.fallback_banks.
Proof.
  apply (loadBanks_failure_gives_fallback
           (Responded (mkResponse 404 None)) Samples.world0).
  apply non_2xx_status. simpl. lia.
Defined.

(** ** Selecting the target bank *)

Lemma find_by_id_split (banks : list BankDescriptor) (bankId : string) :
  (exists d, d ∈ banks /\ id d = bankId) ->
  exists pre d post,
    banks = (pre ++ d :: post)%list
    /\ id d = bankId
    /\ (forall x, x ∈ pre -> id x <> bankId)
    /\ List.find (fun bank => String.eqb (id bank) bankId) banks = Some d.
Proof.
  induction banks as [| b banks IH]; intros [d [Hin Hid]].
  - inversion Hin.
  - destruct (String.eqb_spec (id b) bankId) as [Heq | Hne].
    + exists [], b, banks. simpl. repeat split; try assumption.
      * intros x Hx. inversion Hx.
      * apply String.eqb_eq in Heq. rewrite Heq. reflexivity.
    + apply elem_of_cons in Hin as [-> | Hin]; [contradiction |].
      destruct IH as (pre & d' & post & -> & Hid' & Hpre & Hfind);
        [exists d; split; assumption |].
      exists (b :: pre), d', post. simpl. repeat split; try assumption.
      * intros x Hx. apply elem_of_cons in Hx as [-> | Hx]; auto.
      * apply String.eqb_neq in Hne. rewrite Hne. exact Hfind.
Qed.

Lemma find_by_id_none (banks : list BankDescriptor) (bankId : string) :
  (forall d, d ∈ banks -> id d <> bankId) ->
  List.find (fun bank => String.eqb (id bank) bankId) banks = None.
Proof.
  induction banks as [| b banks IH]; intros Hall; [reflexivity |].
  simpl. destruct (String.eqb_spec (id b) bankId) as [Heq | Hne].
  - exfalso. apply (Hall b); [left | exact Heq].
  - apply IH. intros d Hd. apply Hall. right. exact Hd.
Qed.

Lemma targetBank_first_when_unmatched (banks : list BankDescriptor)
    (bankId : string) :
  (forall d, d ∈ banks -> id d <> bankId) ->
  forall d0 rest, banks = d0 :: rest -> Redirect.targetBank banks bankId = d0.
Proof.
  intros Hnone d0 rest ->.
  unfold Redirect.targetBank. rewrite (find_by_id_none _ _ Hnone).
  reflexivity.
Qed.

(** C2. The bank the redirect page selects from a loaded directory: the
    first descriptor whose [id] equals the query's [bank_id] if there is
    one; otherwise the first descriptor of a non-empty directory;
    otherwise a synthesized descriptor with [id] the [bank_id], or
    "unknown" when that is empty, a neutral title, an empty deep link
    and a non-empty default fallback URL. *)
Theorem targetBank_selection (banks : list BankDescriptor) (bankId : string) :
  ((exists d, d ∈ banks /\ id d = bankId) ->
     exists pre d post,
       banks = (pre ++ d :: post)%list /\ id d = bankId
       /\ (forall x, x ∈ pre -> id x <> bankId)
       /\ Redirect.targetBank banks bankId = d)
  /\ ((forall d, d ∈ banks -> id d <> bankId) ->
      forall d0 rest, banks = d0 :: rest ->
        Redirect.targetBank banks bankId = d0)
  /\ (banks = [] ->
      Redirect.targetBank banks bankId
        = mkBank (if decide (bankId = "") then "unknown" else bankId)
                 "Ваш банк" None "" "https://www.google.com"
      /\ fallback_url (Redirect.targetBank banks bankId) <> "").
Proof.
  split; [| split].
  - intros Hex.
    destruct (find_by_id_split banks bankId Hex)
      as (pre & d & post & Hbanks & Hid & Hpre & Hfind).
    exists pre, d, post. repeat split; try assumption.
    unfold Redirect.targetBank. rewrite Hfind.
    destruct (banks !! 0%nat); reflexivity.
  - apply targetBank_first_when_unmatched.
  - intros ->. unfold Redirect.targetBank, Redirect.fallbackBank, or_string.
    simpl. split; [| discriminate].
    destruct (decide (bankId = "")) as [-> | Hne]; [reflexivity |].
    apply String.eqb_neq in Hne. rewrite Hne. reflexivity.
Qed.

Lemma targetBank_selection_witness :
  (exists pre d post,
     BankLoader.fallback_banks = (pre ++ d :: post)%list /\ id d = "vtb"
     /\ (forall x, x ∈ pre -> id x <> "vtb")
     /\ Redirect.targetBank BankLoader.fallback_banks "vtb" = d)
  /\ Redirect.targetBank BankLoader.fallback_banks "doesnotexist"
     = mkBank "sber" "Сбербанк" (Some "assets/img/banks/sber.png")
         "https://www.sberbank.com/sms/pbpn?requisiteNumber=79309791051"
         "https://www.sberbank.com/sms/pbpn?requisiteNumber=79309791051"
  /\ (Redirect.targetBank [] ""
      = mkBank (if decide ("" = "") then "unknown" else "")
               "Ваш банк" None "" "https://www.google.com"
      /\ fallback_url (Redirect.targetBank [] "") <> "").
Proof.
  split; [| split].
  - apply (proj1 (targetBank_selection BankLoader.fallback_banks "vtb")).
    exists Samples.vtb. split; [| reflexivity].
    unfold BankLoader.fallback_banks, Samples.vtb.
    do 7 apply list_elem_of_further. apply list_elem_of_here.
  - apply (proj1 (proj2 (targetBank_selection BankLoader.fallback_banks
                           "doesnotexist")))
      with (rest := tail BankLoader.fallback_banks); [| reflexivity].
    intros d Hd. unfold BankLoader.fallback_banks in Hd.
    repeat (apply elem_of_cons in Hd as [-> | Hd]; [discriminate |]).
    inversion Hd.
  - apply (proj2 (proj2 (targetBank_selection [] ""))). reflexivity.
Defined.

(** ** The telemetry client *)

Lemma buildPayload_no_extra env context eventType bankId page w :
  res (ApiClient.buildPayload env context eventType bankId page VUndefined w)
  = Normal (event_payload env context eventType bankId page
              (clock env (date_calls w))).
Proof. rewrite buildPayload_run. reflexivity. Qed.

(** The value of [transfer_id], whatever the types of its sources. *)
Lemma payload_transfer_id env context eventType bankId page ts :
  get_prop (event_payload env context eventType bankId page ts) "transfer_id"
  = transfer_id_of (context ||| empty_object).
Proof. reflexivity. Qed.

Lemma of_option_truthy (o : option string) :
  truthy (of_option o)
  = match o with
    | Some s => if decide (s = "") then false else true
    | None => false
    end.
Proof.
  destruct o as [s |]; simpl; [| reflexivity].
  destruct (decide (s = "")) as [-> | Hne]; [reflexivity |].
  apply String.eqb_neq in Hne. rewrite Hne. reflexivity.
Qed.

(** C7. The [transfer_id] of an event payload, for every combination of
    its two sources being absent or a string: the context's start
    parameter when it is a non-empty string; otherwise
    [initDataUnsafe.start_param] when [initDataUnsafe] is there and that
    field is a non-empty string; otherwise the empty string. *)
Theorem transfer_id_priority env (context eventType bankId page : value)
    (w : World) (explicit nested : option string) :
  get_prop (context ||| empty_object) "startParam" = of_option explicit ->
  (get_prop (context ||| empty_object) "initDataUnsafe" = VUndefined
     /\ nested = None)
  \/ (exists unsafe : gmap string value,
        get_prop (context ||| empty_object) "initDataUnsafe" = VObject unsafe
        /\ get_prop (VObject unsafe) "start_param" = of_option nested) ->
  exists payload,
    res (ApiClient.buildPayload env context eventType bankId page VUndefined w)
      = Normal payload
    /\ get_prop payload "transfer_id"
       = VString
           (let from_unsafe :=
              match nested with
              | Some s => if decide (s = "") then "" else s
              | None => ""
              end in
            match explicit with
            | Some s => if decide (s = "") then from_unsafe else s
            | None => from_unsafe
            end).
Proof.
  intros Hexplicit Hnested.
  eexists. split; [apply buildPayload_no_extra |].
  rewrite payload_transfer_id. unfold transfer_id_of.
  rewrite Hexplicit, of_option_truthy.
  assert (Hrest :
    (if truthy (get_prop (context ||| empty_object) "initDataUnsafe")
     then get_prop (get_prop (context ||| empty_object) "initDataUnsafe")
            "start_param"
     else VString "") ||| VString ""
    = VString match nested with
              | Some s => if decide (s = "") then "" else s
              | None => ""
              end).
  { destruct Hnested as [[Hnone ->] | (unsafe & Hobj & Hstart)].
    - rewrite Hnone. reflexivity.
    - rewrite Hobj. simpl truthy. cbv iota. rewrite Hstart.
      unfold or_value. rewrite of_option_truthy.
      destruct nested as [s |]; [| reflexivity].
      destruct (decide (s = "")); reflexivity. }
  destruct explicit as [s |]; [| exact Hrest].
  destruct (decide (s = "")); [exact Hrest | reflexivity].
Qed.

Lemma transfer_id_priority_witness :
  exists payload,
    res (ApiClient.buildPayload Samples.env_ok Samples.context_unsafe_only
           (VString "webapp_open") (VString "") (VString "miniapp") VUndefined
           Samples.world0)
      = Normal payload
    /\ get_prop payload "transfer_id" = VString "from-telegram".
Proof.
  apply (transfer_id_priority Samples.env_ok Samples.context_unsafe_only
           (VString "webapp_open") (VString "") (VString "miniapp")
           Samples.world0 (Some "") (Some "from-telegram")).
  - reflexivity.
  - right. exists (list_to_map [("start_param", VString "from-telegram")]).
    split; reflexivity.
Defined.

(** C8. For every context, the null and the absent one included, the
    payload built without extra fields has exactly the documented
    fields; each transfer-specific or context field holds the context's
    value when that is there (truthy) and its default otherwise:
    [{}] for [transfer_payload], [inline_parsed], [inline_option] and
    [initDataUnsafe], [null] for [inline_creator_tg_user_id], the empty
    string for [inline_generated_at], [initData] and [bank_id]; and an
    extra-fields object, merged last, overrides the fields it has and
    leaves the others. *)
Theorem buildPayload_fields_and_defaults env
    (context eventType bankId page : value) (w : World) :
  let safeContext := context ||| empty_object in
  let transferPayload := get_prop safeContext "transferPayload" ||| empty_object in
  let inlinePayload := get_prop transferPayload "payload" ||| empty_object in
  exists payload : gmap string value,
    res (ApiClient.buildPayload env context eventType bankId page VUndefined w)
      = Normal (VObject payload)
    /\ dom payload = list_to_set documented_fields
    /\ payload !! "transfer_id" = Some (transfer_id_of safeContext)
    /\ payload !! "transfer_payload" = Some transferPayload
    /\ payload !! "inline_creator_tg_user_id"
         = Some (get_prop inlinePayload "creator_tg_user_id" ||| VNull)
    /\ payload !! "inline_generated_at"
         = Some (get_prop inlinePayload "generated_at" ||| VString "")
    /\ payload !! "inline_parsed"
         = Some (get_prop inlinePayload "parsed" ||| empty_object)
    /\ payload !! "inline_option"
         = Some (get_prop inlinePayload "option" ||| empty_object)
    /\ payload !! "event_type" = Some eventType
    /\ payload !! "ts" = Some (VString (clock env (date_calls w)))
    /\ payload !! "initData"
         = Some (get_prop safeContext "initData" ||| VString "")
    /\ payload !! "initDataUnsafe"
         = Some (get_prop safeContext "initDataUnsafe" ||| empty_object)
    /\ payload !! "userAgent" = Some (navigator_userAgent env ||| VString "")
    /\ payload !! "language" = Some (navigator_language env ||| VString "")
    /\ payload !! "platform" = Some (navigator_platform env ||| VString "")
    /\ payload !! "page" = Some page
    /\ payload !! "bank_id" = Some (bankId ||| VString "")
    /\ (forall dflt : value,
          VUndefined ||| dflt = dflt /\ VNull ||| dflt = dflt
          /\ VString "" ||| dflt = dflt)
    /\ (let defaults := obj [
              ("transfer_id", VString "");
              ("transfer_payload", empty_object);
              ("inline_creator_tg_user_id", VNull);
              ("inline_generated_at", VString "");
              ("inline_parsed", empty_object);
              ("inline_option", empty_object);
              ("event_type", eventType);
              ("ts", VString (clock env (date_calls w)));
              ("initData", VString "");
              ("initDataUnsafe", empty_object);
              ("userAgent", navigator_userAgent env ||| VString "");
              ("language", navigator_language env ||| VString "");
              ("platform", navigator_platform env ||| VString "");
              ("page", page);
              ("bank_id", VString "") ] in
        res (ApiClient.buildPayload env VNull eventType VUndefined page
               VUndefined w) = Normal defaults
        /\ res (ApiClient.buildPayload env VUndefined eventType VUndefined page
                  VUndefined w) = Normal defaults)
    /\ (forall extra : gmap string value,
          exists merged : gmap string value,
            res (ApiClient.buildPayload env context eventType bankId page
                   (VObject extra) w)
              = Normal (VObject merged)
            /\ forall k, merged !! k
                         = match extra !! k with
                           | Some v => Some v
                           | None => payload !! k
                           end).
Proof.
  intros safeContext transferPayload inlinePayload.
  exists (list_to_map (base_fields env context eventType bankId page
                         (clock env (date_calls w)))).
  split; [apply buildPayload_no_extra |].
  split; [reflexivity |].
  do 15 (split; [reflexivity |]).
  split; [| split].
  - intros dflt. repeat split.
  - split; rewrite buildPayload_run; reflexivity.
  - intros extra. eexists. split.
    + rewrite buildPayload_run. reflexivity.
    + intros k. unfold object_assign. simpl.
      rewrite (right_id_L ∅ (∪)), lookup_union.
      destruct (extra !! k) as [v |].
      * destruct (_ !! k); reflexivity.
      * apply (left_id None _).
Qed.

(** C5. None of the three telemetry operations throws, whatever the
    context and whatever the host answers: a serializer that raises and
    a [fetch] call that raises are caught and leave one diagnostic log
    line, a rejected request is caught by the reactions of its promise
    and leaves one diagnostic log line, and with no endpoint configured
    (absent or the empty string) an operation starts no request and only
    logs. *)
Theorem telemetry_never_throws env (context bankId eventType pageOverride : value)
    (w : World) :
  (res (ApiClient.sendWebAppOpen env context w) = Normal tt
   /\ res (ApiClient.sendBankClick env context bankId w) = Normal tt
   /\ res (ApiClient.sendRedirectEvent env context bankId eventType
             pageOverride w) = Normal tt)
  /\ (forall (outcome : option JsError) (w' : World),
        ApiClient.safePost_settled outcome w'
        = mkResult (Normal tt) w'
            match outcome with
            | Some _ => [EConsoleDebug "ApiClient: отправка не удалась"]
            | None => []
            end)
  /\ (forall (payload : value) (url : string),
        API_BASE_URL env = Some url -> url <> "" ->
        json_stringify env payload = None \/ is_Some (fetch_throws env url) ->
        ApiClient.safePost env payload w
        = mkResult (Normal tt) w
            [EStringify payload;
             EConsoleDebug "ApiClient: исключение при отправке"])
  /\ (API_BASE_URL env = None \/ API_BASE_URL env = Some "" ->
      let skipped :=
        [EConsoleDebug "ApiClient: BASE_URL не указан, пропускаем отправку"] in
      (effects (ApiClient.sendWebAppOpen env context w) = skipped
       /\ fetches (world (ApiClient.sendWebAppOpen env context w)) = fetches w)
      /\ (effects (ApiClient.sendBankClick env context bankId w) = skipped
          /\ fetches (world (ApiClient.sendBankClick env context bankId w))
             = fetches w)
      /\ (effects (ApiClient.sendRedirectEvent env context bankId eventType
                     pageOverride w) = skipped
          /\ fetches (world (ApiClient.sendRedirectEvent env context bankId
                               eventType pageOverride w)) = fetches w)).
Proof.
  split; [| split; [| split]].
  - rewrite sendWebAppOpen_run, sendBankClick_run, sendRedirectEvent_run.
    repeat split.
  - intros [e |] w'; reflexivity.
  - intros payload url Hurl Hne Hraise.
    rewrite safePost_run. unfold post_world, post_effects, post_started.
    rewrite Hurl. apply String.eqb_neq in Hne. rewrite Hne. simpl.
    destruct Hraise as [Hjson | [e He]].
    + rewrite Hjson. reflexivity.
    + rewrite He. destruct (json_stringify env payload); reflexivity.
  - intros Hnone skipped.
    rewrite sendWebAppOpen_run, sendBankClick_run, sendRedirectEvent_run.
    unfold post_world, post_effects, post_started. simpl.
    destruct Hnone as [-> | ->]; simpl; repeat split.
Qed.

Lemma telemetry_never_throws_witness :
  ApiClient.safePost Samples.env_serializer_raises (VString "payload")
    Samples.world0
  = mkResult (Normal tt) Samples.world0
      [EStringify (VString "payload");
       EConsoleDebug "ApiClient: исключение при отправке"]
  /\ effects (ApiClient.sendRedirectEvent Samples.env_no_endpoint VNull
                (VString "vtb") (VString "redirect_open") VUndefined
                Samples.world0)
     = [EConsoleDebug "ApiClient: BASE_URL не указан, пропускаем отправку"].
Proof.
  split.
  - apply (proj1 (proj2 (proj2
             (telemetry_never_throws Samples.env_serializer_raises VNull VNull
                VNull VNull Samples.world0)))
             (VString "payload") "http://localhost:8080/api/webapp").
    + reflexivity.
    + discriminate.
    + left. reflexivity.
  - apply (proj2 (proj2 (proj2
             (telemetry_never_throws Samples.env_no_endpoint VNull
                (VString "vtb") (VString "redirect_open") VUndefined
                Samples.world0)))).
    right. reflexivity.
Defined.

(** ** The redirect page, step by step *)

Lemma bind_getTelegramContext {B} (f : value -> JS B) (w : World) :
  bind getTelegramContext f w = f (VObject (telegramContext w)) w.
Proof. unfold getTelegramContext. erewrite bind_normal by reflexivity.
  simpl. apply result_eta. Qed.

Lemma redirect_event_run {B} env (bank_id eventType : string)
    (k : unit -> JS B) (w : World) :
  truthy (VString eventType) = true ->
  bind getTelegramContext (fun ctx =>
    bind (ApiClient.sendRedirectEvent env ctx (VString bank_id)
            (VString eventType) VUndefined) k) w
  = let r := k tt (after_redirect_event env w bank_id eventType) in
    mkResult (res r) (world r)
             (redirect_event_effects env w bank_id eventType ++ effects r).
Proof.
  intros Htruthy. rewrite bind_getTelegramContext.
  erewrite bind_normal by apply sendRedirectEvent_run.
  unfold after_redirect_event, redirect_event_effects, redirect_payload,
    or_value.
  rewrite Htruthy. reflexivity.
Qed.

Lemma switchToFallback_run env (bank : BankDescriptor) (w : World) :
  Redirect.switchToFallback env bank w
  = mkResult
      (if String.eqb (fallback_url bank) "" then Normal tt
       else match href_assign_throws env (fallback_url bank) with
            | Some e => Throw e
            | None => Normal tt
            end)
      (after_redirect_event env w (id bank) "redirect_fallback")
      (redirect_event_effects env w (id bank) "redirect_fallback"
       ++ if String.eqb (fallback_url bank) "" then []
          else [ESetLocationHref (fallback_url bank)]).
Proof.
  unfold Redirect.switchToFallback, mbind, JS_bind.
  rewrite redirect_event_run by reflexivity.
  unfold truthy, set_location_href, mbind, JS_bind, bind, emit. simpl.
  destruct (String.eqb (fallback_url bank) ""); simpl; [reflexivity |].
  destruct (href_assign_throws env (fallback_url bank)); reflexivity.
Qed.

Lemma tryOpenBank_run_no_deeplink env (bank : BankDescriptor) (w : World) :
  deeplink bank = "" ->
  Redirect.tryOpenBank env bank w
  = let r := Redirect.switchToFallback env bank
               (after_redirect_event env w (id bank) "redirect_attempt") in
    mkResult (res r) (world r)
      (redirect_event_effects env w (id bank) "redirect_attempt" ++ effects r).
Proof.
  intros Hempty. unfold Redirect.tryOpenBank, mbind, JS_bind.
  rewrite redirect_event_run by reflexivity.
  rewrite Hempty. reflexivity.
Qed.

Lemma setTimeout_run (cb : Callback) (delay : Z) (w : World) :
  setTimeout cb delay w
  = mkResult (Normal (next_handle w))
      (set_timers (timers w ++ [(next_handle w, cb)])
         (set_next_handle (S (next_handle w)) w))
      [ESetTimeout (next_handle w) cb delay].
Proof. reflexivity. Qed.

Lemma window_addBlurListener_run (cb : Callback) (once : bool) (w : World) :
  window_addBlurListener cb once w
  = mkResult (Normal tt)
      (set_blur_listeners (blur_listeners w ++ [(cb, once)]) w)
      [EAddWindowListener "blur" cb once].
Proof. reflexivity. Qed.

Lemma set_location_href_run env (url : string) (w : World) :
  set_location_href env url w
  = mkResult match href_assign_throws env url with
             | Some e => Throw e
             | None => Normal tt
             end
             w [ESetLocationHref url].
Proof.
  unfold set_location_href, mbind, JS_bind, bind, emit. simpl.
  destruct (href_assign_throws env url); reflexivity.
Qed.

Lemma try_catch_normal {A} (c : JS A) (h : JsError -> JS A) w a w' es :
  c w = mkResult (Normal a) w' es -> try_catch c h w = mkResult (Normal a) w' es.
Proof. intros H. unfold try_catch. rewrite H. reflexivity. Qed.

Lemma try_catch_throw {A} (c : JS A) (h : JsError -> JS A) w e w' es :
  c w = mkResult (Throw e) w' es ->
  try_catch c h w
  = mkResult (res (h e w')) (world (h e w')) (es ++ effects (h e w')).
Proof. intros H. unfold try_catch. rewrite H. reflexivity. Qed.

Lemma tryOpenBank_arm_and_open env (bank : BankDescriptor) (w1 : World) :
  let t := next_handle w1 in
  let started :=
    [ESetTimeout t (CbSwitchToFallback bank) 1100;
     EAddWindowListener "blur" (CbClearTimeout t) true;
     ESetLocationHref (deeplink bank)] in
  bind (setTimeout (CbSwitchToFallback bank) 1100) (fun fallbackTimer =>
    bind (window_addBlurListener (CbClearTimeout fallbackTimer) true) (fun _ =>
      try_catch (set_location_href env (deeplink bank))
        (fun error =>
           bind (console_debug "Redirect: не удалось открыть deeplink")
                (fun _ => Redirect.switchToFallback env bank)))) w1
  = match href_assign_throws env (deeplink bank) with
    | None => mkResult (Normal tt) (armed bank w1) started
    | Some e =>
        let r := Redirect.switchToFallback env bank (armed bank w1) in
        mkResult (res r) (world r)
          (started
           ++ EConsoleDebug "Redirect: не удалось открыть deeplink"
              :: effects r)
    end.
Proof.
  intros t started. subst t started.
  erewrite bind_normal by apply setTimeout_run.
  erewrite bind_normal by apply window_addBlurListener_run.
  fold (armed bank w1).
  destruct (href_assign_throws env (deeplink bank)) as [e |] eqn:Hraise.
  - erewrite try_catch_throw
      by (rewrite set_location_href_run, Hraise; reflexivity).
    unfold console_debug.
    erewrite bind_normal by reflexivity.
    cbn [res world effects app]. reflexivity.
  - erewrite try_catch_normal
      by (rewrite set_location_href_run, Hraise; reflexivity).
    cbn [res world effects app]. reflexivity.
Qed.

Lemma tryOpenBank_run_deeplink env (bank : BankDescriptor) (w : World) :
  deeplink bank <> "" ->
  let w1 := after_redirect_event env w (id bank) "redirect_attempt" in
  let t := next_handle w1 in
  let started :=
    (redirect_event_effects env w (id bank) "redirect_attempt"
     ++ [ESetTimeout t (CbSwitchToFallback bank) 1100;
         EAddWindowListener "blur" (CbClearTimeout t) true;
         ESetLocationHref (deeplink bank)])%list in
  Redirect.tryOpenBank env bank w
  = match href_assign_throws env (deeplink bank) with
    | None => mkResult (Normal tt) (armed bank w1) started
    | Some e =>
        let r := Redirect.switchToFallback env bank (armed bank w1) in
        mkResult (res r) (world r)
          (started
           ++ EConsoleDebug "Redirect: не удалось открыть deeplink"
              :: effects r)
    end.
Proof.
  intros Hne w1 t started. subst started t.
  unfold Redirect.tryOpenBank, mbind, JS_bind.
  rewrite redirect_event_run by reflexivity.
  apply String.eqb_neq in Hne. unfold truthy. rewrite Hne.
  cbn [negb]. cbv iota. fold w1. clearbody w1.
  generalize (redirect_event_effects env w (id bank) "redirect_attempt").
  intros sent.
  rewrite tryOpenBank_arm_and_open.
  destruct (href_assign_throws env (deeplink bank)) as [e |].
  - generalize (Redirect.switchToFallback env bank (armed bank w1)).
    intros fallback. cbn [res world effects].
    rewrite <- !app_assoc. reflexivity.
  - reflexivity.
Qed.

(** ** Handles *)

Lemma find_handle_app_fresh {A} (t : nat) (a : A) (l : list (nat * A)) :
  Forall (fun e => fst e < t) l -> find_handle t (l ++ [(t, a)]) = Some a.
Proof.
  induction l as [| [h b] l IH]; intros Hall; simpl.
  - rewrite Nat.eqb_refl. reflexivity.
  - inversion Hall as [| ? ? Hlt Hrest]; subst. simpl in Hlt.
    destruct (Nat.eqb_spec h t) as [-> | _]; [lia |]. apply IH, Hrest.
Qed.

Lemma remove_handle_app_fresh {A} (t : nat) (a : A) (l : list (nat * A)) :
  Forall (fun e => fst e < t) l -> remove_handle t (l ++ [(t, a)]) = l.
Proof.
  induction l as [| [h b] l IH]; intros Hall; simpl.
  - rewrite Nat.eqb_refl. reflexivity.
  - inversion Hall as [| ? ? Hlt Hrest]; subst. simpl in Hlt.
    destruct (Nat.eqb_spec h t) as [-> | _]; [lia |].
    f_equal. apply IH, Hrest.
Qed.

Lemma find_handle_removed {A} (t : nat) (l : list (nat * A)) :
  find_handle t (remove_handle t l) = None.
Proof.
  induction l as [| [h b] l IH]; [reflexivity |]. simpl.
  destruct (Nat.eqb_spec h t) as [-> | Hne]; [exact IH |].
  simpl. apply Nat.eqb_neq in Hne. rewrite Hne. exact IH.
Qed.

(** ** What sending an event leaves alone *)

Lemma after_redirect_event_frame env (w : World) (bank_id eventType : string) :
  let w' := after_redirect_event env w bank_id eventType in
  telegramContext w' = telegramContext w
  /\ timers w' = timers w
  /\ blur_listeners w' = blur_listeners w
  /\ click_listeners w' = click_listeners w
  /\ alive w' = alive w
  /\ next_handle w <= next_handle w'.
Proof.
  unfold after_redirect_event, post_world.
  destruct (post_started _ _); simpl; repeat split; lia.
Qed.

Lemma post_effects_shape env (payload : value) (h : nat) :
  (post_effects env payload h
     = [EConsoleDebug "ApiClient: BASE_URL не указан, пропускаем отправку"]
   /\ (API_BASE_URL env = None \/ API_BASE_URL env = Some ""))
  \/ post_effects env payload h
     = [EStringify payload; EConsoleDebug "ApiClient: исключение при отправке"]
  \/ exists url body,
       post_effects env payload h
       = [EStringify payload; EFetch h url (post_init body)].
Proof.
  unfold post_effects.
  destruct (API_BASE_URL env) as [url |]; [| left; split; auto].
  destruct (String.eqb_spec url "") as [-> | Hne]; [left; split; auto |].
  right.
  destruct (json_stringify env payload) as [body |]; [| left; reflexivity].
  destruct (fetch_throws env url); [left; reflexivity |].
  right. exists url, body. reflexivity.
Qed.

Lemma redirect_event_observed env (w : World) (bank_id eventType : string) :
  navigations (redirect_event_effects env w bank_id eventType) = []
  /\ started_timers (redirect_event_effects env w bank_id eventType) = []
  /\ (forall t, EClearTimeout t ∉ redirect_event_effects env w bank_id eventType)
  /\ (forall url, API_BASE_URL env = Some url -> url <> "" ->
        telemetry_events (redirect_event_effects env w bank_id eventType)
        = [VString eventType]).
Proof.
  unfold redirect_event_effects.
  destruct (post_effects_shape env (redirect_payload env w bank_id eventType)
              (next_handle w))
    as [[-> Hnone] | [-> | (url & body & ->)]].
  - split; [reflexivity |]. split; [reflexivity |]. split.
    + intros t Hin. apply list_elem_of_singleton in Hin. discriminate.
    + intros url Hurl Hne. destruct Hnone; congruence.
  - split; [reflexivity |]. split; [reflexivity |]. split.
    + intros t Hin.
      repeat (apply elem_of_cons in Hin as [Hin | Hin]; [discriminate |]).
      inversion Hin.
    + intros; reflexivity.
  - split; [reflexivity |]. split; [reflexivity |]. split.
    + intros t Hin.
      repeat (apply elem_of_cons in Hin as [Hin | Hin]; [discriminate |]).
      inversion Hin.
    + intros; reflexivity.
Qed.

Lemma eqb_empty_decide {A} (s : string) (x y : A) :
  (if String.eqb s "" then x else y) = (if decide (s = "") then x else y).
Proof.
  destruct (String.eqb_spec s ""), (decide (s = "")); congruence.
Qed.

Lemma switchToFallback_effects env (bank : BankDescriptor) (w : World) :
  effects (Redirect.switchToFallback env bank w)
  = (effects (ApiClient.sendRedirectEvent env (VObject (telegramContext w))
                (VString (id bank)) (VString "redirect_fallback") VUndefined w)
     ++ if decide (fallback_url bank = "") then []
        else [ESetLocationHref (fallback_url bank)])%list.
Proof.
  rewrite switchToFallback_run, sendRedirectEvent_run. simpl.
  rewrite eqb_empty_decide. reflexivity.
Qed.

Lemma switchToFallback_observed env (bank : BankDescriptor) (w : World) :
  navigations (effects (Redirect.switchToFallback env bank w))
    = (if decide (fallback_url bank = "") then [] else [fallback_url bank])
  /\ (forall url, API_BASE_URL env = Some url -> url <> "" ->
        telemetry_events (effects (Redirect.switchToFallback env bank w))
        = [VString "redirect_fallback"]).
Proof.
  rewrite switchToFallback_run. simpl.
  destruct (redirect_event_observed env w (id bank) "redirect_fallback")
    as (Hnav & _ & _ & Htel).
  unfold navigations, telemetry_events in *. rewrite !omap_app.
  rewrite Hnav, eqb_empty_decide. split.
  - destruct (decide (fallback_url bank = "")); reflexivity.
  - intros url Hurl Hne. rewrite (Htel url Hurl Hne).
    destruct (decide (fallback_url bank = "")); reflexivity.
Qed.

(** C6. When writing the deep link to the location raises, [tryOpenBank]
    logs it and runs the fallback step at once: that step sends the
    [redirect_fallback] event and then writes [fallback_url] to the
    location when it is non-empty; when it is empty the step does
    nothing after the event and writes no location. *)
Theorem deeplink_raise_falls_back env (bank : BankDescriptor) (w : World)
    (e : JsError) :
  deeplink bank <> "" ->
  href_assign_throws env (deeplink bank) = Some e ->
  exists (before : list Effect) (w1 : World),
    effects (Redirect.tryOpenBank env bank w)
      = (before
         ++ [ESetLocationHref (deeplink bank);
             EConsoleDebug "Redirect: не удалось открыть deeplink"]
         ++ effects (Redirect.switchToFallback env bank w1))%list
    /\ navigations before = []
    /\ effects (Redirect.switchToFallback env bank w1)
       = (effects (ApiClient.sendRedirectEvent env
                     (VObject (telegramContext w1)) (VString (id bank))
                     (VString "redirect_fallback") VUndefined w1)
          ++ if decide (fallback_url bank = "") then []
             else [ESetLocationHref (fallback_url bank)])%list
    /\ (forall url, API_BASE_URL env = Some url -> url <> "" ->
          telemetry_events (effects (Redirect.switchToFallback env bank w1))
          = [VString "redirect_fallback"])
    /\ navigations (effects (Redirect.switchToFallback env bank w1))
       = (if decide (fallback_url bank = "") then [] else [fallback_url bank]).
Proof.
  intros Hne Hraise.
  pose proof (tryOpenBank_run_deeplink env bank w Hne) as Hrun.
  cbv zeta in Hrun. rewrite Hraise in Hrun.
  apply (f_equal effects) in Hrun. cbn [effects] in Hrun.
  rewrite <- app_assoc in Hrun.
  set (w0 := after_redirect_event env w (id bank) "redirect_attempt") in *.
  exists (redirect_event_effects env w (id bank) "redirect_attempt"
          ++ [ESetTimeout (next_handle w0) (CbSwitchToFallback bank) 1100;
              EAddWindowListener "blur" (CbClearTimeout (next_handle w0)) true])%list,
         (armed bank w0).
  split; [| split; [| split; [| split]]].
  - rewrite Hrun, <- app_assoc. reflexivity.
  - unfold navigations. rewrite omap_app.
    destruct (redirect_event_observed env w (id bank) "redirect_attempt")
      as (Hnav & _). unfold navigations in Hnav. rewrite Hnav. reflexivity.
  - apply switchToFallback_effects.
  - apply switchToFallback_observed.
  - apply switchToFallback_observed.
Qed.

Lemma deeplink_raise_falls_back_witness :
  exists (before : list Effect) (w1 : World),
    effects (Redirect.tryOpenBank Samples.env_deeplink_raises Samples.vtb
               Samples.world0)
      = (before
         ++ [ESetLocationHref "vtb://vtb.ru/i/";
             EConsoleDebug "Redirect: не удалось открыть deeplink"]
         ++ effects (Redirect.switchToFallback Samples.env_deeplink_raises
                       Samples.vtb w1))%list
    /\ navigations (effects (Redirect.switchToFallback
                              Samples.env_deeplink_raises Samples.vtb w1))
       = ["https://online.vtb.ru/login"].
Proof.
  destruct (deeplink_raise_falls_back Samples.env_deeplink_raises Samples.vtb
              Samples.world0 (HostError "unknown scheme"))
    as (before & w1 & Heff & _ & _ & _ & Hnav).
  - discriminate.
  - reflexivity.
  - exists before, w1. split; [exact Heff | exact Hnav].
Defined.

(** ** The timer and the blur listener *)

Lemma find_handle_fresh {A} (t : nat) (l : list (nat * A)) :
  Forall (fun e => fst e < t) l -> find_handle t l = None.
Proof.
  induction l as [| [h b] l IH]; intros Hall; [reflexivity |].
  inversion Hall as [| ? ? Hlt Hrest]; subst. simpl in *.
  destruct (Nat.eqb_spec h t) as [-> | _]; [lia |]. apply IH, Hrest.
Qed.

Lemma tryOpenBank_armed env (bank : BankDescriptor) (w : World) :
  deeplink bank <> "" ->
  let r := Redirect.tryOpenBank env bank w in
  let t := next_handle (after_redirect_event env w (id bank) "redirect_attempt") in
  timers (world r) = (timers w ++ [(t, CbSwitchToFallback bank)])%list
  /\ blur_listeners (world r)
     = (blur_listeners w ++ [(CbClearTimeout t, true)])%list
  /\ alive (world r) = alive w
  /\ telegramContext (world r) = telegramContext w
  /\ started_timers (effects r) = [(t, CbSwitchToFallback bank, 1100%Z)]
  /\ (forall t', EClearTimeout t' ∉ effects r)
  /\ next_handle w <= t.
Proof.
  intros Hne r t. subst r.
  rewrite (tryOpenBank_run_deeplink env bank w Hne). fold t.
  destruct (after_redirect_event_frame env w (id bank) "redirect_attempt")
    as (Hctx & Htimers & Hblur & _ & Halive & Hnext).
  destruct (redirect_event_observed env w (id bank) "redirect_attempt")
    as (_ & Hstarted & Hclear & _).
  set (w1 := after_redirect_event env w (id bank) "redirect_attempt") in *.
  assert (Hprefix : forall t',
    EClearTimeout t' ∉
      (redirect_event_effects env w (id bank) "redirect_attempt"
       ++ [ESetTimeout t (CbSwitchToFallback bank) 1100;
           EAddWindowListener "blur" (CbClearTimeout t) true;
           ESetLocationHref (deeplink bank)])%list).
  { intros t' Hin. apply elem_of_app in Hin as [Hin | Hin].
    - exact (Hclear t' Hin).
    - repeat (apply elem_of_cons in Hin as [Hin | Hin]; [discriminate |]).
      inversion Hin. }
  destruct (href_assign_throws env (deeplink bank)) as [e |].
  - rewrite switchToFallback_run. simpl.
    destruct (after_redirect_event_frame env (armed bank w1) (id bank)
                "redirect_fallback")
      as (Hctx' & Htimers' & Hblur' & _ & Halive' & _).
    destruct (redirect_event_observed env (armed bank w1) (id bank)
                "redirect_fallback") as (_ & Hstarted' & Hclear' & _).
    rewrite Hctx', Htimers', Hblur', Halive'. simpl.
    rewrite Hctx, Htimers, Hblur, Halive.
    repeat split; try reflexivity; try assumption.
    + unfold started_timers in *.
      rewrite !omap_app, Hstarted. simpl. rewrite omap_app, Hstarted'.
      destruct (String.eqb (fallback_url bank) ""); reflexivity.
    + intros t' Hin. apply elem_of_app in Hin as [Hin | Hin].
      * exact (Hprefix t' Hin).
      * apply elem_of_cons in Hin as [Hin | Hin]; [discriminate |].
        apply elem_of_app in Hin as [Hin | Hin]; [exact (Hclear' t' Hin) |].
        destruct (String.eqb (fallback_url bank) "").
        -- inversion Hin.
        -- apply list_elem_of_singleton in Hin. discriminate.
  - simpl. rewrite Hctx, Htimers, Hblur, Halive.
    repeat split; try reflexivity; try assumption.
    unfold started_timers in *. rewrite omap_app, Hstarted. reflexivity.
Qed.

Lemma step_timer_pending env (t : nat) (cb : Callback) (w : World) :
  alive w = true -> find_handle t (timers w) = Some cb ->
  Redirect.step env (Redirect.TimerElapsed t) w
  = Redirect.run_task (Redirect.run_callback env cb)
      (set_timers (remove_handle t (timers w)) w).
Proof.
  intros Halive Hfind. unfold Redirect.step. rewrite Halive, Hfind.
  reflexivity.
Qed.

Lemma step_timer_absent env (t : nat) (w : World) :
  find_handle t (timers w) = None ->
  Redirect.step env (Redirect.TimerElapsed t) w = (w, []).
Proof.
  intros Hfind. unfold Redirect.step. rewrite Hfind.
  destruct (alive w); reflexivity.
Qed.

Lemma run_listeners_snoc env (cbs : list Callback) (cb : Callback) (w : World) :
  Redirect.run_listeners env (cbs ++ [cb]) w
  = let earlier := Redirect.run_listeners env cbs w in
    let last := Redirect.run_task (Redirect.run_callback env cb) (fst earlier) in
    (fst last, (snd earlier ++ snd last)%list).
Proof.
  unfold Redirect.run_listeners. rewrite foldl_app. reflexivity.
Qed.

Lemma step_blur_clears env (t : nat) (ls : list (Callback * bool)) (w : World) :
  alive w = true ->
  blur_listeners w = (ls ++ [(CbClearTimeout t, true)])%list ->
  let after := Redirect.step env Redirect.Blur w in
  (exists earlier, snd after = (earlier ++ [EClearTimeout t])%list)
  /\ (ls = [] -> snd after = [EClearTimeout t])
  /\ find_handle t (timers (fst after)) = None.
Proof.
  intros Halive Hblur after. subst after.
  unfold Redirect.step. rewrite Halive, Hblur. simpl negb. cbv iota.
  rewrite fmap_app. simpl (fst <$> [_]).
  rewrite run_listeners_snoc. simpl.
  split; [| split].
  - eexists. reflexivity.
  - intros ->. reflexivity.
  - apply find_handle_removed.
Qed.

Lemma navigations_app (l1 l2 : list Effect) :
  navigations (l1 ++ l2) = (navigations l1 ++ navigations l2)%list.
Proof. apply omap_app. Qed.

Lemma telemetry_events_app (l1 l2 : list Effect) :
  telemetry_events (l1 ++ l2)
  = (telemetry_events l1 ++ telemetry_events l2)%list.
Proof. apply omap_app. Qed.

Lemma run_task_switchToFallback_observed env (bank : BankDescriptor)
    (w : World) :
  let ran := Redirect.run_task (Redirect.switchToFallback env bank) w in
  navigations (snd ran)
    = (if decide (fallback_url bank = "") then [] else [fallback_url bank])
  /\ (forall url, API_BASE_URL env = Some url -> url <> "" ->
        telemetry_events (snd ran) = [VString "redirect_fallback"])
  /\ timers (fst ran) = timers w.
Proof.
  intros ran. subst ran. unfold Redirect.run_task. cbn [fst snd].
  destruct (switchToFallback_observed env bank w) as (Hnav & Htel).
  split; [| split].
  - unfold navigations in *. rewrite omap_app, Hnav.
    destruct (res _); apply app_nil_r.
  - intros url Hurl Hnonempty. unfold telemetry_events in *.
    rewrite omap_app, (Htel url Hurl Hnonempty).
    destruct (res _); reflexivity.
  - rewrite switchToFallback_run. cbn [world].
    destruct (after_redirect_event_frame env w (id bank) "redirect_fallback")
      as (_ & Ht & _).
    exact Ht.
Qed.

Lemma step_timer_runs_fallback env (bank : BankDescriptor) (t : nat)
    (pending : list (nat * Callback)) (w : World) :
  alive w = true ->
  timers w = (pending ++ [(t, CbSwitchToFallback bank)])%list ->
  Forall (fun e : nat * Callback => fst e < t) pending ->
  let elapsed := Redirect.step env (Redirect.TimerElapsed t) w in
  elapsed = Redirect.run_task (Redirect.switchToFallback env bank)
              (set_timers pending w)
  /\ navigations (snd elapsed)
     = (if decide (fallback_url bank = "") then [] else [fallback_url bank])
  /\ (forall url, API_BASE_URL env = Some url -> url <> "" ->
        telemetry_events (snd elapsed) = [VString "redirect_fallback"])
  /\ timers (fst elapsed) = pending
  /\ Redirect.step env (Redirect.TimerElapsed t) (fst elapsed)
     = (fst elapsed, []).
Proof.
  intros Halive Htimers Hbelow elapsed.
  assert (Hstep : elapsed
                  = Redirect.run_task (Redirect.switchToFallback env bank)
                      (set_timers pending w)).
  { subst elapsed.
    rewrite (step_timer_pending env t (CbSwitchToFallback bank) w Halive).
    - rewrite Htimers, remove_handle_app_fresh by exact Hbelow. reflexivity.
    - rewrite Htimers. apply find_handle_app_fresh, Hbelow. }
  clearbody elapsed. subst elapsed.
  destruct (run_task_switchToFallback_observed env bank (set_timers pending w))
    as (Hnav & Htel & Hkept).
  split; [reflexivity |]. split; [exact Hnav |]. split; [exact Htel |].
  split; [exact Hkept |].
  apply step_timer_absent. rewrite Hkept. apply find_handle_fresh, Hbelow.
Qed.

(** C3, as the code has it.  With an empty deep link [tryOpenBank] runs
    the fallback step at once and starts no timer.  With a non-empty one
    it starts one timer of 1100 ms and one once-only blur listener; when
    the timer elapses with no blur before it, the fallback step runs
    (sending [redirect_fallback] and writing [fallback_url] to the
    location when that is non-empty, writing nothing when it is empty),
    and the timer is spent; when a blur comes first the listener clears
    the timer, and its time elapsing then does nothing. *)
Theorem tryOpenBank_timer_race env (bank : BankDescriptor) (w : World) :
  alive w = true -> handles_fresh w ->
  let r := Redirect.tryOpenBank env bank w in
  (deeplink bank = "" ->
     started_timers (effects r) = []
     /\ exists w1,
          r = let attempt :=
                ApiClient.sendRedirectEvent env (VObject (telegramContext w))
                  (VString (id bank)) (VString "redirect_attempt") VUndefined w in
              let fallback := Redirect.switchToFallback env bank w1 in
              mkResult (res fallback) (world fallback)
                       (effects attempt ++ effects fallback))
  /\ (deeplink bank <> "" ->
      exists t,
        started_timers (effects r) = [(t, CbSwitchToFallback bank, 1100%Z)]
        /\ timers (world r) = (timers w ++ [(t, CbSwitchToFallback bank)])%list
        /\ blur_listeners (world r)
           = (blur_listeners w ++ [(CbClearTimeout t, true)])%list
        /\ (let elapsed := Redirect.step env (Redirect.TimerElapsed t) (world r) in
            (exists w1, elapsed
                        = Redirect.run_task (Redirect.switchToFallback env bank) w1)
            /\ navigations (snd elapsed)
               = (if decide (fallback_url bank = "") then []
                  else [fallback_url bank])
            /\ (forall url, API_BASE_URL env = Some url -> url <> "" ->
                  telemetry_events (snd elapsed) = [VString "redirect_fallback"])
            /\ timers (fst elapsed) = timers w
            /\ Redirect.step env (Redirect.TimerElapsed t) (fst elapsed)
               = (fst elapsed, []))
        /\ (let blurred := Redirect.step env Redirect.Blur (world r) in
            (exists earlier, snd blurred = (earlier ++ [EClearTimeout t])%list)
            /\ (blur_listeners w = [] -> snd blurred = [EClearTimeout t])
            /\ find_handle t (timers (fst blurred)) = None
            /\ Redirect.step env (Redirect.TimerElapsed t) (fst blurred)
               = (fst blurred, []))).
Proof.
  intros Halive [Hfresh _] r. split.
  - intros Hempty. subst r.
    rewrite (tryOpenBank_run_no_deeplink env bank w Hempty). split.
    + destruct (redirect_event_observed env w (id bank) "redirect_attempt")
        as (_ & Hstarted & _).
      cbv zeta. cbn [effects]. rewrite switchToFallback_run. cbn [effects].
      destruct (redirect_event_observed env
                  (after_redirect_event env w (id bank) "redirect_attempt")
                  (id bank) "redirect_fallback") as (_ & Hstarted' & _).
      unfold started_timers in *. rewrite !omap_app, Hstarted, Hstarted'.
      destruct (String.eqb (fallback_url bank) ""); reflexivity.
    + exists (after_redirect_event env w (id bank) "redirect_attempt").
      rewrite sendRedirectEvent_run. reflexivity.
  - intros Hne.
    destruct (tryOpenBank_armed env bank w Hne)
      as (Htimers & Hblur & Halive' & _ & Hstarted & _ & Hnext).
    fold r in Htimers, Hblur, Halive', Hstarted.
    set (t := next_handle
                (after_redirect_event env w (id bank) "redirect_attempt")) in *.
    assert (Hbelow : Forall (fun e : nat * Callback => fst e < t) (timers w)).
    { eapply Forall_impl; [exact Hfresh |]. simpl. intros; lia. }
    exists t. split; [exact Hstarted |]. split; [exact Htimers |].
    split; [exact Hblur |]. split.
    + destruct (step_timer_runs_fallback env bank t (timers w) (world r))
        as (Hstep & Hnav & Htel & Hspent & Honce).
      * rewrite Halive'. exact Halive.
      * exact Htimers.
      * exact Hbelow.
      * split; [eexists; exact Hstep |]. repeat split; assumption.
    + destruct (step_blur_clears env t (blur_listeners w) (world r))
        as (Hearlier & Honly & Hgone).
      * rewrite Halive'. exact Halive.
      * exact Hblur.
      * cbv zeta. repeat split; try assumption.
        apply step_timer_absent, Hgone.
Qed.

Lemma fallback_navigation_on_elapse_counterexample :
  let r := Redirect.tryOpenBank Samples.env_ok Samples.app_only Samples.world0 in
  deeplink Samples.app_only <> ""
  /\ started_timers (effects r)
     = [(1, CbSwitchToFallback Samples.app_only, 1100%Z)]
  /\ navigations
       (snd (Redirect.step Samples.env_ok (Redirect.TimerElapsed 1) (world r)))
     = []
  /\ ~ fallback_url Samples.app_only
       ∈ navigations
           (snd (Redirect.step Samples.env_ok (Redirect.TimerElapsed 1)
                   (world r))).
Proof.
  assert (Hnav :
    navigations
      (snd (Redirect.step Samples.env_ok (Redirect.TimerElapsed 1)
              (world (Redirect.tryOpenBank Samples.env_ok Samples.app_only
                        Samples.world0)))) = []) by (vm_compute; reflexivity).
  cbv zeta. rewrite Hnav.
  split; [discriminate |]. split; [vm_compute; reflexivity |].
  split; [reflexivity |]. intros Hin. inversion Hin.
Qed.

Lemma tryOpenBank_timer_race_witness :
  let r := Redirect.tryOpenBank Samples.env_ok Samples.vtb Samples.world0 in
  exists t,
    started_timers (effects r) = [(t, CbSwitchToFallback Samples.vtb, 1100%Z)]
    /\ navigations
         (snd (Redirect.step Samples.env_ok (Redirect.TimerElapsed t) (world r)))
       = ["https://online.vtb.ru/login"]
    /\ snd (Redirect.step Samples.env_ok Redirect.Blur (world r))
       = [EClearTimeout t]
    /\ Redirect.step Samples.env_ok (Redirect.TimerElapsed t)
         (fst (Redirect.step Samples.env_ok Redirect.Blur (world r)))
       = (fst (Redirect.step Samples.env_ok Redirect.Blur (world r)), []).
Proof.
  destruct (tryOpenBank_timer_race Samples.env_ok Samples.vtb Samples.world0)
    as [_ Harmed].
  - reflexivity.
  - split; constructor.
  - destruct Harmed as (t & Hstarted & _ & _ & Helapsed & Hblurred);
      [discriminate |].
    exists t. split; [exact Hstarted |].
    destruct Helapsed as (_ & Hnav & _).
    destruct Hblurred as (_ & Honly & _ & Hspent).
    split; [exact Hnav |]. split; [apply Honly; reflexivity | exact Hspent].
Defined.

(** C9. When the deep-link write raises, the timer started before it is
    not cleared: the fallback step has run once at once, the timer is
    still pending, and when it elapses with the page still there and no
    blur in between, the fallback step runs again; in all,
    [redirect_fallback] is sent twice and [fallback_url], when
    non-empty, is written to the location twice. *)
Theorem deeplink_raise_runs_fallback_twice env (bank : BankDescriptor)
    (w : World) (e : JsError) :
  alive w = true -> handles_fresh w ->
  deeplink bank <> "" ->
  href_assign_throws env (deeplink bank) = Some e ->
  let r := Redirect.tryOpenBank env bank w in
  exists (t : nat) (before : list Effect) (w1 w2 : World),
    effects r
      = (before
         ++ [ESetLocationHref (deeplink bank);
             EConsoleDebug "Redirect: не удалось открыть deeplink"]
         ++ effects (Redirect.switchToFallback env bank w1))%list
    /\ (forall t', EClearTimeout t' ∉ effects r)
    /\ alive (world r) = true
    /\ find_handle t (timers (world r)) = Some (CbSwitchToFallback bank)
    /\ Redirect.step env (Redirect.TimerElapsed t) (world r)
       = Redirect.run_task (Redirect.switchToFallback env bank) w2
    /\ (forall url, API_BASE_URL env = Some url -> url <> "" ->
          telemetry_events
            (effects r
             ++ snd (Redirect.step env (Redirect.TimerElapsed t) (world r)))
          = [VString "redirect_attempt"; VString "redirect_fallback";
             VString "redirect_fallback"])
    /\ navigations
         (effects r
          ++ snd (Redirect.step env (Redirect.TimerElapsed t) (world r)))
       = deeplink bank
         :: (if decide (fallback_url bank = "") then []
             else [fallback_url bank; fallback_url bank]).
Proof.
  intros Halive [Hfresh _] Hne Hraise r.
  destruct (tryOpenBank_armed env bank w Hne)
    as (Htimers & _ & Halive' & _ & _ & Hnoclear & Hnext).
  fold r in Htimers, Halive', Hnoclear.
  set (w0 := after_redirect_event env w (id bank) "redirect_attempt") in *.
  set (t := next_handle w0) in *.
  assert (Hbelow : Forall (fun e : nat * Callback => fst e < t) (timers w)).
  { eapply Forall_impl; [exact Hfresh |]. simpl. intros; lia. }
  assert (Hlive : alive (world r) = true) by (rewrite Halive'; exact Halive).
  destruct (step_timer_runs_fallback env bank t (timers w) (world r)
              Hlive Htimers Hbelow) as (Hstep & Hnav2 & Htel2 & _ & _).
  pose (before :=
    (redirect_event_effects env w (id bank) "redirect_attempt"
     ++ [ESetTimeout t (CbSwitchToFallback bank) 1100;
         EAddWindowListener "blur" (CbClearTimeout t) true])%list).
  assert (Heffects : effects r
    = (before
       ++ [ESetLocationHref (deeplink bank);
           EConsoleDebug "Redirect: не удалось открыть deeplink"]
       ++ effects (Redirect.switchToFallback env bank (armed bank w0)))%list).
  { pose proof (tryOpenBank_run_deeplink env bank w Hne) as Hrun.
    cbv zeta in Hrun. rewrite Hraise in Hrun.
    apply (f_equal effects) in Hrun. cbn [effects] in Hrun.
    rewrite <- app_assoc in Hrun. fold r w0 t in Hrun.
    rewrite Hrun. subst before. rewrite <- app_assoc. reflexivity. }
  destruct (redirect_event_observed env w (id bank) "redirect_attempt")
    as (Hnav0 & _ & _ & Htel0).
  destruct (switchToFallback_observed env bank (armed bank w0)) as (Hnav1 & Htel1).
  exists t, before, (armed bank w0), (set_timers (timers w) (world r)).
  split; [exact Heffects |]. split; [exact Hnoclear |].
  split; [exact Hlive |]. split.
  { rewrite Htimers. apply find_handle_app_fresh, Hbelow. }
  split; [exact Hstep |]. split.
  - intros url Hurl Hnonempty.
    rewrite telemetry_events_app, (Htel2 url Hurl Hnonempty), Heffects.
    subst before.
    rewrite !telemetry_events_app, (Htel0 url Hurl Hnonempty),
      (Htel1 url Hurl Hnonempty).
    reflexivity.
  - rewrite navigations_app, Hnav2, Heffects. subst before.
    rewrite !navigations_app, Hnav0, Hnav1.
    destruct (decide (fallback_url bank = "")); reflexivity.
Qed.

Lemma deeplink_raise_runs_fallback_twice_witness :
  let r := Redirect.tryOpenBank Samples.env_deeplink_raises Samples.vtb
             Samples.world0 in
  exists t : nat,
    find_handle t (timers (world r)) = Some (CbSwitchToFallback Samples.vtb)
    /\ telemetry_events
         (effects r
          ++ snd (Redirect.step Samples.env_deeplink_raises
                    (Redirect.TimerElapsed t) (world r)))
       = [VString "redirect_attempt"; VString "redirect_fallback";
          VString "redirect_fallback"]
    /\ navigations
         (effects r
          ++ snd (Redirect.step Samples.env_deeplink_raises
                    (Redirect.TimerElapsed t) (world r)))
       = ["vtb://vtb.ru/i/"; "https://online.vtb.ru/login";
          "https://online.vtb.ru/login"].
Proof.
  destruct (deeplink_raise_runs_fallback_twice Samples.env_deeplink_raises
              Samples.vtb Samples.world0 (HostError "unknown scheme"))
    as (t & before & w1 & w2 & _ & _ & _ & Hpending & _ & Htel & Hnav).
  - reflexivity.
  - split; constructor.
  - discriminate.
  - reflexivity.
  - exists t. split; [exact Hpending |]. split; [| exact Hnav].
    apply (Htel "http://localhost:8080/api/webapp"); [reflexivity | discriminate].
Defined.

(** ** What touches the context object *)

Lemma keeps_ret {A} (a : A) : keeps_context (ret a).
Proof. intros w. reflexivity. Qed.

Lemma keeps_throw {A} (e : JsError) : keeps_context (@throw A e).
Proof. intros w. reflexivity. Qed.

Lemma keeps_emit (e : Effect) : keeps_context (emit e).
Proof. intros w. reflexivity. Qed.

Lemma keeps_bind {A B} (c : JS A) (k : A -> JS B) :
  keeps_context c -> (forall a, keeps_context (k a)) -> keeps_context (bind c k).
Proof.
  intros Hc Hk w. unfold bind. specialize (Hc w).
  destruct (res (c w)) as [a | e]; simpl; [| exact Hc].
  rewrite (Hk a). exact Hc.
Qed.

Lemma keeps_try_catch {A} (c : JS A) (h : JsError -> JS A) :
  keeps_context c -> (forall e, keeps_context (h e)) ->
  keeps_context (try_catch c h).
Proof.
  intros Hc Hh w. unfold try_catch. specialize (Hc w).
  destruct (res (c w)) as [a | e]; simpl; [exact Hc |].
  rewrite (Hh e). exact Hc.
Qed.

Lemma keeps_modify (f : World -> World) :
  (forall w, telegramContext (f w) = telegramContext w) ->
  keeps_context (modify f).
Proof. intros Hf w. apply Hf. Qed.

Lemma keeps_getTelegramContext : keeps_context getTelegramContext.
Proof. intros w. reflexivity. Qed.

Lemma keeps_fresh_handle : keeps_context fresh_handle.
Proof. intros w. reflexivity. Qed.

Lemma keeps_get_member (v : value) (k : string) : keeps_context (get_member v k).
Proof. intros w. destruct v; reflexivity. Qed.

Lemma keeps_buildPayload env context eventType bankId page extra :
  keeps_context (ApiClient.buildPayload env context eventType bankId page extra).
Proof. intros w. rewrite buildPayload_run. reflexivity. Qed.

Lemma keeps_safePost env payload : keeps_context (ApiClient.safePost env payload).
Proof.
  intros w. rewrite safePost_run. unfold post_world. simpl.
  destruct (post_started env payload); reflexivity.
Qed.

Lemma keeps_sendRedirectEvent env context bankId eventType pageOverride :
  keeps_context
    (ApiClient.sendRedirectEvent env context bankId eventType pageOverride).
Proof.
  apply keeps_bind; [apply keeps_buildPayload | intros; apply keeps_safePost].
Qed.

Lemma keeps_sendBankClick env context bankId :
  keeps_context (ApiClient.sendBankClick env context bankId).
Proof.
  apply keeps_bind; [apply keeps_buildPayload | intros; apply keeps_safePost].
Qed.

Lemma keeps_sendWebAppOpen env context :
  keeps_context (ApiClient.sendWebAppOpen env context).
Proof.
  apply keeps_bind; [apply keeps_buildPayload | intros; apply keeps_safePost].
Qed.

Lemma keeps_fetch env url init k : keeps_context (fetch env url init k).
Proof.
  intros w. unfold fetch. destruct (fetch_throws env url); reflexivity.
Qed.

Lemma keeps_setTimeout cb delay : keeps_context (setTimeout cb delay).
Proof. intros w. reflexivity. Qed.

Lemma keeps_clearTimeout t : keeps_context (clearTimeout t).
Proof. intros w. reflexivity. Qed.

Lemma keeps_window_addBlurListener cb once :
  keeps_context (window_addBlurListener cb once).
Proof. intros w. reflexivity. Qed.

Lemma keeps_set_location_href env url : keeps_context (set_location_href env url).
Proof. intros w. rewrite set_location_href_run. reflexivity. Qed.

Lemma keeps_set_status_text env text : keeps_context (set_status_text env text).
Proof.
  intros w. unfold set_status_text. destruct (has_status_text env); reflexivity.
Qed.

Lemma keeps_set_link_href env url : keeps_context (set_link_href env url).
Proof.
  intros w. unfold set_link_href. destruct (has_fallback_link env); reflexivity.
Qed.

Lemma keeps_link_addClickListener env cb :
  keeps_context (link_addClickListener env cb).
Proof.
  intros w. unfold link_addClickListener.
  destruct (has_fallback_link env); reflexivity.
Qed.

(** Walks a computation built from the combinators, by its syntax. *)
Ltac keeps_step :=
  lazymatch goal with
  | |- keeps_context (bind _ _) => apply keeps_bind; [| intros ?]
  | |- keeps_context (try_catch _ _) => apply keeps_try_catch; [| intros ?]
  | |- keeps_context (ret _) => apply keeps_ret
  | |- keeps_context (throw _) => apply keeps_throw
  | |- keeps_context (emit _) => apply keeps_emit
  | |- keeps_context (console_debug _) => apply keeps_emit
  | |- keeps_context getTelegramContext => apply keeps_getTelegramContext
  | |- keeps_context (get_member _ _) => apply keeps_get_member
  | |- keeps_context (fetch _ _ _ _) => apply keeps_fetch
  | |- keeps_context (setTimeout _ _) => apply keeps_setTimeout
  | |- keeps_context (clearTimeout _) => apply keeps_clearTimeout
  | |- keeps_context (window_addBlurListener _ _) =>
      apply keeps_window_addBlurListener
  | |- keeps_context (set_location_href _ _) => apply keeps_set_location_href
  | |- keeps_context (set_status_text _ _) => apply keeps_set_status_text
  | |- keeps_context (set_link_href _ _) => apply keeps_set_link_href
  | |- keeps_context (link_addClickListener _ _) =>
      apply keeps_link_addClickListener
  | |- keeps_context (ApiClient.sendRedirectEvent _ _ _ _ _) =>
      apply keeps_sendRedirectEvent
  | |- keeps_context (if ?b then _ else _) => destruct b
  | |- keeps_context (match ?x with _ => _ end) => destruct x
  | |- keeps_context _ => solve [assumption | auto]
  end.

Ltac keeps := unfold mbind, JS_bind; repeat keeps_step.

Lemma keeps_switchToFallback env bank :
  keeps_context (Redirect.switchToFallback env bank).
Proof. unfold Redirect.switchToFallback. keeps. Qed.

Lemma keeps_updateUi env bank : keeps_context (Redirect.updateUi env bank).
Proof. unfold Redirect.updateUi. keeps. Qed.

Lemma keeps_tryOpenBank env bank : keeps_context (Redirect.tryOpenBank env bank).
Proof.
  pose proof (keeps_switchToFallback env bank).
  unfold Redirect.tryOpenBank. keeps.
Qed.

Lemma keeps_loadBanks_settled o : keeps_context (BankLoader.loadBanks_settled o).
Proof.
  unfold BankLoader.loadBanks_settled, BankLoader.fetch_settled,
    BankLoader.response_json. keeps.
Qed.

Lemma keeps_loadBanks env consumer :
  keeps_context (BankLoader.loadBanks env consumer).
Proof. unfold BankLoader.loadBanks. keeps. Qed.

Lemma keeps_onBanks env bankId p :
  keeps_context p -> keeps_context (Redirect.onBanks env bankId p).
Proof.
  intros Hp.
  pose proof (keeps_updateUi env). pose proof (keeps_tryOpenBank env).
  unfold Redirect.onBanks. keeps.
Qed.

Lemma keeps_safePost_settled outcome :
  keeps_context (ApiClient.safePost_settled outcome).
Proof. unfold ApiClient.safePost_settled. keeps. Qed.

Lemma keeps_run_callback env cb : keeps_context (Redirect.run_callback env cb).
Proof.
  pose proof (keeps_switchToFallback env).
  unfold Redirect.run_callback. destruct cb; keeps.
Qed.

Lemma backfillStartParam_run env (w : World) :
  Redirect.backfillStartParam env w
  = mkResult (Normal tt)
      (set_telegramContext
         (<["startParam" :=
              get_prop (VObject (telegramContext w)) "startParam"
              ||| VString (Redirect.transferId env)]> (telegramContext w)) w)
      [].
Proof.
  unfold Redirect.backfillStartParam, mbind, JS_bind.
  rewrite bind_getTelegramContext.
  rewrite bind_get_member by reflexivity. reflexivity.
Qed.

Lemma run_task_context (c : JS unit) (w : World) :
  keeps_context c ->
  telegramContext (fst (Redirect.run_task c w)) = telegramContext w.
Proof. intros Hc. unfold Redirect.run_task. simpl. apply Hc. Qed.

Lemma run_listeners_context env (cbs : list Callback) (w : World) :
  telegramContext (fst (Redirect.run_listeners env cbs w)) = telegramContext w.
Proof.
  induction cbs as [| cb cbs IH] using rev_ind; [reflexivity |].
  rewrite run_listeners_snoc. simpl.
  rewrite (keeps_run_callback env cb). exact IH.
Qed.

Lemma step_dom_content_loaded_context env (w : World) :
  alive w = true ->
  telegramContext (fst (Redirect.step env Redirect.DOMContentLoaded w))
  = <["startParam" :=
        get_prop (VObject (telegramContext w)) "startParam"
        ||| VString (Redirect.transferId env)]> (telegramContext w).
Proof.
  intros Halive. unfold Redirect.step. rewrite Halive.
  cbn [negb]. cbv iota. unfold Redirect.run_task. cbn [fst].
  unfold Redirect.onDOMContentLoaded, mbind, JS_bind.
  erewrite bind_normal by apply backfillStartParam_run. cbn [world].
  set (w1 := set_telegramContext _ w).
  assert (Hrest : keeps_context
    (bind getTelegramContext (fun ctx =>
       bind (ApiClient.sendRedirectEvent env ctx
               (VString (Redirect.bankId env)) (VString "redirect_open")
               VUndefined)
            (fun _ => bind (BankLoader.loadBanks env
                              (RedirectPage (Redirect.bankId env)))
                           (fun _ => ret tt))))).
  { pose proof (keeps_loadBanks env). keeps. }
  rewrite (Hrest w1). reflexivity.
Qed.

Lemma step_other_context env (ev : Redirect.Event) (w : World) :
  ev <> Redirect.DOMContentLoaded ->
  telegramContext (fst (Redirect.step env ev w)) = telegramContext w.
Proof.
  intros Hev. unfold Redirect.step.
  destruct (alive w); [| reflexivity]. cbn [negb]. cbv iota.
  destruct ev as [| p o | t | | |]; [contradiction | | | | |].
  - destruct (find_handle p (fetches w)) as [[| [b]] |]; [| | reflexivity].
    + rewrite run_task_context by apply keeps_safePost_settled. reflexivity.
    + rewrite run_task_context
        by apply keeps_onBanks, keeps_loadBanks_settled.
      reflexivity.
  - destruct (find_handle t (timers w)) as [cb |]; [| reflexivity].
    rewrite run_task_context by apply keeps_run_callback. reflexivity.
  - rewrite run_listeners_context. reflexivity.
  - apply run_listeners_context.
  - reflexivity.
Qed.

Lemma step_context_other_fields env (ev : Redirect.Event) (w : World)
    (k : string) :
  k <> "startParam" ->
  telegramContext (fst (Redirect.step env ev w)) !! k = telegramContext w !! k.
Proof.
  intros Hk.
  assert (Hcases : ev = Redirect.DOMContentLoaded
                   \/ ev <> Redirect.DOMContentLoaded)
    by (destruct ev; (left; reflexivity) || (right; discriminate)).
  destruct Hcases as [-> | Hev].
  - destruct (alive w) eqn:Halive.
    + rewrite step_dom_content_loaded_context by exact Halive.
      apply lookup_insert_ne. congruence.
    + unfold Redirect.step. rewrite Halive. reflexivity.
  - rewrite step_other_context by exact Hev. reflexivity.
Qed.


Lemma backfill_keeps_truthy_start_param (context : gmap string value)
    (transferId : string) :
  truthy (get_prop (VObject context) "startParam") = true ->
  <["startParam" :=
      get_prop (VObject context) "startParam" ||| VString transferId]> context
  = context.
Proof.
  intros Htruthy. unfold or_value. rewrite Htruthy.
  apply insert_id. simpl in *.
  destruct (context !! "startParam") as [v |]; [reflexivity | discriminate].
Qed.

(** C4, as the code has it.  Over any sequence of page events, the
    context object the bridge supplied changes in one place only: the
    [DOMContentLoaded] handler assigns its [startParam], to the value it
    already has when that is truthy (the object is then unchanged) and
    to the query's [transfer_id] otherwise.  No other field ever
    changes, and no other event (settled requests, timer, blur, click,
    unload) nor any telemetry operation changes the object. *)
Theorem context_changed_only_by_backfill env (evs : list Redirect.Event)
    (w : World) :
  (forall k, k <> "startParam" ->
     telegramContext (fst (Redirect.run env evs w)) !! k
     = telegramContext w !! k)
  /\ (Redirect.DOMContentLoaded ∉ evs ->
      telegramContext (fst (Redirect.run env evs w)) = telegramContext w)
  /\ (alive w = true ->
      telegramContext (fst (Redirect.step env Redirect.DOMContentLoaded w))
      = <["startParam" :=
            get_prop (VObject (telegramContext w)) "startParam"
            ||| VString (Redirect.transferId env)]> (telegramContext w))
  /\ (alive w = true ->
      truthy (get_prop (VObject (telegramContext w)) "startParam") = true ->
      telegramContext (fst (Redirect.step env Redirect.DOMContentLoaded w))
      = telegramContext w)
  /\ (forall context bankId eventType pageOverride,
        keeps_context (ApiClient.sendWebAppOpen env context)
        /\ keeps_context (ApiClient.sendBankClick env context bankId)
        /\ keeps_context (ApiClient.sendRedirectEvent env context bankId
                            eventType pageOverride)).
Proof.
  split; [| split; [| split; [| split]]].
  - intros k Hk. revert w.
    induction evs as [| ev evs IH]; intros w; [reflexivity |].
    cbn [Redirect.run].
    pose proof (step_context_other_fields env ev w k Hk) as Hstep.
    destruct (Redirect.step env ev w) as [w1 es1].
    specialize (IH w1). destruct (Redirect.run env evs w1) as [w2 es2].
    cbn [fst] in *. congruence.
  - revert w. induction evs as [| ev evs IH]; intros w Hnot; [reflexivity |].
    cbn [Redirect.run].
    assert (Hev : ev <> Redirect.DOMContentLoaded).
    { intros ->. apply Hnot. left. }
    pose proof (step_other_context env ev w Hev) as Hstep.
    destruct (Redirect.step env ev w) as [w1 es1].
    assert (Hrest : Redirect.DOMContentLoaded ∉ evs).
    { intros Hin. apply Hnot. right. exact Hin. }
    specialize (IH w1 Hrest). destruct (Redirect.run env evs w1) as [w2 es2].
    cbn [fst] in *. congruence.
  - apply step_dom_content_loaded_context.
  - intros Halive Htruthy.
    rewrite step_dom_content_loaded_context by exact Halive.
    apply backfill_keeps_truthy_start_param, Htruthy.
  - intros context bankId eventType pageOverride.
    split; [apply keeps_sendWebAppOpen |].
    split; [apply keeps_sendBankClick | apply keeps_sendRedirectEvent].
Qed.

Lemma context_immutable_counterexample :
  let w' := fst (Redirect.step Samples.env_ok Redirect.DOMContentLoaded
                   Samples.world0) in
  telegramContext Samples.world0 !! "startParam" = None
  /\ telegramContext w' !! "startParam" = Some (VString "tr-1")
  /\ telegramContext w' <> telegramContext Samples.world0.
Proof.
  assert (Hafter :
    telegramContext
      (fst (Redirect.step Samples.env_ok Redirect.DOMContentLoaded
              Samples.world0)) !! "startParam" = Some (VString "tr-1")).
  { rewrite step_dom_content_loaded_context by reflexivity. reflexivity. }
  cbv zeta. split; [reflexivity |]. split; [exact Hafter |].
  intros Heq. rewrite Heq in Hafter. discriminate.
Qed.

Lemma context_changed_only_by_backfill_witness :
  telegramContext
    (fst (Redirect.run Samples.env_ok [Redirect.Blur; Redirect.LinkClick]
            Samples.world0))
  = telegramContext Samples.world0
  /\ telegramContext
       (fst (Redirect.step Samples.env_ok Redirect.DOMContentLoaded
               Samples.world0))
     = <["startParam" :=
           get_prop (VObject (telegramContext Samples.world0)) "startParam"
           ||| VString (Redirect.transferId Samples.env_ok)]>
         (telegramContext Samples.world0).
Proof.
  split.
  - apply (proj1 (proj2 (context_changed_only_by_backfill Samples.env_ok
                           [Redirect.Blur; Redirect.LinkClick]
                           Samples.world0))).
    intros Hin.
    repeat (apply elem_of_cons in Hin as [Hin | Hin]; [discriminate |]).
    inversion Hin.
  - apply (proj1 (proj2 (proj2 (context_changed_only_by_backfill
                                  Samples.env_ok [] Samples.world0)))).
    reflexivity.
Defined.

(** ** The directory reactions of the redirect page *)

Lemma updateUi_run env (bank : BankDescriptor) (w : World) :
  has_status_text env = true -> has_fallback_link env = true ->
  Redirect.updateUi env bank w
  = mkResult (Normal tt)
      (set_click_listeners (click_listeners w ++ [CbManualClick bank]) w)
      [ESetStatusText ("Открываем банк: " ++ title bank ++ "…");
       ESetLinkHref (or_string (fallback_url bank)
                       (or_string (deeplink bank) "#"));
       EAddLinkListener "click" (CbManualClick bank)].
Proof.
  intros Hstatus Hlink.
  unfold Redirect.updateUi, set_status_text, set_link_href,
    link_addClickListener.
  rewrite Hstatus, Hlink. reflexivity.
Qed.

Lemma onBanks_fulfilled env (bankId : string) (p : JS (list BankDescriptor))
    (banks : list BankDescriptor) (w : World) :
  has_status_text env = true -> has_fallback_link env = true ->
  p w = mkResult (Normal banks) w [] ->
  let target := Redirect.targetBank banks bankId in
  let w1 := set_click_listeners (click_listeners w ++ [CbManualClick target]) w in
  exists after,
    effects (Redirect.onBanks env bankId p w)
    = ([ESetStatusText ("Открываем банк: " ++ title target ++ "…");
        ESetLinkHref (or_string (fallback_url target)
                        (or_string (deeplink target) "#"));
        EAddLinkListener "click" (CbManualClick target)]
       ++ effects (Redirect.tryOpenBank env target w1) ++ after)%list
    /\ (res (Redirect.tryOpenBank env target w1) = Normal tt -> after = []).
Proof.
  intros Hstatus Hlink Hp target w1.
  unfold Redirect.onBanks, mbind, JS_bind, try_catch.
  erewrite bind_normal by exact Hp. fold target.
  erewrite bind_normal by (apply updateUi_run; assumption). fold w1.
  generalize (Redirect.tryOpenBank env target w1). intros opened.
  cbn [res world effects app].
  destruct (res opened) as [[] | e]; cbn [res world effects].
  - exists []. rewrite app_nil_r. split; reflexivity.
  - eexists. split; [reflexivity | discriminate].
Qed.

Lemma tryOpenBank_attempts_deeplink env (bank : BankDescriptor) (w : World) :
  deeplink bank <> "" ->
  ESetLocationHref (deeplink bank) ∈ effects (Redirect.tryOpenBank env bank w).
Proof.
  intros Hne. rewrite (tryOpenBank_run_deeplink env bank w Hne).
  destruct (href_assign_throws env (deeplink bank)); cbn [effects].
  - apply elem_of_app. left. apply elem_of_app. right.
    do 2 apply list_elem_of_further. apply list_elem_of_here.
  - apply elem_of_app. right.
    do 2 apply list_elem_of_further. apply list_elem_of_here.
Qed.

(** C10. With no [bank_id] in the query (or an empty one) and a loaded
    directory that is not empty and has no descriptor with an empty
    [id], the page selects the first descriptor of the directory, shows
    it, and calls [tryOpenBank] on it, which writes its deep link to the
    location when it has one; the synthesized descriptor is not used. *)
Theorem absent_bank_id_selects_first_bank env (first : BankDescriptor)
    (rest : list BankDescriptor) (response : Response) (w : World) :
  query_bank_id env = None \/ query_bank_id env = Some "" ->
  (forall d, d ∈ first :: rest -> id d <> "") ->
  response_ok response = true ->
  json_body response = Some (first :: rest) ->
  has_status_text env = true -> has_fallback_link env = true ->
  Redirect.bankId env = ""
  /\ Redirect.targetBank (first :: rest) (Redirect.bankId env) = first
  /\ exists (w1 : World) (after : list Effect),
       effects (Redirect.onBanks env (Redirect.bankId env)
                  (BankLoader.loadBanks_settled (Responded response)) w)
       = ([ESetStatusText ("Открываем банк: " ++ title first ++ "…");
           ESetLinkHref (or_string (fallback_url first)
                           (or_string (deeplink first) "#"));
           EAddLinkListener "click" (CbManualClick first)]
          ++ effects (Redirect.tryOpenBank env first w1) ++ after)%list
       /\ (res (Redirect.tryOpenBank env first w1) = Normal tt -> after = [])
       /\ (deeplink first <> "" ->
           ESetLocationHref (deeplink first)
             ∈ effects (Redirect.tryOpenBank env first w1)).
Proof.
  intros Hquery Hids Hok Hbody Hstatus Hlink.
  assert (Hbank : Redirect.bankId env = "").
  { unfold Redirect.bankId. destruct Hquery as [-> | ->]; reflexivity. }
  assert (Htarget : Redirect.targetBank (first :: rest) (Redirect.bankId env)
                    = first).
  { rewrite Hbank.
    apply (targetBank_first_when_unmatched (first :: rest) "" Hids first rest).
    reflexivity. }
  split; [exact Hbank |]. split; [exact Htarget |].
  destruct (onBanks_fulfilled env (Redirect.bankId env)
              (BankLoader.loadBanks_settled (Responded response))
              (first :: rest) w Hstatus Hlink
              (loadBanks_settled_success response (first :: rest) w Hok Hbody))
    as (after & Heffects & Hafter).
  rewrite Htarget in Heffects, Hafter.
  eexists _, after. split; [exact Heffects |]. split; [exact Hafter |].
  apply tryOpenBank_attempts_deeplink.
Qed.

Lemma absent_bank_id_selects_first_bank_witness :
  Redirect.bankId Samples.env_deeplink_raises = ""
  /\ Redirect.targetBank (Samples.vtb :: [Samples.app_only])
       (Redirect.bankId Samples.env_deeplink_raises) = Samples.vtb
  /\ exists (w1 : World) (after : list Effect),
       effects (Redirect.onBanks Samples.env_deeplink_raises
                  (Redirect.bankId Samples.env_deeplink_raises)
                  (BankLoader.loadBanks_settled
                     (Responded (mkResponse 200
                        (Some (Samples.vtb :: [Samples.app_only])))))
                  Samples.world0)
       = ([ESetStatusText ("Открываем банк: " ++ title Samples.vtb ++ "…");
           ESetLinkHref (or_string (fallback_url Samples.vtb)
                           (or_string (deeplink Samples.vtb) "#"));
           EAddLinkListener "click" (CbManualClick Samples.vtb)]
          ++ effects (Redirect.tryOpenBank Samples.env_deeplink_raises
                        Samples.vtb w1) ++ after)%list
       /\ (res (Redirect.tryOpenBank Samples.env_deeplink_raises Samples.vtb w1)
           = Normal tt -> after = [])
       /\ (deeplink Samples.vtb <> "" ->
           ESetLocationHref (deeplink Samples.vtb)
             ∈ effects (Redirect.tryOpenBank Samples.env_deeplink_raises
                          Samples.vtb w1)).
Proof.
  apply (absent_bank_id_selects_first_bank Samples.env_deeplink_raises
           Samples.vtb [Samples.app_only]
           (mkResponse 200 (Some (Samples.vtb :: [Samples.app_only])))
           Samples.world0).
  - left. reflexivity.
  - intros d Hd.
    repeat (apply elem_of_cons in Hd as [-> | Hd]; [discriminate |]).
    inversion Hd.
  - reflexivity.
  - reflexivity.
  - reflexivity.
  - reflexivity.
Defined.

(* ================================================================== *)
(** * Further properties of the three scripts                          *)
(* ================================================================== *)

Import Trace.

(** ** More on the bank directory loader *)

Lemma response_ok_bounds (r : Response) :
  response_ok r = true <-> (200 <= status r <= 299)%Z.
Proof.
  unfold response_ok. rewrite andb_true_iff, !Z.leb_le. tauto.
Qed.

(** X1. A directory response with a status from 200 to 299 and a JSON
    body fulfils the promise of [loadBanks] with that body as it is, the
    empty list included, and logs nothing; every other way the fetch
    settles is a load failure, so the promise is never rejected. *)
Theorem loadBanks_success_is_verbatim (o : FetchOutcome) (w : World) :
  (forall r banks,
     o = Responded r -> (200 <= status r <= 299)%Z -> json_body r = Some banks ->
     BankLoader.loadBanks_settled o w = mkResult (Normal banks) w [])
  /\ (LoadFailure o
      \/ exists r banks,
           o = Responded r /\ (200 <= status r <= 299)%Z
           /\ json_body r = Some banks)
  /\ exists banks, res (BankLoader.loadBanks_settled o w) = Normal banks.
Proof.
  split; [| split].
  - intros r banks -> Hstatus Hbody.
    apply loadBanks_settled_success; [| exact Hbody].
    apply response_ok_bounds, Hstatus.
  - destruct o as [e | r]; [left; constructor |].
    destruct (json_body r) as [banks |] eqn:Hbody;
      [| left; apply json_parse_error, Hbody].
    destruct (response_ok r) eqn:Hok.
    + right. exists r, banks. split; [reflexivity |].
      split; [apply response_ok_bounds, Hok | exact Hbody].
    + left. apply non_2xx_status.
      unfold response_ok in Hok. apply andb_false_iff in Hok.
      rewrite !Z.leb_gt in Hok. lia.
  - apply loadBanks_settled_never_rejects.
Qed.

Lemma loadBanks_success_is_verbatim_witness :
  BankLoader.loadBanks_settled (Responded (mkResponse 299 (Some [])))
    Samples.world0
  = mkResult (Normal []) Samples.world0 [].
Proof.
  apply (proj1 (loadBanks_success_is_verbatim
                  (Responded (mkResponse 299 (Some []))) Samples.world0)
           (mkResponse 299 (Some [])) []).
  - reflexivity.
  - simpl. lia.
  - reflexivity.
Defined.

Lemma fetch_run env (url : string) (init : RequestInit) (k : FetchReactions)
    (w : World) :
  fetch env url init k w
  = match fetch_throws env url with
    | Some e => mkResult (Throw e) w []
    | None =>
        mkResult (Normal (next_handle w))
          (set_fetches (fetches w ++ [(next_handle w, k)])
             (set_next_handle (S (next_handle w)) w))
          [EFetch (next_handle w) url init]
    end.
Proof. unfold fetch. destruct (fetch_throws env url); reflexivity. Qed.

(** X2. The call [loadBanks()] asks for [../config/banks.json] on a page
    under [/redirect/] and for [./config/banks.json] elsewhere, resolved
    against the page address, with [cache: 'no-cache'] and no method,
    header or body of its own, and leaves one pending request.  When the
    address cannot be resolved, or [fetch] itself raises, the call
    throws to its caller before any request, outside the promise. *)
Theorem loadBanks_call env (consumer : BanksConsumer) (w : World) :
  let path := if pathname_has_redirect env then "../config/banks.json"
              else "./config/banks.json" in
  (forall url,
     resolve_url env path (location_href env) = Some url ->
     fetch_throws env url = None ->
     BankLoader.loadBanks env consumer w
     = mkResult (Normal (next_handle w))
         (set_fetches (fetches w ++ [(next_handle w, BankDirectory consumer)])
            (set_next_handle (S (next_handle w)) w))
         [EFetch (next_handle w) url (mkInit None [] None (Some "no-cache"))])
  /\ (resolve_url env path (location_href env) = None ->
      BankLoader.loadBanks env consumer w
      = mkResult (Throw (TypeError "Invalid URL")) w [])
  /\ (forall url e,
        resolve_url env path (location_href env) = Some url ->
        fetch_throws env url = Some e ->
        BankLoader.loadBanks env consumer w = mkResult (Throw e) w []).
Proof.
  intros path. unfold BankLoader.loadBanks, mbind, JS_bind.
  fold (BankLoader.configPath env). change (BankLoader.configPath env) with path.
  split; [| split].
  - intros url Hurl Hfetch. rewrite Hurl, bind_ret_l, fetch_run, Hfetch.
    reflexivity.
  - intros Hurl. rewrite Hurl. reflexivity.
  - intros url e Hurl Hfetch. rewrite Hurl, bind_ret_l, fetch_run, Hfetch.
    reflexivity.
Qed.

Lemma loadBanks_call_witness :
  BankLoader.loadBanks Samples.env_ok (RedirectPage "vtb") Samples.world0
  = mkResult (Normal 0)
      (set_fetches [(0, BankDirectory (RedirectPage "vtb"))]
         (set_next_handle 1 Samples.world0))
      [EFetch 0 "https://example.org/redirect/index.html/../config/banks.json"
         (mkInit None [] None (Some "no-cache"))]
  /\ BankLoader.loadBanks env_no_base (RedirectPage "vtb") Samples.world0
     = mkResult (Throw (TypeError "Invalid URL")) Samples.world0 [].
Proof.
  split.
  - apply (proj1 (loadBanks_call Samples.env_ok (RedirectPage "vtb")
                    Samples.world0)); reflexivity.
  - apply (proj1 (proj2 (loadBanks_call env_no_base (RedirectPage "vtb")
                           Samples.world0))). reflexivity.
Defined.

(** ** More on the telemetry client *)

(** X3. With an endpoint configured, a serializer that returns and a
    [fetch] that does not raise, [safePost] serializes the payload once
    and starts exactly one request: a POST to the endpoint with the
    header [Content-Type: application/json] and the serialized text as
    body; it returns normally and leaves that one request pending. *)
Theorem safePost_starts_one_request env (payload : value) (url body : string)
    (w : World) :
  API_BASE_URL env = Some url -> url <> "" ->
  json_stringify env payload = Some body ->
  fetch_throws env url = None ->
  ApiClient.safePost env payload w
  = mkResult (Normal tt)
      (set_fetches (fetches w ++ [(next_handle w, TelemetryPost)])
         (set_next_handle (S (next_handle w)) w))
      [EStringify payload;
       EFetch (next_handle w) url
         (mkInit (Some "POST") [("Content-Type", "application/json")]
                 (Some body) None)].
Proof.
  intros Hurl Hne Hjson Hfetch. rewrite safePost_run.
  unfold post_world, post_effects, post_started.
  rewrite Hurl, Hjson, Hfetch. apply String.eqb_neq in Hne. rewrite Hne.
  reflexivity.
Qed.

Lemma safePost_starts_one_request_witness :
  ApiClient.safePost Samples.env_ok (VString "payload") Samples.world0
  = mkResult (Normal tt)
      (set_fetches [(0, TelemetryPost)] (set_next_handle 1 Samples.world0))
      [EStringify (VString "payload");
       EFetch 0 "http://localhost:8080/api/webapp"
         (mkInit (Some "POST") [("Content-Type", "application/json")]
                 (Some "{}") None)].
Proof.
  apply (safePost_starts_one_request Samples.env_ok (VString "payload")
           "http://localhost:8080/api/webapp" "{}" Samples.world0).
  - reflexivity.
  - discriminate.
  - reflexivity.
  - reflexivity.
Defined.

Lemma sent_payloads_post_effects env (payload : value) (h : nat) (url : string) :
  API_BASE_URL env = Some url -> url <> "" ->
  sent_payloads (post_effects env payload h) = [payload].
Proof.
  intros Hurl Hne. unfold post_effects. rewrite Hurl.
  apply String.eqb_neq in Hne. rewrite Hne.
  destruct (json_stringify env payload); [| reflexivity].
  destruct (fetch_throws env url); reflexivity.
Qed.

Lemma or_value_empty_string (s : string) :
  VString s ||| VString "" = VString s.
Proof.
  unfold or_value. simpl.
  destruct (String.eqb_spec s "") as [-> | _]; reflexivity.
Qed.

(** X4. What each operation tags its event with.  [sendWebAppOpen] sends
    [webapp_open] from page [miniapp] with an empty bank id;
    [sendBankClick] sends [bank_click] from page [miniapp] with the given
    bank id; [sendRedirectEvent] sends the given event type, or
    [redirect_open] when none is given, from the given page, or
    [redirect] when none is given; a bank id that is absent or empty is
    sent as the empty string.  Each call hands exactly one payload to the
    serializer, stamped with one reading of the clock. *)
Theorem telemetry_event_tags env (context bankId eventType pageOverride : value)
    (url : string) (w : World) :
  API_BASE_URL env = Some url -> url <> "" ->
  (exists p,
     sent_payloads (effects (ApiClient.sendWebAppOpen env context w)) = [p]
     /\ get_prop p "event_type" = VString "webapp_open"
     /\ get_prop p "page" = VString "miniapp"
     /\ get_prop p "bank_id" = VString ""
     /\ get_prop p "ts" = VString (clock env (date_calls w)))
  /\ (exists p,
        sent_payloads (effects (ApiClient.sendBankClick env context bankId w))
          = [p]
        /\ get_prop p "event_type" = VString "bank_click"
        /\ get_prop p "page" = VString "miniapp"
        /\ get_prop p "bank_id"
           = (if truthy bankId then bankId else VString "")
        /\ get_prop p "ts" = VString (clock env (date_calls w)))
  /\ (exists p,
        sent_payloads (effects (ApiClient.sendRedirectEvent env context bankId
                                  eventType pageOverride w)) = [p]
        /\ get_prop p "event_type"
           = (if truthy eventType then eventType else VString "redirect_open")
        /\ get_prop p "page"
           = (if truthy pageOverride then pageOverride else VString "redirect")
        /\ get_prop p "bank_id"
           = (if truthy bankId then bankId else VString "")
        /\ get_prop p "ts" = VString (clock env (date_calls w)))
  /\ date_calls (world (ApiClient.sendRedirectEvent env context bankId
                          eventType pageOverride w)) = S (date_calls w).
Proof.
  intros Hurl Hne. split; [| split; [| split]].
  - eexists. rewrite sendWebAppOpen_run. cbn [effects].
    split; [apply (sent_payloads_post_effects env _ _ url Hurl Hne) |].
    repeat split.
  - eexists. rewrite sendBankClick_run. cbn [effects].
    split; [apply (sent_payloads_post_effects env _ _ url Hurl Hne) |].
    repeat split.
  - eexists. rewrite sendRedirectEvent_run. cbn [effects].
    split; [apply (sent_payloads_post_effects env _ _ url Hurl Hne) |].
    repeat split.
  - rewrite sendRedirectEvent_run. cbn [world]. unfold post_world.
    destruct (post_started _ _); reflexivity.
Qed.

Lemma telemetry_event_tags_witness :
  exists p,
    sent_payloads (effects (ApiClient.sendRedirectEvent Samples.env_ok VNull
                              (VString "vtb") VUndefined VUndefined
                              Samples.world0)) = [p]
    /\ get_prop p "event_type" = VString "redirect_open"
    /\ get_prop p "page" = VString "redirect"
    /\ get_prop p "bank_id" = VString "vtb"
    /\ get_prop p "ts" = VString "2026-01-01T00:00:00.000Z".
Proof.
  apply (proj1 (proj2 (proj2
           (telemetry_event_tags Samples.env_ok VNull (VString "vtb")
              VUndefined VUndefined "http://localhost:8080/api/webapp"
              Samples.world0 eq_refl ltac:(discriminate))))).
Defined.

Lemma or_value_defined (a dflt : value) :
  dflt <> VUndefined -> a ||| dflt <> VUndefined.
Proof.
  intros Hd. unfold or_value. destruct (truthy a) eqn:Ha; [| exact Hd].
  intros ->. discriminate.
Qed.

Lemma transfer_id_of_defined (safeContext : value) :
  transfer_id_of safeContext <> VUndefined.
Proof.
  unfold transfer_id_of.
  destruct (truthy (get_prop safeContext "startParam")) eqn:Hsp.
  - intros Heq. rewrite Heq in Hsp. discriminate.
  - apply or_value_defined. discriminate.
Qed.

Lemma base_fields_defined env (context eventType bankId page : value)
    (ts : string) :
  eventType <> VUndefined -> page <> VUndefined ->
  Forall (fun kv => snd kv <> VUndefined)
         (base_fields env context eventType bankId page ts).
Proof.
  intros Het Hpage. unfold base_fields.
  repeat (apply Forall_cons; split;
          [first [ apply transfer_id_of_defined
                 | apply or_value_defined; discriminate
                 | assumption
                 | discriminate ] |]).
  apply Forall_nil. exact I.
Qed.

Lemma event_payload_defined env (context eventType bankId page : value)
    (ts : string) (k : string) :
  eventType <> VUndefined -> page <> VUndefined ->
  k ∈ documented_fields ->
  get_prop (event_payload env context eventType bankId page ts) k <> VUndefined.
Proof.
  intros Het Hpage Hk.
  change (event_payload env context eventType bankId page ts)
    with (obj (base_fields env context eventType bankId page ts)).
  unfold obj, get_prop.
  assert (Hdom : k ∈ dom (list_to_map (M := gmap string value)
                            (base_fields env context eventType bankId page ts))).
  { replace (dom (list_to_map (M := gmap string value)
                    (base_fields env context eventType bankId page ts)))
      with (list_to_set (C := gset string) documented_fields)
      by reflexivity.
    apply elem_of_list_to_set, Hk. }
  apply elem_of_dom in Hdom as [v Hv]. rewrite Hv. simpl.
  apply elem_of_list_to_map_2 in Hv.
  pose proof (base_fields_defined env context eventType bankId page ts
                Het Hpage) as Hall.
  rewrite Forall_forall in Hall. exact (Hall (k, v) Hv).
Qed.

(** X5. In the payload of each of the three operations no documented
    field is [undefined], whatever the context, the bank id, the event
    type and the page given: the serializer, which leaves out fields that
    are [undefined], is handed all fifteen. *)
Theorem sent_payload_fields_defined env
    (context bankId eventType pageOverride : value) (w : World) (k : string) :
  k ∈ documented_fields ->
  Forall (fun p => get_prop p k <> VUndefined)
    (sent_payloads (effects (ApiClient.sendWebAppOpen env context w)))
  /\ Forall (fun p => get_prop p k <> VUndefined)
       (sent_payloads (effects (ApiClient.sendBankClick env context bankId w)))
  /\ Forall (fun p => get_prop p k <> VUndefined)
       (sent_payloads (effects (ApiClient.sendRedirectEvent env context bankId
                                  eventType pageOverride w))).
Proof.
  intros Hk.
  assert (Hpost : forall payload h,
    get_prop payload k <> VUndefined ->
    Forall (fun p => get_prop p k <> VUndefined)
           (sent_payloads (post_effects env payload h))).
  { intros payload h Hp.
    destruct (post_effects_shape env payload h)
      as [[-> _] | [-> | (url & body & ->)]]; repeat constructor; exact Hp. }
  rewrite sendWebAppOpen_run, sendBankClick_run, sendRedirectEvent_run.
  cbn [effects].
  split; [| split]; apply Hpost; apply event_payload_defined;
    try exact Hk; try discriminate; apply or_value_defined; discriminate.
Qed.

Lemma sent_payload_fields_defined_witness :
  Forall (fun p => get_prop p "inline_parsed" <> VUndefined)
    (sent_payloads (effects (ApiClient.sendRedirectEvent Samples.env_ok VNull
                               VUndefined VUndefined VUndefined
                               Samples.world0))).
Proof.
  apply (proj2 (proj2 (sent_payload_fields_defined Samples.env_ok VNull
                         VUndefined VUndefined VUndefined Samples.world0
                         "inline_parsed"
                         ltac:(do 4 apply list_elem_of_further;
                               apply list_elem_of_here)))).
Defined.

(** ** More on the redirect page *)

Lemma link_target_nonempty (bank : BankDescriptor) : link_target bank <> "".
Proof.
  unfold link_target, or_string.
  destruct (String.eqb_spec (fallback_url bank) "") as [_ | Hf]; [| exact Hf].
  destruct (String.eqb_spec (deeplink bank) "") as [_ | Hd];
    [discriminate | exact Hd].
Qed.

(** X6. [updateUi] shows the bank's title and points the manual link at
    the bank's [fallback_url], or at its [deeplink] when that is empty,
    or at [#] when both are empty, so the link never gets an empty
    target; it then registers one click listener for that bank.  With no
    status element it throws before touching the link; with a status
    element and no link it throws after the text is set; in both cases
    no listener is registered. *)
Theorem updateUi_sets_link env (bank : BankDescriptor) (w : World) :
  (has_status_text env = true -> has_fallback_link env = true ->
     exists target,
       Redirect.updateUi env bank w
       = mkResult (Normal tt)
           (set_click_listeners (click_listeners w ++ [CbManualClick bank]) w)
           [ESetStatusText ("Открываем банк: " ++ title bank ++ "…");
            ESetLinkHref target;
            EAddLinkListener "click" (CbManualClick bank)]
       /\ target <> ""
       /\ (fallback_url bank <> "" -> target = fallback_url bank)
       /\ (fallback_url bank = "" -> deeplink bank <> "" ->
           target = deeplink bank)
       /\ (fallback_url bank = "" -> deeplink bank = "" -> target = "#"))
  /\ (has_status_text env = false ->
      exists e, Redirect.updateUi env bank w = mkResult (Throw e) w [])
  /\ (has_status_text env = true -> has_fallback_link env = false ->
      exists e,
        Redirect.updateUi env bank w
        = mkResult (Throw e) w
            [ESetStatusText ("Открываем банк: " ++ title bank ++ "…")]).
Proof.
  split; [| split].
  - intros Hstatus Hlink. exists (link_target bank).
    split; [apply updateUi_run; assumption |].
    split; [apply link_target_nonempty |].
    unfold link_target, or_string. repeat split.
    + intros Hf. apply String.eqb_neq in Hf. rewrite Hf. reflexivity.
    + intros -> Hd. apply String.eqb_neq in Hd. rewrite Hd. reflexivity.
    + intros -> ->. reflexivity.
  - intros Hstatus. eexists.
    unfold Redirect.updateUi, set_status_text. rewrite Hstatus. reflexivity.
  - intros Hstatus Hlink. eexists.
    unfold Redirect.updateUi, set_status_text, set_link_href.
    rewrite Hstatus, Hlink. reflexivity.
Qed.

Lemma updateUi_sets_link_witness :
  (exists target,
     Redirect.updateUi Samples.env_ok Samples.app_only Samples.world0
     = mkResult (Normal tt)
         (set_click_listeners
            (click_listeners Samples.world0 ++ [CbManualClick Samples.app_only])
            Samples.world0)
         [ESetStatusText ("Открываем банк: " ++ title Samples.app_only ++ "…");
          ESetLinkHref target;
          EAddLinkListener "click" (CbManualClick Samples.app_only)]
     /\ target <> ""
     /\ (fallback_url Samples.app_only <> "" ->
         target = fallback_url Samples.app_only)
     /\ (fallback_url Samples.app_only = "" -> deeplink Samples.app_only <> "" ->
         target = deeplink Samples.app_only)
     /\ (fallback_url Samples.app_only = "" -> deeplink Samples.app_only = "" ->
         target = "#"))
  /\ exists e,
       Redirect.updateUi env_no_status Samples.vtb Samples.world0
       = mkResult (Throw e) Samples.world0 [].
Proof.
  split.
  - apply (proj1 (updateUi_sets_link Samples.env_ok Samples.app_only
                    Samples.world0)); reflexivity.
  - apply (proj1 (proj2 (updateUi_sets_link env_no_status Samples.vtb
                           Samples.world0))). reflexivity.
Defined.

(** X7. When writing the deep link does not raise, [tryOpenBank] returns
    normally having sent [redirect_attempt] only and written the deep
    link only: the fallback step has not run, no [redirect_fallback] is
    sent and [fallback_url] is not written until the timer elapses. *)
Theorem tryOpenBank_opens_deeplink env (bank : BankDescriptor) (w : World) :
  deeplink bank <> "" ->
  href_assign_throws env (deeplink bank) = None ->
  let r := Redirect.tryOpenBank env bank w in
  res r = Normal tt
  /\ navigations (effects r) = [deeplink bank]
  /\ (forall url, API_BASE_URL env = Some url -> url <> "" ->
        telemetry_events (effects r) = [VString "redirect_attempt"]
        /\ sent_field "bank_id" (effects r) = [VString (id bank)]).
Proof.
  intros Hne Hopen r. subst r.
  rewrite (tryOpenBank_run_deeplink env bank w Hne), Hopen.
  cbn [res effects].
  destruct (redirect_event_observed env w (id bank) "redirect_attempt")
    as (Hnav & _ & _ & Htel).
  split; [reflexivity |]. split.
  - rewrite navigations_app, Hnav. reflexivity.
  - intros url Hurl Hnonempty. split.
    + rewrite telemetry_events_app, (Htel url Hurl Hnonempty). reflexivity.
    + unfold sent_field, sent_payloads. rewrite omap_app. cbn [omap].
      rewrite app_nil_r. unfold redirect_event_effects.
      fold (sent_payloads (post_effects env
              (redirect_payload env w (id bank) "redirect_attempt")
              (next_handle w))).
      rewrite (sent_payloads_post_effects env _ _ url Hurl Hnonempty).
      cbn [fmap list_fmap]. f_equal.
      change (get_prop (redirect_payload env w (id bank) "redirect_attempt")
                "bank_id")
        with (VString (id bank) ||| VString "").
      apply or_value_empty_string.
Qed.

Lemma tryOpenBank_opens_deeplink_witness :
  let r := Redirect.tryOpenBank Samples.env_ok Samples.vtb Samples.world0 in
  res r = Normal tt
  /\ navigations (effects r) = ["vtb://vtb.ru/i/"]
  /\ telemetry_events (effects r) = [VString "redirect_attempt"].
Proof.
  destruct (tryOpenBank_opens_deeplink Samples.env_ok Samples.vtb
              Samples.world0) as (Hres & Hnav & Htel).
  - discriminate.
  - reflexivity.
  - split; [exact Hres |]. split; [exact Hnav |].
    apply (Htel "http://localhost:8080/api/webapp"); [reflexivity | discriminate].
Defined.

Lemma redirect_payload_bank_id env (w : World) (bank_id eventType : string) :
  get_prop (redirect_payload env w bank_id eventType) "bank_id" = VString bank_id.
Proof.
  change (get_prop (redirect_payload env w bank_id eventType) "bank_id")
    with (VString bank_id ||| VString "").
  apply or_value_empty_string.
Qed.

Lemma redirect_event_sent env (w : World) (bank_id eventType url : string) :
  API_BASE_URL env = Some url -> url <> "" ->
  sent_payloads (redirect_event_effects env w bank_id eventType)
  = [redirect_payload env w bank_id eventType].
Proof. intros Hurl Hne. apply (sent_payloads_post_effects env _ _ url Hurl Hne). Qed.

Lemma manual_click_run env (bank : BankDescriptor) (w : World) :
  Redirect.run_task (Redirect.run_callback env (CbManualClick bank)) w
  = (after_redirect_event env w (id bank) "redirect_manual_click",
     redirect_event_effects env w (id bank) "redirect_manual_click").
Proof.
  unfold Redirect.run_task, Redirect.run_callback, mbind, JS_bind.
  rewrite bind_getTelegramContext, sendRedirectEvent_run.
  cbn [res world effects]. rewrite app_nil_r. reflexivity.
Qed.

Lemma sent_payloads_app (l1 l2 : list Effect) :
  sent_payloads (l1 ++ l2) = (sent_payloads l1 ++ sent_payloads l2)%list.
Proof. apply omap_app. Qed.

Lemma manual_clicks_run env (banks : list BankDescriptor) (url : string)
    (w : World) :
  API_BASE_URL env = Some url -> url <> "" ->
  let ran := Redirect.run_listeners env (CbManualClick <$> banks) w in
  telemetry_events (snd ran)
    = ((fun _ => VString "redirect_manual_click") <$> banks)
  /\ sent_field "bank_id" (snd ran) = ((fun b => VString (id b)) <$> banks)
  /\ navigations (snd ran) = []
  /\ started_timers (snd ran) = []
  /\ click_listeners (fst ran) = click_listeners w
  /\ timers (fst ran) = timers w
  /\ blur_listeners (fst ran) = blur_listeners w
  /\ telegramContext (fst ran) = telegramContext w.
Proof.
  intros Hurl Hne.
  induction banks as [| bank banks IH] using rev_ind.
  - repeat split.
  - rewrite fmap_app. cbn [fmap list_fmap].
    rewrite run_listeners_snoc. cbv zeta. rewrite manual_click_run.
    cbn [fst snd]. cbv zeta in IH.
    destruct IH as (Htel & Hids & Hnav & Hstarted & Hclick & Htimers & Hblur
                    & Hctx).
    set (w1 := fst (Redirect.run_listeners env (CbManualClick <$> banks) w)) in *.
    destruct (after_redirect_event_frame env w1 (id bank)
                "redirect_manual_click")
      as (Hctx' & Htimers' & Hblur' & Hclick' & _).
    destruct (redirect_event_observed env w1 (id bank) "redirect_manual_click")
      as (Hnav' & Hstarted' & _ & Htel').
    rewrite !fmap_app. cbn [fmap list_fmap].
    split; [rewrite telemetry_events_app, Htel, (Htel' url Hurl Hne);
            reflexivity |].
    split.
    { unfold sent_field in *. rewrite sent_payloads_app, fmap_app, Hids.
      rewrite (redirect_event_sent env _ _ _ url Hurl Hne).
      cbn [fmap list_fmap]. rewrite redirect_payload_bank_id. reflexivity. }
    split; [rewrite navigations_app, Hnav, Hnav'; reflexivity |].
    split.
    { unfold started_timers in *. rewrite omap_app, Hstarted, Hstarted'.
      reflexivity. }
    split; [congruence |]. split; [congruence |]. split; congruence.
Qed.

(** X8. A click on the manual link, with the page alive, sends one
    [redirect_manual_click] event per registered listener, each with the
    id of the bank [updateUi] was called with, in the order of
    registration; the script itself writes no location and starts no
    timer, and the listeners stay registered, so a later click sends the
    events again. *)
Theorem link_click_sends_manual_click env (banks : list BankDescriptor)
    (url : string) (w : World) :
  alive w = true ->
  click_listeners w = CbManualClick <$> banks ->
  API_BASE_URL env = Some url -> url <> "" ->
  let clicked := Redirect.step env Redirect.LinkClick w in
  telemetry_events (snd clicked)
    = ((fun _ => VString "redirect_manual_click") <$> banks)
  /\ sent_field "bank_id" (snd clicked) = ((fun b => VString (id b)) <$> banks)
  /\ navigations (snd clicked) = []
  /\ started_timers (snd clicked) = []
  /\ click_listeners (fst clicked) = click_listeners w
  /\ timers (fst clicked) = timers w.
Proof.
  intros Halive Hclick Hurl Hne clicked. subst clicked.
  unfold Redirect.step. rewrite Halive, Hclick. cbn [negb]. cbv iota.
  destruct (manual_clicks_run env banks url w Hurl Hne)
    as (Htel & Hids & Hnav & Hstarted & Hkept & Htimers & _).
  rewrite Hclick in Hkept. repeat split; assumption.
Qed.

Lemma link_click_sends_manual_click_witness :
  let w := set_click_listeners [CbManualClick Samples.vtb] Samples.world0 in
  let clicked := Redirect.step Samples.env_ok Redirect.LinkClick w in
  telemetry_events (snd clicked) = [VString "redirect_manual_click"]
  /\ sent_field "bank_id" (snd clicked) = [VString "vtb"]
  /\ navigations (snd clicked) = []
  /\ started_timers (snd clicked) = []
  /\ click_listeners (fst clicked) = [CbManualClick Samples.vtb]
  /\ timers (fst clicked) = [].
Proof.
  apply (link_click_sends_manual_click Samples.env_ok [Samples.vtb]
           "http://localhost:8080/api/webapp"
           (set_click_listeners [CbManualClick Samples.vtb] Samples.world0)).
  - reflexivity.
  - reflexivity.
  - reflexivity.
  - discriminate.
Defined.

(** ** The page load *)

Lemma onDOMContentLoaded_run env (w : World) :
  let w1 :=
    set_telegramContext
      (<["startParam" :=
           get_prop (VObject (telegramContext w)) "startParam"
           ||| VString (Redirect.transferId env)]> (telegramContext w)) w in
  let w2 := after_redirect_event env w1 (Redirect.bankId env) "redirect_open" in
  Redirect.onDOMContentLoaded env w
  = let r := bind (BankLoader.loadBanks env (RedirectPage (Redirect.bankId env)))
                  (fun _ => ret tt) w2 in
    mkResult (res r) (world r)
      (redirect_event_effects env w1 (Redirect.bankId env) "redirect_open"
       ++ effects r).
Proof.
  intros w1 w2. unfold Redirect.onDOMContentLoaded, mbind, JS_bind.
  erewrite bind_normal by apply backfillStartParam_run.
  fold w1. rewrite redirect_event_run by reflexivity. fold w2.
  generalize (bind (BankLoader.loadBanks env (RedirectPage (Redirect.bankId env)))
                (fun _ => ret tt) w2).
  intros r. reflexivity.
Qed.

Lemma loadBanks_then_run env (consumer : BanksConsumer) (w : World) :
  let path := BankLoader.configPath env in
  bind (BankLoader.loadBanks env consumer) (fun _ => ret tt) w
  = match resolve_url env path (location_href env) with
    | None => mkResult (Throw (TypeError "Invalid URL")) w []
    | Some url =>
        match fetch_throws env url with
        | Some e => mkResult (Throw e) w []
        | None =>
            mkResult (Normal tt)
              (set_fetches (fetches w ++ [(next_handle w, BankDirectory consumer)])
                 (set_next_handle (S (next_handle w)) w))
              [EFetch (next_handle w) url
                 (mkInit None [] None (Some "no-cache"))]
        end
    end.
Proof.
  intros path. unfold bind, BankLoader.loadBanks, mbind, JS_bind. fold path.
  destruct (resolve_url env path (location_href env)) as [url |];
    [| reflexivity].
  rewrite bind_ret_l, fetch_run.
  destruct (fetch_throws env url); reflexivity.
Qed.

Lemma step_dom_content_loaded env (w : World) :
  alive w = true ->
  Redirect.step env Redirect.DOMContentLoaded w
  = Redirect.run_task (Redirect.onDOMContentLoaded env) w.
Proof. intros Halive. unfold Redirect.step. rewrite Halive. reflexivity. Qed.

Lemma or_value_truthy (a b : value) :
  truthy (a ||| b) = (truthy a || truthy b)%bool.
Proof. unfold or_value. destruct (truthy a) eqn:Ha; [rewrite Ha |]; reflexivity. Qed.

(** X9. On [DOMContentLoaded] the page first sends [redirect_open] with
    the query's [bank_id], then asks for the directory, once, leaving
    that request pending with the page's reactions.  When the directory
    address cannot be resolved, the handler ends with an uncaught
    [TypeError] after [redirect_open] was sent: no directory request is
    started or left pending, so no bank is ever resolved on that page. *)
Theorem page_load_opens_then_fetches env (w : World) :
  alive w = true ->
  let loaded := Redirect.step env Redirect.DOMContentLoaded w in
  let w1 := world (Redirect.backfillStartParam env w) in
  let opened :=
    ApiClient.sendRedirectEvent env (VObject (telegramContext w1))
      (VString (Redirect.bankId env)) (VString "redirect_open") VUndefined w1 in
  let path := if pathname_has_redirect env then "../config/banks.json"
              else "./config/banks.json" in
  (forall url, API_BASE_URL env = Some url -> url <> "" ->
     telemetry_events (snd loaded) = [VString "redirect_open"]
     /\ sent_field "bank_id" (snd loaded) = [VString (Redirect.bankId env)]
     /\ sent_field "page" (snd loaded) = [VString "redirect"])
  /\ (forall url,
        resolve_url env path (location_href env) = Some url ->
        fetch_throws env url = None ->
        exists handle,
          snd loaded
          = (effects opened
             ++ [EFetch handle url (mkInit None [] None (Some "no-cache"))])%list
          /\ fetches (fst loaded)
             = (fetches (world opened)
                ++ [(handle,
                     BankDirectory (RedirectPage (Redirect.bankId env)))])%list)
  /\ (resolve_url env path (location_href env) = None ->
      snd loaded
      = (effects opened ++ [EUncaught (TypeError "Invalid URL")])%list
      /\ fetches (fst loaded) = fetches (world opened)).
Proof.
  intros Halive loaded w1 opened path.
  assert (Hw1 : w1 = set_telegramContext
                       (<["startParam" :=
                            get_prop (VObject (telegramContext w)) "startParam"
                            ||| VString (Redirect.transferId env)]>
                          (telegramContext w)) w).
  { subst w1. rewrite backfillStartParam_run. reflexivity. }
  assert (Hopened : opened
    = mkResult (Normal tt)
        (after_redirect_event env w1 (Redirect.bankId env) "redirect_open")
        (redirect_event_effects env w1 (Redirect.bankId env) "redirect_open")).
  { subst opened. rewrite sendRedirectEvent_run. reflexivity. }
  assert (Hloaded : loaded
    = Redirect.run_task
        (fun w0 =>
           let r := bind (BankLoader.loadBanks env
                            (RedirectPage (Redirect.bankId env)))
                         (fun _ => ret tt)
                         (after_redirect_event env w1 (Redirect.bankId env)
                            "redirect_open") in
           mkResult (res r) (world r)
             (redirect_event_effects env w1 (Redirect.bankId env) "redirect_open"
              ++ effects r)) w).
  { subst loaded. rewrite (step_dom_content_loaded env w Halive).
    unfold Redirect.run_task. rewrite onDOMContentLoaded_run, <- Hw1.
    reflexivity. }
  clearbody loaded opened. subst loaded opened. clear Hw1. clearbody w1.
  unfold Redirect.run_task. cbv beta zeta. rewrite loadBanks_then_run.
  change (BankLoader.configPath env) with path. cbv zeta.
  cbn [res world effects fst snd].
  destruct (redirect_event_observed env w1 (Redirect.bankId env) "redirect_open")
    as (_ & _ & _ & Htel).
  split; [| split].
  - intros url Hurl Hne.
    assert (Hsent : forall tail, sent_payloads tail = [] ->
      telemetry_events
        (redirect_event_effects env w1 (Redirect.bankId env) "redirect_open"
         ++ tail) = [VString "redirect_open"]
      /\ sent_field "bank_id"
           (redirect_event_effects env w1 (Redirect.bankId env) "redirect_open"
            ++ tail) = [VString (Redirect.bankId env)]
      /\ sent_field "page"
           (redirect_event_effects env w1 (Redirect.bankId env) "redirect_open"
            ++ tail) = [VString "redirect"]).
    { intros tail Htail.
      assert (Htail' : telemetry_events tail = []).
      { revert Htail. unfold sent_payloads, telemetry_events.
        induction tail as [| [] tail IHt]; cbn [omap]; intros Ht;
          try discriminate; auto. }
      unfold sent_field.
      rewrite telemetry_events_app, (Htel url Hurl Hne), Htail'.
      rewrite sent_payloads_app, Htail,
        (redirect_event_sent env _ _ _ url Hurl Hne).
      cbn [app fmap list_fmap]. rewrite redirect_payload_bank_id.
      repeat split. }
    destruct (resolve_url env path (location_href env)) as [u |];
      [destruct (fetch_throws env u) |];
      cbn [res world effects]; rewrite <- ?app_assoc; apply Hsent; reflexivity.
  - intros url Hresolve Hfetch. rewrite Hresolve, Hfetch.
    cbn [res world effects fetches set_fetches].
    eexists. rewrite app_nil_r. split; reflexivity.
  - intros Hresolve. rewrite Hresolve. cbn [res world effects].
    rewrite app_nil_r. split; reflexivity.
Qed.

Lemma page_load_opens_then_fetches_witness :
  let loaded := Redirect.step Samples.env_ok Redirect.DOMContentLoaded
                  Samples.world0 in
  telemetry_events (snd loaded) = [VString "redirect_open"]
  /\ sent_field "bank_id" (snd loaded) = [VString "vtb"]
  /\ sent_field "page" (snd loaded) = [VString "redirect"].
Proof.
  apply (proj1 (page_load_opens_then_fetches Samples.env_ok Samples.world0
                  eq_refl) "http://localhost:8080/api/webapp").
  - reflexivity.
  - discriminate.
Defined.

Lemma page_load_sent env (url : string) (w : World) :
  alive w = true -> API_BASE_URL env = Some url -> url <> "" ->
  sent_payloads (snd (Redirect.step env Redirect.DOMContentLoaded w))
  = [redirect_payload env
       (set_telegramContext
          (<["startParam" :=
               get_prop (VObject (telegramContext w)) "startParam"
               ||| VString (Redirect.transferId env)]> (telegramContext w)) w)
       (Redirect.bankId env) "redirect_open"].
Proof.
  intros Halive Hurl Hne.
  rewrite (step_dom_content_loaded env w Halive).
  unfold Redirect.run_task. cbn [snd].
  rewrite onDOMContentLoaded_run. cbv zeta. rewrite loadBanks_then_run.
  cbv zeta. cbn [res effects].
  set (w1 := set_telegramContext _ w).
  assert (Htail : forall r : Result unit,
    sent_payloads (effects r) = [] ->
    sent_payloads
      ((redirect_event_effects env w1 (Redirect.bankId env) "redirect_open"
        ++ effects r)
       ++ match res r with
          | Normal _ => []
          | Throw e => [EUncaught e]
          end)
    = [redirect_payload env w1 (Redirect.bankId env) "redirect_open"]).
  { intros r Hr.
    rewrite !sent_payloads_app, Hr,
      (redirect_event_sent env _ _ _ url Hurl Hne).
    destruct (res r); reflexivity. }
  apply Htail.
  destruct (resolve_url env _ _) as [u |]; [destruct (fetch_throws env u) |];
    reflexivity.
Qed.

(** X10. The [transfer_id] the redirect page reports in [redirect_open]:
    the context's start parameter when it is truthy; otherwise the
    query's [transfer_id] when that is not empty; otherwise
    [initDataUnsafe.start_param] when it is there and truthy; otherwise
    the empty string.  On this page the query thus outranks
    [initDataUnsafe.start_param]. *)
Theorem redirect_open_transfer_id env (url : string) (w : World) :
  alive w = true -> API_BASE_URL env = Some url -> url <> "" ->
  let startParam := get_prop (VObject (telegramContext w)) "startParam" in
  let unsafe := get_prop (VObject (telegramContext w)) "initDataUnsafe" in
  sent_field "transfer_id"
    (snd (Redirect.step env Redirect.DOMContentLoaded w))
  = [ if truthy startParam then startParam
      else if decide (Redirect.transferId env = "") then
             (if truthy unsafe then get_prop unsafe "start_param"
              else VString "") ||| VString ""
           else VString (Redirect.transferId env) ].
Proof.
  intros Halive Hurl Hne startParam unsafe.
  unfold sent_field. rewrite (page_load_sent env url w Halive Hurl Hne).
  cbn [fmap list_fmap]. f_equal.
  unfold redirect_payload. rewrite payload_transfer_id.
  change (VObject ?m ||| empty_object) with (VObject m).
  cbn [telegramContext set_telegramContext].
  unfold transfer_id_of.
  assert (Hsp : get_prop
                  (VObject (<["startParam" :=
                                startParam ||| VString (Redirect.transferId env)]>
                              (telegramContext w))) "startParam"
                = startParam ||| VString (Redirect.transferId env)).
  { unfold get_prop. rewrite lookup_insert_eq. reflexivity. }
  assert (Hunsafe : get_prop
                      (VObject (<["startParam" :=
                                    startParam
                                    ||| VString (Redirect.transferId env)]>
                                  (telegramContext w))) "initDataUnsafe"
                    = unsafe).
  { unfold get_prop. rewrite lookup_insert_ne by discriminate. reflexivity. }
  fold startParam. rewrite Hsp, Hunsafe. rewrite or_value_truthy.
  unfold or_value.
  destruct (truthy startParam) eqn:Hstart; [reflexivity |].
  cbn [orb truthy].
  destruct (decide (Redirect.transferId env = "")) as [Hempty | Hquery].
  - rewrite Hempty. reflexivity.
  - apply String.eqb_neq in Hquery. rewrite Hquery. reflexivity.
Qed.

Lemma redirect_open_transfer_id_witness :
  sent_field "transfer_id"
    (snd (Redirect.step Samples.env_ok Redirect.DOMContentLoaded
            (set_telegramContext
               (list_to_map
                  [("initDataUnsafe",
                    obj [("start_param", VString "from-telegram")])])
               Samples.world0)))
  = [VString "tr-1"].
Proof.
  rewrite (redirect_open_transfer_id Samples.env_ok
             "http://localhost:8080/api/webapp"
             (set_telegramContext
                (list_to_map
                   [("initDataUnsafe",
                     obj [("start_param", VString "from-telegram")])])
                Samples.world0)).
  - reflexivity.
  - reflexivity.
  - reflexivity.
  - discriminate.
Defined.

(** ** The reactions to the directory, when the first attempt throws *)

Lemma tryOpenBank_no_deeplink_observed env (bank : BankDescriptor) (w : World) :
  deeplink bank = "" ->
  let r := Redirect.tryOpenBank env bank w in
  res r = (if String.eqb (fallback_url bank) "" then Normal tt
           else match href_assign_throws env (fallback_url bank) with
                | Some e => Throw e
                | None => Normal tt
                end)
  /\ navigations (effects r)
     = (if decide (fallback_url bank = "") then [] else [fallback_url bank])
  /\ started_timers (effects r) = []
  /\ (forall url, API_BASE_URL env = Some url -> url <> "" ->
        telemetry_events (effects r)
          = [VString "redirect_attempt"; VString "redirect_fallback"]
        /\ sent_field "bank_id" (effects r)
           = [VString (id bank); VString (id bank)])
  /\ click_listeners (world r) = click_listeners w
  /\ timers (world r) = timers w
  /\ blur_listeners (world r) = blur_listeners w.
Proof.
  intros Hempty r. subst r.
  rewrite (tryOpenBank_run_no_deeplink env bank w Hempty). cbv zeta.
  rewrite switchToFallback_run. cbn [res world effects].
  set (w1 := after_redirect_event env w (id bank) "redirect_attempt").
  destruct (after_redirect_event_frame env w (id bank) "redirect_attempt")
    as (_ & Htimers & Hblur & Hclick & _).
  destruct (after_redirect_event_frame env w1 (id bank) "redirect_fallback")
    as (_ & Htimers' & Hblur' & Hclick' & _).
  destruct (redirect_event_observed env w (id bank) "redirect_attempt")
    as (Hnav & Hstarted & _ & Htel).
  destruct (redirect_event_observed env w1 (id bank) "redirect_fallback")
    as (Hnav' & Hstarted' & _ & Htel').
  fold w1 in Htimers, Hblur, Hclick.
  split; [reflexivity |]. split; [| split; [| split]].
  - rewrite !navigations_app, Hnav, Hnav', eqb_empty_decide.
    destruct (decide (fallback_url bank = "")); reflexivity.
  - unfold started_timers in *. rewrite !omap_app, Hstarted, Hstarted'.
    destruct (String.eqb (fallback_url bank) ""); reflexivity.
  - intros url Hurl Hne. split.
    + rewrite !telemetry_events_app, (Htel url Hurl Hne), (Htel' url Hurl Hne).
      destruct (String.eqb (fallback_url bank) ""); reflexivity.
    + unfold sent_field.
      rewrite !sent_payloads_app,
        !(redirect_event_sent env _ _ _ url Hurl Hne).
      assert (Hlast : sent_payloads
                        (if String.eqb (fallback_url bank) "" then []
                         else [ESetLocationHref (fallback_url bank)]) = [])
        by (destruct (String.eqb (fallback_url bank) ""); reflexivity).
      rewrite Hlast. cbn [app fmap list_fmap].
      rewrite !redirect_payload_bank_id. reflexivity.
  - repeat split; congruence.
Qed.

Lemma onBanks_rejected_run env (bankId : string)
    (p : JS (list BankDescriptor)) (banks : list BankDescriptor)
    (e : JsError) (w : World) :
  has_status_text env = true -> has_fallback_link env = true ->
  p w = mkResult (Normal banks) w [] ->
  let target := Redirect.targetBank banks bankId in
  let w1 := set_click_listeners (click_listeners w ++ [CbManualClick target]) w in
  let first := Redirect.tryOpenBank env target w1 in
  res first = Throw e ->
  let w2 := set_click_listeners
              (click_listeners (world first)
               ++ [CbManualClick (Redirect.fallbackBank bankId)])
              (world first) in
  let second := Redirect.tryOpenBank env (Redirect.fallbackBank bankId) w2 in
  let ui := fun bank : BankDescriptor =>
    [ESetStatusText ("Открываем банк: " ++ title bank ++ "…");
     ESetLinkHref (or_string (fallback_url bank) (or_string (deeplink bank) "#"));
     EAddLinkListener "click" (CbManualClick bank)] in
  Redirect.onBanks env bankId p w
  = mkResult (res second) (world second)
      (ui target ++ effects first
       ++ [EConsoleDebug "Redirect: ошибка загрузки банков"]
       ++ ui (Redirect.fallbackBank bankId) ++ effects second)%list.
Proof.
  intros Hstatus Hlink Hp target w1 first Hres1 w2 second ui.
  unfold Redirect.onBanks, mbind, JS_bind.
  assert (Hthen :
    bind p (fun banks0 =>
      bind (Redirect.updateUi env (Redirect.targetBank banks0 bankId))
           (fun _ => Redirect.tryOpenBank env
                       (Redirect.targetBank banks0 bankId))) w
    = mkResult (Throw e) (world first) (ui target ++ effects first)%list).
  { erewrite bind_normal by exact Hp. fold target.
    erewrite bind_normal by (apply updateUi_run; assumption).
    fold w1 first. rewrite Hres1. reflexivity. }
  rewrite (try_catch_throw _ _ _ _ _ _ Hthen).
  unfold console_debug.
  erewrite bind_normal by reflexivity.
  erewrite bind_normal by (apply updateUi_run; assumption).
  fold w2. fold second.
  cbn [res world effects app].
  rewrite <- !app_assoc. reflexivity.
Qed.

Lemma ui_effects_observed (text href : string) (cb : Callback) :
  let ui := [ESetStatusText text; ESetLinkHref href;
             EAddLinkListener "click" cb] in
  navigations ui = [] /\ started_timers ui = []
  /\ telemetry_events ui = [] /\ sent_payloads ui = [].
Proof. repeat split. Qed.

(** X11. When the selected bank has no deep link and writing its
    [fallback_url] to the location raises, the first reaction of the page
    rejects and the second one takes over: it logs, shows the
    synthesized descriptor and tries it, which writes the default
    address.  The page then has sent [redirect_attempt] and
    [redirect_fallback] twice, first for the selected bank and then for
    the synthesized one, and has two click listeners on the manual
    link. *)
Theorem onBanks_retries_with_default env (bankId : string)
    (p : JS (list BankDescriptor)) (banks : list BankDescriptor)
    (e : JsError) (w : World) :
  has_status_text env = true -> has_fallback_link env = true ->
  p w = mkResult (Normal banks) w [] ->
  let target := Redirect.targetBank banks bankId in
  deeplink target = "" -> fallback_url target <> "" ->
  href_assign_throws env (fallback_url target) = Some e ->
  href_assign_throws env "https://www.google.com" = None ->
  let r := Redirect.onBanks env bankId p w in
  res r = Normal tt
  /\ navigations (effects r) = [fallback_url target; "https://www.google.com"]
  /\ started_timers (effects r) = []
  /\ "Redirect: ошибка загрузки банков" ∈ logged (effects r)
  /\ (forall url, API_BASE_URL env = Some url -> url <> "" ->
        telemetry_events (effects r)
          = [VString "redirect_attempt"; VString "redirect_fallback";
             VString "redirect_attempt"; VString "redirect_fallback"]
        /\ sent_field "bank_id" (effects r)
           = [VString (id target); VString (id target);
              VString (or_string bankId "unknown");
              VString (or_string bankId "unknown")])
  /\ click_listeners (world r)
     = (click_listeners w
        ++ [CbManualClick target; CbManualClick (Redirect.fallbackBank bankId)])%list.
Proof.
  intros Hstatus Hlink Hp target Hnolink Hweb Hraise Hdefault r.
  subst r target.
  set (target := Redirect.targetBank banks bankId) in *.
  pose proof (tryOpenBank_no_deeplink_observed env target
                (set_click_listeners
                   (click_listeners w ++ [CbManualClick target]) w) Hnolink)
    as Hfirst.
  cbv zeta in Hfirst.
  destruct Hfirst as (Hres1 & Hnav1 & Hst1 & Htel1 & Hclick1 & _).
  apply String.eqb_neq in Hweb as Hweb'. rewrite Hweb', Hraise in Hres1.
  destruct (decide (fallback_url target = "")) as [Habs | _];
    [contradiction |].
  rewrite (onBanks_rejected_run env bankId p banks e w Hstatus Hlink Hp Hres1).
  cbv zeta. fold target.
  generalize dependent (Redirect.tryOpenBank env target
                          (set_click_listeners
                             (click_listeners w ++ [CbManualClick target]) w)).
  intros first Hres1 Hnav1 Hst1 Htel1 Hclick1.
  pose proof (tryOpenBank_no_deeplink_observed env (Redirect.fallbackBank bankId)
                (set_click_listeners
                   (click_listeners (world first)
                    ++ [CbManualClick (Redirect.fallbackBank bankId)])
                   (world first)) eq_refl) as Hsecond.
  cbv zeta in Hsecond.
  destruct Hsecond as (Hres2 & Hnav2 & Hst2 & Htel2 & Hclick2 & _).
  change (fallback_url (Redirect.fallbackBank bankId))
    with "https://www.google.com" in Hres2, Hnav2.
  change (String.eqb "https://www.google.com" "") with false in Hres2.
  cbv iota in Hres2. rewrite Hdefault in Hres2.
  change (id (Redirect.fallbackBank bankId)) with (or_string bankId "unknown")
    in Htel2.
  generalize dependent (Redirect.tryOpenBank env (Redirect.fallbackBank bankId)
                          (set_click_listeners
                             (click_listeners (world first)
                              ++ [CbManualClick (Redirect.fallbackBank bankId)])
                             (world first))).
  intros second Hres2 Hnav2 Hst2 Htel2 Hclick2.
  cbn [res world effects].
  destruct (ui_effects_observed
              ("Открываем банк: " ++ title target ++ "…")
              (or_string (fallback_url target) (or_string (deeplink target) "#"))
              (CbManualClick target)) as (Hn1 & Hs1 & Ht1 & Hp1).
  destruct (ui_effects_observed
              ("Открываем банк: " ++ title (Redirect.fallbackBank bankId) ++ "…")
              (or_string (fallback_url (Redirect.fallbackBank bankId))
                 (or_string (deeplink (Redirect.fallbackBank bankId)) "#"))
              (CbManualClick (Redirect.fallbackBank bankId)))
    as (Hn2 & Hs2 & Ht2 & Hp2).
  split; [exact Hres2 |]. split; [| split; [| split; [| split]]].
  - rewrite !navigations_app, Hn1, Hn2, Hnav1, Hnav2. reflexivity.
  - unfold started_timers in *. rewrite !omap_app, Hs1, Hs2, Hst1, Hst2.
    reflexivity.
  - unfold logged. rewrite !omap_app. apply elem_of_app. right.
    apply elem_of_app. right. apply elem_of_app. left.
    apply list_elem_of_here.
  - intros url Hurl Hne.
    destruct (Htel1 url Hurl Hne) as [Hev1 Hid1].
    destruct (Htel2 url Hurl Hne) as [Hev2 Hid2].
    split.
    + rewrite !telemetry_events_app, Ht1, Ht2, Hev1, Hev2. reflexivity.
    + unfold sent_field in *.
      rewrite !sent_payloads_app, Hp1, Hp2, !fmap_app, Hid1, Hid2.
      reflexivity.
  - rewrite Hclick2. cbn [click_listeners set_click_listeners].
    rewrite Hclick1. cbn [click_listeners set_click_listeners].
    rewrite <- app_assoc. reflexivity.
Qed.

Lemma onBanks_retries_with_default_witness :
  let r := Redirect.onBanks env_only_default "web" (ret [web_only])
             Samples.world0 in
  res r = Normal tt
  /\ navigations (effects r)
     = ["https://bank.example/login"; "https://www.google.com"]
  /\ click_listeners (world r)
     = [CbManualClick web_only; CbManualClick (Redirect.fallbackBank "web")].
Proof.
  destruct (onBanks_retries_with_default env_only_default "web"
              (ret [web_only]) [web_only] (HostError "blocked") Samples.world0)
    as (Hres & Hnav & _ & _ & _ & Hclick).
  - reflexivity.
  - reflexivity.
  - reflexivity.
  - reflexivity.
  - discriminate.
  - reflexivity.
  - reflexivity.
  - split; [exact Hres |]. split; [exact Hnav | exact Hclick].
Defined.

Lemma bind_throw_run {A B} (c : JS A) (k : A -> JS B) w e w' es :
  c w = mkResult (Throw e) w' es ->
  bind c k w = mkResult (Throw e) w' es.
Proof. intros H. unfold bind. rewrite H. reflexivity. Qed.

Lemma updateUi_without_status env (bank : BankDescriptor) (w : World) :
  has_status_text env = false ->
  Redirect.updateUi env bank w
  = mkResult (Throw (TypeError "statusText is null")) w [].
Proof.
  intros Hstatus. unfold Redirect.updateUi, set_status_text.
  rewrite Hstatus. reflexivity.
Qed.

(** X12. On a page without the status element both reactions to the
    directory throw at their first step: the page logs the load error
    once and the chain ends rejected, with nothing sent, no timer
    started, no listener registered and no location written, whatever
    the directory was. *)
Theorem onBanks_without_status_element env (bankId : string)
    (p : JS (list BankDescriptor)) (banks : list BankDescriptor) (w : World) :
  has_status_text env = false ->
  p w = mkResult (Normal banks) w [] ->
  Redirect.onBanks env bankId p w
  = mkResult (Throw (TypeError "statusText is null")) w
      [EConsoleDebug "Redirect: ошибка загрузки банков"].
Proof.
  intros Hstatus Hp. unfold Redirect.onBanks, mbind, JS_bind.
  erewrite try_catch_throw.
  2:{ erewrite bind_normal by exact Hp.
      erewrite bind_throw_run by (apply updateUi_without_status, Hstatus).
      reflexivity. }
  unfold console_debug.
  erewrite bind_normal by reflexivity.
  erewrite bind_throw_run by (apply updateUi_without_status, Hstatus).
  reflexivity.
Qed.

Lemma onBanks_without_status_element_witness :
  Redirect.onBanks env_no_status "vtb" (ret BankLoader.fallback_banks)
    Samples.world0
  = mkResult (Throw (TypeError "statusText is null")) Samples.world0
      [EConsoleDebug "Redirect: ошибка загрузки банков"].
Proof.
  apply (onBanks_without_status_element env_no_status "vtb"
           (ret BankLoader.fallback_banks) BankLoader.fallback_banks
           Samples.world0); reflexivity.
Defined.

(** ** Selecting a bank by its own id *)

Lemma find_own_id (banks : list BankDescriptor) (d : BankDescriptor) :
  NoDup (id <$> banks) -> d ∈ banks ->
  List.find (fun bank => String.eqb (id bank) (id d)) banks = Some d.
Proof.
  induction banks as [| b banks IH]; intros Hnodup Hin; [inversion Hin |].
  cbn [fmap list_fmap] in Hnodup. apply NoDup_cons in Hnodup as [Hfresh Hnodup].
  cbn [List.find].
  destruct (String.eqb_spec (id b) (id d)) as [Heq | Hne].
  - apply elem_of_cons in Hin as [-> | Hin]; [reflexivity |].
    exfalso. apply Hfresh. rewrite Heq. apply list_elem_of_fmap.
    exists d. split; [reflexivity | exact Hin].
  - apply elem_of_cons in Hin as [-> | Hin]; [contradiction |].
    apply IH; assumption.
Qed.

(** X13. Selecting by the id of the selected bank selects the same bank
    again, for every directory and every [bank_id]; and in a directory
    whose ids are pairwise distinct every descriptor is the one selected
    by its own id. *)
Theorem targetBank_reselects (banks : list BankDescriptor) (bankId : string) :
  Redirect.targetBank banks (id (Redirect.targetBank banks bankId))
  = Redirect.targetBank banks bankId
  /\ (NoDup (id <$> banks) ->
      forall d, d ∈ banks -> Redirect.targetBank banks (id d) = d).
Proof.
  split.
  - unfold Redirect.targetBank at 2 3.
    destruct (List.find (fun bank => String.eqb (id bank) bankId) banks)
      as [d |] eqn:Hfind.
    + assert (Htarget : default (Redirect.fallbackBank bankId)
                          (Some d ∪ banks !! 0%nat) = d)
        by (destruct (banks !! 0%nat); reflexivity).
      rewrite Htarget.
      pose proof (List.find_some _ _ Hfind) as [_ Hid].
      apply String.eqb_eq in Hid.
      rewrite Hid. unfold Redirect.targetBank. rewrite Hfind. exact Htarget.
    + destruct banks as [| d0 rest].
      * cbn. unfold Redirect.targetBank, Redirect.fallbackBank, or_string. cbn.
        destruct (String.eqb_spec bankId "") as [-> | Hne]; [reflexivity |].
        apply String.eqb_neq in Hne. rewrite Hne. reflexivity.
      * cbn [lookup]. change ((d0 :: rest) !! 0%nat) with (Some d0).
        change (default (Redirect.fallbackBank bankId) (None ∪ Some d0)) with d0.
        unfold Redirect.targetBank. cbn [List.find].
        rewrite String.eqb_refl. reflexivity.
  - intros Hnodup d Hin. unfold Redirect.targetBank.
    rewrite (find_own_id banks d Hnodup Hin).
    destruct (banks !! 0%nat); reflexivity.
Qed.

Lemma fallback_banks_ids_distinct : NoDup (id <$> BankLoader.fallback_banks).
Proof. apply (bool_decide_unpack _). vm_compute. exact I. Qed.

Lemma targetBank_reselects_witness :
  Redirect.targetBank BankLoader.fallback_banks (id Samples.vtb) = Samples.vtb.
Proof.
  apply (proj2 (targetBank_reselects BankLoader.fallback_banks "")).
  - apply (bool_decide_unpack _). vm_compute. exact I.
  - unfold BankLoader.fallback_banks, Samples.vtb.
    do 7 apply list_elem_of_further. apply list_elem_of_here.
Defined.

Lemma loadBanks_settled_failure (o : FetchOutcome) (w : World) :
  LoadFailure o ->
  BankLoader.loadBanks_settled o w
  = mkResult (Normal BankLoader.fallback_banks) w
      [EConsoleDebug "BankLoader: ошибка загрузки, используем запасной список"].
Proof.
  intros Hfail.
  unfold BankLoader.loadBanks_settled, try_catch, mbind, JS_bind, bind.
  destruct Hfail as [e | r Hstatus | r Hbody]; simpl.
  - reflexivity.
  - rewrite (response_not_ok r Hstatus). reflexivity.
  - destruct (response_ok r); simpl; [| reflexivity].
    unfold BankLoader.response_json. rewrite Hbody. reflexivity.
Qed.

(** X14. When the directory cannot be loaded, every bank of the built-in
    list is still the one the page selects for its own id, and each of
    them has a deep link and a web address, so the page takes the timed
    deep-link path for it and has somewhere to fall back to. *)
Theorem builtin_bank_selected_after_failure (o : FetchOutcome) (w : World)
    (d : BankDescriptor) :
  LoadFailure o -> d ∈ BankLoader.fallback_banks ->
  exists banks,
    res (BankLoader.loadBanks_settled o w) = Normal banks
    /\ Redirect.targetBank banks (id d) = d
    /\ deeplink d <> "" /\ fallback_url d <> "".
Proof.
  intros Hfail Hin. exists BankLoader.fallback_banks.
  split; [rewrite (loadBanks_settled_failure o w Hfail); reflexivity |].
  split.
  - unfold Redirect.targetBank.
    rewrite (find_own_id _ d fallback_banks_ids_distinct Hin). reflexivity.
  - revert d Hin. apply Forall_forall.
    unfold BankLoader.fallback_banks.
    repeat (apply Forall_cons; split; [split; discriminate |]).
    apply Forall_nil. exact I.
Qed.

Lemma builtin_bank_selected_after_failure_witness :
  exists banks,
    res (BankLoader.loadBanks_settled (NetworkError (Error "offline"))
           Samples.world0) = Normal banks
    /\ Redirect.targetBank banks (id Samples.vtb) = Samples.vtb
    /\ deeplink Samples.vtb <> "" /\ fallback_url Samples.vtb <> "".
Proof.
  apply (builtin_bank_selected_after_failure (NetworkError (Error "offline"))
           Samples.world0 Samples.vtb).
  - apply network_error.
  - unfold BankLoader.fallback_banks, Samples.vtb.
    do 7 apply list_elem_of_further. apply list_elem_of_here.
Defined.

(** ** One context for every event of a page view *)

Lemma steady_silent {A} (c : JS A) :
  (forall w, telegramContext (world (c w)) = telegramContext w
             /\ sent_payloads (effects (c w)) = []) ->
  steady c.
Proof.
  intros Hc w. destruct (Hc w) as [Hctx Hsent].
  split; [exact Hctx |]. rewrite Hsent. constructor.
Qed.

Lemma steady_bind {A B} (c : JS A) (k : A -> JS B) :
  steady c -> (forall a, steady (k a)) -> steady (bind c k).
Proof.
  intros Hc Hk w. unfold bind. destruct (Hc w) as [Hctx Hsent].
  destruct (res (c w)) as [a | e]; cbn [world effects]; [| split; assumption].
  destruct (Hk a (world (c w))) as [Hctx' Hsent']. rewrite Hctx in *.
  split; [exact Hctx' |].
  rewrite sent_payloads_app. apply Forall_app. split; assumption.
Qed.

Lemma steady_try_catch {A} (c : JS A) (h : JsError -> JS A) :
  steady c -> (forall e, steady (h e)) -> steady (try_catch c h).
Proof.
  intros Hc Hh w. unfold try_catch. destruct (Hc w) as [Hctx Hsent].
  destruct (res (c w)) as [a | e]; cbn [world effects]; [split; assumption |].
  destruct (Hh e (world (c w))) as [Hctx' Hsent']. rewrite Hctx in *.
  split; [exact Hctx' |].
  rewrite sent_payloads_app. apply Forall_app. split; assumption.
Qed.

Lemma steady_ret {A} (a : A) : steady (ret a).
Proof. apply steady_silent. intros w. split; reflexivity. Qed.

Lemma steady_throw {A} (e : JsError) : steady (@throw A e).
Proof. apply steady_silent. intros w. split; reflexivity. Qed.

Lemma steady_console_debug (msg : string) : steady (console_debug msg).
Proof. apply steady_silent. intros w. split; reflexivity. Qed.

Lemma steady_fetch env url init k : steady (fetch env url init k).
Proof.
  apply steady_silent. intros w. rewrite fetch_run.
  destruct (fetch_throws env url); split; reflexivity.
Qed.

Lemma steady_setTimeout cb delay : steady (setTimeout cb delay).
Proof. apply steady_silent. intros w. split; reflexivity. Qed.

Lemma steady_clearTimeout t : steady (clearTimeout t).
Proof. apply steady_silent. intros w. split; reflexivity. Qed.

Lemma steady_window_addBlurListener cb once :
  steady (window_addBlurListener cb once).
Proof. apply steady_silent. intros w. split; reflexivity. Qed.

Lemma steady_set_location_href env url : steady (set_location_href env url).
Proof.
  apply steady_silent. intros w. rewrite set_location_href_run.
  split; reflexivity.
Qed.

Lemma steady_set_status_text env text : steady (set_status_text env text).
Proof.
  apply steady_silent. intros w. unfold set_status_text.
  destruct (has_status_text env); split; reflexivity.
Qed.

Lemma steady_set_link_href env url : steady (set_link_href env url).
Proof.
  apply steady_silent. intros w. unfold set_link_href.
  destruct (has_fallback_link env); split; reflexivity.
Qed.

Lemma steady_link_addClickListener env cb : steady (link_addClickListener env cb).
Proof.
  apply steady_silent. intros w. unfold link_addClickListener.
  destruct (has_fallback_link env); split; reflexivity.
Qed.

Lemma redirect_payload_from_context env (w : World) (bank_id eventType : string) :
  from_context (telegramContext w) (redirect_payload env w bank_id eventType).
Proof.
  split; [| reflexivity].
  unfold redirect_payload. rewrite payload_transfer_id. reflexivity.
Qed.

(** The page's way of sending an event: the context is read from the
    variable when the event is sent. *)
Lemma steady_redirect_event {B} env (bank_id eventType : string)
    (k : unit -> JS B) :
  truthy (VString eventType) = true ->
  (forall u, steady (k u)) ->
  steady (bind getTelegramContext (fun ctx =>
            bind (ApiClient.sendRedirectEvent env ctx (VString bank_id)
                    (VString eventType) VUndefined) k)).
Proof.
  intros Htruthy Hk w. rewrite (redirect_event_run env _ _ k w Htruthy).
  cbv zeta. cbn [world effects].
  destruct (after_redirect_event_frame env w bank_id eventType) as (Hctx & _).
  destruct (Hk tt (after_redirect_event env w bank_id eventType))
    as [Hctx' Hsent'].
  rewrite Hctx in *. split; [exact Hctx' |].
  rewrite sent_payloads_app. apply Forall_app. split; [| exact Hsent'].
  unfold redirect_event_effects.
  destruct (post_effects_shape env (redirect_payload env w bank_id eventType)
              (next_handle w))
    as [[-> _] | [-> | (url & body & ->)]]; repeat constructor;
    apply redirect_payload_from_context.
Qed.

Lemma steady_redirect_event_last env (bank_id eventType : string) :
  truthy (VString eventType) = true ->
  steady (bind getTelegramContext (fun ctx =>
            ApiClient.sendRedirectEvent env ctx (VString bank_id)
              (VString eventType) VUndefined)).
Proof.
  intros Htruthy w.
  pose proof (steady_redirect_event env bank_id eventType (fun _ => ret tt)
                Htruthy (fun _ => steady_ret tt) w) as [Hctx Hsent].
  rewrite bind_getTelegramContext in *.
  unfold bind in Hctx, Hsent.
  destruct (ApiClient.sendRedirectEvent env (VObject (telegramContext w))
              (VString bank_id) (VString eventType) VUndefined w)
    as [[[] | e] w' es]; cbn [res world effects ret] in *.
  - rewrite app_nil_r in Hsent. split; assumption.
  - split; assumption.
Qed.

(** Walks a computation of the redirect page, by its syntax. *)
Ltac steady_step :=
  lazymatch goal with
  | |- steady (bind getTelegramContext (fun ctx =>
                 bind (ApiClient.sendRedirectEvent _ ctx _ _ _) _)) =>
      apply steady_redirect_event; [reflexivity | intros ?]
  | |- steady (bind getTelegramContext (fun ctx =>
                 ApiClient.sendRedirectEvent _ ctx _ _ _)) =>
      apply steady_redirect_event_last; reflexivity
  | |- steady (bind _ _) => apply steady_bind; [| intros ?]
  | |- steady (try_catch _ _) => apply steady_try_catch; [| intros ?]
  | |- steady (ret _) => apply steady_ret
  | |- steady (throw _) => apply steady_throw
  | |- steady (console_debug _) => apply steady_console_debug
  | |- steady (fetch _ _ _ _) => apply steady_fetch
  | |- steady (setTimeout _ _) => apply steady_setTimeout
  | |- steady (clearTimeout _) => apply steady_clearTimeout
  | |- steady (window_addBlurListener _ _) => apply steady_window_addBlurListener
  | |- steady (set_location_href _ _) => apply steady_set_location_href
  | |- steady (set_status_text _ _) => apply steady_set_status_text
  | |- steady (set_link_href _ _) => apply steady_set_link_href
  | |- steady (link_addClickListener _ _) => apply steady_link_addClickListener
  | |- steady (if ?b then _ else _) => destruct b
  | |- steady (match ?x with _ => _ end) => destruct x
  | |- steady _ => solve [assumption | auto]
  end.

Ltac steady_walk := unfold mbind, JS_bind; repeat steady_step.

Lemma steady_switchToFallback env bank : steady (Redirect.switchToFallback env bank).
Proof. unfold Redirect.switchToFallback. steady_walk. Qed.

Lemma steady_updateUi env bank : steady (Redirect.updateUi env bank).
Proof. unfold Redirect.updateUi. steady_walk. Qed.

Lemma steady_tryOpenBank env bank : steady (Redirect.tryOpenBank env bank).
Proof.
  pose proof (steady_switchToFallback env bank).
  unfold Redirect.tryOpenBank. steady_walk.
Qed.

Lemma steady_loadBanks_settled o : steady (BankLoader.loadBanks_settled o).
Proof.
  unfold BankLoader.loadBanks_settled, BankLoader.fetch_settled,
    BankLoader.response_json. steady_walk.
Qed.

Lemma steady_loadBanks env consumer : steady (BankLoader.loadBanks env consumer).
Proof. unfold BankLoader.loadBanks. steady_walk. Qed.

Lemma steady_onBanks env bankId p :
  steady p -> steady (Redirect.onBanks env bankId p).
Proof.
  intros Hp.
  pose proof (steady_updateUi env). pose proof (steady_tryOpenBank env).
  unfold Redirect.onBanks. steady_walk.
Qed.

Lemma steady_safePost_settled outcome : steady (ApiClient.safePost_settled outcome).
Proof. unfold ApiClient.safePost_settled. steady_walk. Qed.

Lemma steady_run_callback env cb : steady (Redirect.run_callback env cb).
Proof.
  pose proof (steady_switchToFallback env).
  unfold Redirect.run_callback. destruct cb; steady_walk.
Qed.

Lemma run_task_steady (c : JS unit) (w : World) :
  steady c ->
  telegramContext (fst (Redirect.run_task c w)) = telegramContext w
  /\ Forall (from_context (telegramContext w))
            (sent_payloads (snd (Redirect.run_task c w))).
Proof.
  intros Hc. destruct (Hc w) as [Hctx Hsent].
  unfold Redirect.run_task. cbn [fst snd]. split; [exact Hctx |].
  rewrite sent_payloads_app. apply Forall_app. split; [exact Hsent |].
  destruct (res (c w)); repeat constructor.
Qed.

Lemma run_listeners_steady env (cbs : list Callback) (w : World) :
  telegramContext (fst (Redirect.run_listeners env cbs w)) = telegramContext w
  /\ Forall (from_context (telegramContext w))
            (sent_payloads (snd (Redirect.run_listeners env cbs w))).
Proof.
  induction cbs as [| cb cbs IH] using rev_ind.
  - split; [reflexivity | constructor].
  - rewrite run_listeners_snoc. cbv zeta. cbn [fst snd].
    destruct IH as [Hctx Hsent].
    destruct (run_task_steady (Redirect.run_callback env cb)
                (fst (Redirect.run_listeners env cbs w))
                (steady_run_callback env cb)) as [Hctx' Hsent'].
    rewrite Hctx in *. split; [exact Hctx' |].
    rewrite sent_payloads_app. apply Forall_app. split; assumption.
Qed.

Lemma step_steady env (ev : Redirect.Event) (w : World) :
  ev <> Redirect.DOMContentLoaded ->
  telegramContext (fst (Redirect.step env ev w)) = telegramContext w
  /\ Forall (from_context (telegramContext w))
            (sent_payloads (snd (Redirect.step env ev w))).
Proof.
  intros Hev. unfold Redirect.step.
  destruct (alive w); [| split; [reflexivity | constructor]].
  cbn [negb]. cbv iota.
  destruct ev as [| p o | t | | |]; [contradiction | | | | |].
  - destruct (find_handle p (fetches w)) as [[| [b]] |];
      [| | split; [reflexivity | constructor]].
    + apply (run_task_steady _ (set_fetches _ w)), steady_safePost_settled.
    + apply (run_task_steady _ (set_fetches _ w)), steady_onBanks,
        steady_loadBanks_settled.
  - destruct (find_handle t (timers w)) as [cb |];
      [| split; [reflexivity | constructor]].
    apply (run_task_steady _ (set_timers _ w)), steady_run_callback.
  - apply (run_listeners_steady env _ (set_blur_listeners _ w)).
  - apply run_listeners_steady.
  - split; [reflexivity | constructor].
Qed.

Lemma run_steady env (evs : list Redirect.Event) (w : World) :
  Redirect.DOMContentLoaded ∉ evs ->
  Forall (from_context (telegramContext w))
         (sent_payloads (snd (Redirect.run env evs w))).
Proof.
  revert w. induction evs as [| ev evs IH]; intros w Hnot; [constructor |].
  cbn [Redirect.run].
  assert (Hev : ev <> Redirect.DOMContentLoaded)
    by (intros ->; apply Hnot; left).
  assert (Hrest : Redirect.DOMContentLoaded ∉ evs)
    by (intros Hin; apply Hnot; right; exact Hin).
  destruct (step_steady env ev w Hev) as [Hctx Hsent].
  destruct (Redirect.step env ev w) as [w1 es1]. cbn [fst snd] in *.
  specialize (IH w1 Hrest). destruct (Redirect.run env evs w1) as [w2 es2].
  cbn [fst snd] in *. rewrite Hctx in IH.
  rewrite sent_payloads_app. apply Forall_app. split; assumption.
Qed.

Lemma step_dom_content_loaded_steady env (w : World) :
  alive w = true ->
  let w1 := world (Redirect.backfillStartParam env w) in
  telegramContext (fst (Redirect.step env Redirect.DOMContentLoaded w))
  = telegramContext w1
  /\ Forall (from_context (telegramContext w1))
       (sent_payloads (snd (Redirect.step env Redirect.DOMContentLoaded w))).
Proof.
  intros Halive w1. rewrite (step_dom_content_loaded env w Halive).
  assert (Hrest : steady
    (bind getTelegramContext (fun ctx =>
       bind (ApiClient.sendRedirectEvent env ctx
               (VString (Redirect.bankId env)) (VString "redirect_open")
               VUndefined)
            (fun _ => bind (BankLoader.loadBanks env
                              (RedirectPage (Redirect.bankId env)))
                           (fun _ => ret tt))))).
  { pose proof (steady_loadBanks env). steady_walk. }
  destruct (Hrest w1) as [Hctx Hsent].
  assert (Hrun : Redirect.onDOMContentLoaded env w
    = (bind getTelegramContext (fun ctx =>
         bind (ApiClient.sendRedirectEvent env ctx
                 (VString (Redirect.bankId env)) (VString "redirect_open")
                 VUndefined)
              (fun _ => bind (BankLoader.loadBanks env
                                (RedirectPage (Redirect.bankId env)))
                             (fun _ => ret tt)))) w1).
  { unfold Redirect.onDOMContentLoaded, mbind, JS_bind.
    erewrite bind_normal by apply backfillStartParam_run.
    cbn [app]. subst w1. rewrite backfillStartParam_run. cbn [world].
    apply result_eta. }
  unfold Redirect.run_task. rewrite Hrun. cbn [fst snd].
  split; [exact Hctx |].
  rewrite sent_payloads_app. apply Forall_app. split; [exact Hsent |].
  destruct (res _); repeat constructor.
Qed.

(** X15. Every payload of one page view is built from one and the same
    context: after the [DOMContentLoaded] handler has set the start
    parameter, whatever events follow (settled requests, timer, blur,
    clicks, unload), each event the page sends carries the [transfer_id]
    that [redirect_open] carried, and the page name [redirect]. *)
Theorem page_view_sends_one_transfer_id env (evs : list Redirect.Event)
    (w : World) :
  alive w = true -> Redirect.DOMContentLoaded ∉ evs ->
  let context := telegramContext (world (Redirect.backfillStartParam env w)) in
  Forall (fun p =>
            get_prop p "transfer_id" = transfer_id_of (VObject context)
            /\ get_prop p "page" = VString "redirect")
         (sent_payloads
            (snd (Redirect.run env (Redirect.DOMContentLoaded :: evs) w))).
Proof.
  intros Halive Hnot context. cbn [Redirect.run].
  destruct (step_dom_content_loaded_steady env w Halive) as [Hctx Hsent].
  cbv zeta in Hctx, Hsent. fold context in Hctx, Hsent.
  destruct (Redirect.step env Redirect.DOMContentLoaded w) as [w1 es1].
  cbn [fst snd] in *.
  pose proof (run_steady env evs w1 Hnot) as Hrest. rewrite Hctx in Hrest.
  destruct (Redirect.run env evs w1) as [w2 es2]. cbn [fst snd] in *.
  rewrite sent_payloads_app. apply Forall_app. split; assumption.
Qed.

Lemma page_view_sends_one_transfer_id_witness :
  Forall (fun p =>
            get_prop p "transfer_id"
            = transfer_id_of
                (VObject (telegramContext
                            (world (Redirect.backfillStartParam Samples.env_ok
                                      Samples.world0))))
            /\ get_prop p "page" = VString "redirect")
         (sent_payloads
            (snd (Redirect.run Samples.env_ok
                    [Redirect.DOMContentLoaded;
                     Redirect.FetchSettled 1 (NetworkError (Error "offline"));
                     Redirect.TimerElapsed 3]
                    Samples.world0))).
Proof.
  apply (page_view_sends_one_transfer_id Samples.env_ok
           [Redirect.FetchSettled 1 (NetworkError (Error "offline"));
            Redirect.TimerElapsed 3] Samples.world0).
  - reflexivity.
  - intros Hin.
    repeat (apply elem_of_cons in Hin as [Hin | Hin]; [discriminate |]).
    inversion Hin.
Defined.

(** ** The blur listeners *)

Lemma find_handle_remove_other {A} (t t' : nat) (l : list (nat * A)) :
  find_handle t l = None -> find_handle t (remove_handle t' l) = None.
Proof.
  induction l as [| [h a] l IH]; [reflexivity |]. cbn [find_handle remove_handle].
  destruct (Nat.eqb h t) eqn:Ht; [discriminate |]. intros Hl.
  destruct (Nat.eqb h t'); [apply IH, Hl |].
  cbn [find_handle]. rewrite Ht. apply IH, Hl.
Qed.

Lemma clear_listeners_run env (ts : list nat) (w : World) :
  let ran := Redirect.run_listeners env (CbClearTimeout <$> ts) w in
  snd ran = EClearTimeout <$> ts
  /\ Forall (fun t => find_handle t (timers (fst ran)) = None) ts
  /\ (forall t, find_handle t (timers w) = None ->
                find_handle t (timers (fst ran)) = None)
  /\ telegramContext (fst ran) = telegramContext w
  /\ fetches (fst ran) = fetches w
  /\ click_listeners (fst ran) = click_listeners w
  /\ blur_listeners (fst ran) = blur_listeners w
  /\ alive (fst ran) = alive w.
Proof.
  induction ts as [| t ts IH] using rev_ind.
  - cbv zeta. cbn. repeat split; auto.
  - cbv zeta in *. rewrite fmap_app. cbn [fmap list_fmap].
    rewrite run_listeners_snoc. cbv zeta.
    destruct IH as (Heff & Hgone & Hkept & Hctx & Hfetch & Hclick & Hblur & Hlive).
    set (w1 := fst (Redirect.run_listeners env (CbClearTimeout <$> ts) w)) in *.
    change (Redirect.run_task (Redirect.run_callback env (CbClearTimeout t)) w1)
      with (set_timers (remove_handle t (timers w1)) w1, [EClearTimeout t]).
    cbn [fst snd timers set_timers telegramContext fetches click_listeners
         blur_listeners alive].
    split; [rewrite Heff, fmap_app; reflexivity |].
    split.
    { apply Forall_app. split.
      - eapply Forall_impl; [exact Hgone |]. intros t' Ht'.
        apply find_handle_remove_other, Ht'.
      - repeat constructor. apply find_handle_removed. }
    split.
    { intros t' Ht'. apply find_handle_remove_other, Hkept, Ht'. }
    repeat split; assumption.
Qed.

Lemma filter_once_listeners (ts : list nat) :
  List.filter (fun l : Callback * bool => negb (snd l))
              ((fun t => (CbClearTimeout t, true)) <$> ts) = [].
Proof. induction ts as [| t ts IH]; [reflexivity | exact IH]. Qed.

Lemma step_blur_run env (ts : list nat) (w : World) :
  alive w = true ->
  blur_listeners w = (fun t => (CbClearTimeout t, true)) <$> ts ->
  Redirect.step env Redirect.Blur w
  = Redirect.run_listeners env (CbClearTimeout <$> ts) (set_blur_listeners [] w).
Proof.
  intros Halive Hblur. unfold Redirect.step.
  rewrite Halive, Hblur. cbn [negb]. cbv iota.
  rewrite filter_once_listeners.
  change (map fst ((fun t => (CbClearTimeout t, true)) <$> ts))
    with (fst <$> ((fun t => (CbClearTimeout t, true)) <$> ts)).
  rewrite <- list_fmap_compose. reflexivity.
Qed.

(** X16. The blur listeners are the ones [tryOpenBank] registers: each
    clears its timer and is registered once-only.  A blur on a live page
    therefore does nothing but clear those timers: nothing is sent, no
    location is written, every such timer is gone and will not fire, all
    the listeners are removed, and a second blur does nothing at all. *)
Theorem blur_only_clears_timers env (ts : list nat) (w : World) :
  alive w = true ->
  blur_listeners w = (fun t => (CbClearTimeout t, true)) <$> ts ->
  let blurred := Redirect.step env Redirect.Blur w in
  snd blurred = EClearTimeout <$> ts
  /\ blur_listeners (fst blurred) = []
  /\ Forall (fun t =>
               Redirect.step env (Redirect.TimerElapsed t) (fst blurred)
               = (fst blurred, [])) ts
  /\ telegramContext (fst blurred) = telegramContext w
  /\ fetches (fst blurred) = fetches w
  /\ click_listeners (fst blurred) = click_listeners w
  /\ Redirect.step env Redirect.Blur (fst blurred) = (fst blurred, []).
Proof.
  intros Halive Hblur blurred. subst blurred.
  rewrite (step_blur_run env ts w Halive Hblur).
  destruct (clear_listeners_run env ts (set_blur_listeners [] w))
    as (Heff & Hgone & _ & Hctx & Hfetch & Hclick & Hblur' & Hlive).
  set (ran := Redirect.run_listeners env (CbClearTimeout <$> ts)
                (set_blur_listeners [] w)) in *.
  split; [exact Heff |]. split; [exact Hblur' |]. split.
  { eapply Forall_impl; [exact Hgone |]. intros t Ht.
    apply step_timer_absent, Ht. }
  split; [exact Hctx |]. split; [exact Hfetch |]. split; [exact Hclick |].
  cbn [alive blur_listeners set_blur_listeners] in Hlive, Hblur'.
  unfold Redirect.step. rewrite Hlive, Halive, Hblur'.
  cbn [negb map List.filter]. unfold Redirect.run_listeners. cbn [foldl].
  rewrite <- Hblur'. destruct (fst ran). reflexivity.
Qed.

Lemma blur_only_clears_timers_witness :
  let w := world (Redirect.tryOpenBank Samples.env_ok Samples.vtb
                    Samples.world0) in
  let blurred := Redirect.step Samples.env_ok Redirect.Blur w in
  snd blurred = [EClearTimeout 1]
  /\ blur_listeners (fst blurred) = []
  /\ Redirect.step Samples.env_ok Redirect.Blur (fst blurred)
     = (fst blurred, []).
Proof.
  destruct (blur_only_clears_timers Samples.env_ok [1]
              (world (Redirect.tryOpenBank Samples.env_ok Samples.vtb
                        Samples.world0)))
    as (Heff & Hnone & _ & _ & _ & _ & Hagain).
  - reflexivity.
  - reflexivity.
  - split; [exact Heff |]. split; [exact Hnone | exact Hagain].
Defined.
